(** * Universal Model Registry: the query engine of [registry.py]

    A shallow embedding of the four tools of [registry.py] ([list_models],
    [get_model_info], [recommend_model], [check_model_status]) and of their
    helpers, followed by the properties of the identifier resolver, the
    filter engine and the recommendation scorer; then of the script
    [scripts/validate_models.py], run against the answers of the APIs it
    calls, and of its reports.

    Conventions of the embedding.
    - A Python [str] is a [string]: the bytes of its UTF-8 encoding.  Equality,
      the substring test [in] and the code-point order used by [sorted] are
      the same on code points and on UTF-8 bytes.
    - [str.lower] is a parameter [lower] of the development: the results hold
      for every case mapping, Unicode's included.  [ascii_lower] is its
      restriction to ASCII, used to run the code on ASCII data.
    - The numbers of the scorer (Python [float], mixed with [int] literals)
      are a type [num] with the operations the code uses, the class [Arith].
      Two instances are given: IEEE binary64 ([float], what CPython computes
      with) and exact rationals ([Q]).  The properties are proved for every
      instance and run in binary64; what depends on the order of the numbers
      assumes that [<] is a strict weak order on the numbers compared, as it
      is in binary64 when none of them is NaN.  The rationals are the exact
      scores the computed ones are measured against.
    - [MODELS], the table of [models_data.py], is a parameter: the list of the
      dict's items in insertion order.  The tools are embedded twice.  On
      records ([ModelRecord]), where every record carries all thirteen fields
      with their types; and on the dicts themselves, where a subscription can
      raise [KeyError].  On dicts of the schema the second embedding returns
      the texts of the first. *)

From Stdlib Require Import List String Ascii Bool ZArith QArith Lia Lqa.
From Stdlib Require Import Qabs Floats DecimalString Permutation Sorted.
Import ListNotations.
Open Scope string_scope.

(** ** Strings *)

(** [needle in hay] on Python strings. *)
Fixpoint str_in (needle hay : string) : bool :=
  String.prefix needle hay ||
  match hay with
  | EmptyString => false
  | String _ rest => str_in needle rest
  end.

(** [sep.join(parts)] is [String.concat sep parts]. *)
Definition join (sep : string) (parts : list string) : string :=
  String.concat sep parts.

(** The ASCII part of [str.lower]: the 26 capitals are mapped to their small
    letters, every other byte is kept. *)
Definition ascii_lower_char (c : ascii) : ascii :=
  let n := nat_of_ascii c in
  if ((65 <=? n) && (n <=? 90))%nat then ascii_of_nat (n + 32) else c.

Fixpoint ascii_lower (s : string) : string :=
  match s with
  | EmptyString => EmptyString
  | String c rest => String (ascii_lower_char c) (ascii_lower rest)
  end.

(** Line feed, the separator of the rendered lines. *)
Definition nl : string := String (ascii_of_nat 10) EmptyString.

(** ** Formatting of numbers *)

(** [str(n)] for a non-negative [int]. *)
Definition digits_of_Z (n : Z) : string :=
  NilZero.string_of_uint (N.to_uint (Z.abs_N n)).

(** Insertion of the thousands separators, on the reversed digits; [i] is the
    number of digits already passed. *)
Fixpoint group_rev (i : nat) (rev_digits : list ascii) : list ascii :=
  match rev_digits with
  | [] => []
  | d :: ds =>
      if (Nat.ltb 0 i && Nat.eqb (i mod 3) 0)%bool
      then ","%char :: d :: group_rev (S i) ds
      else d :: group_rev (S i) ds
  end.

(** [f"{n:,}"] for an [int]. *)
Definition format_thousands (n : Z) : string :=
  let body :=
    string_of_list_ascii
      (rev (group_rev 0 (rev (list_ascii_of_string (digits_of_Z n))))) in
  if (n <? 0)%Z then "-" ++ body else body.

(** Rounding of the non-negative rational [a / b] to the nearest integer,
    ties to even. *)
Definition round_half_even (a : Z) (b : positive) : Z :=
  let fl := (a / Zpos b)%Z in
  let r := (a mod Zpos b)%Z in
  match (2 * r ?= Zpos b)%Z with
  | Lt => fl
  | Gt => (fl + 1)%Z
  | Eq => if Z.even fl then fl else (fl + 1)%Z
  end.

(** [f"{x:.2f}"] for a non-negative rational [x]. *)
Definition format_2f_nonneg (x : Q) : string :=
  let cents := round_half_even (Qnum x * 100) (Qden x) in
  let frac := (cents mod 100)%Z in
  digits_of_Z (cents / 100) ++ "." ++
  (if (frac <? 10)%Z then "0" else "") ++ digits_of_Z frac.

(** ** Arithmetic of the scorer *)

(** The operations [registry.py] applies to prices and scores.  [max] and
    [min] are Python's builtins on two arguments: [max(a, b)] is [b] when
    [b > a] and [a] otherwise, [min(a, b)] is [b] when [b < a]. *)
Class Arith (num : Type) : Type := {
  of_int : Z -> num;            (* an int operand of a mixed operation *)
  lit_0_3 : num;               (* the literal 0.3 *)
  add : num -> num -> num;
  sub : num -> num -> num;
  mul : num -> num -> num;
  ltb : num -> num -> bool;
  absn : num -> num;           (* abs(x) *)
  format_2f : num -> string    (* f"{x:.2f}" *)
}.

Definition gtb {num} `{Arith num} (a b : num) : bool := ltb b a.
Definition pymax {num} `{Arith num} (a b : num) : num := if gtb b a then b else a.
Definition pymin {num} `{Arith num} (a b : num) : num := if ltb b a then b else a.

(** *** Exact rationals *)

Definition Qltb (a b : Q) : bool :=
  match (a ?= b)%Q with Lt => true | _ => false end.

Definition Q_format_2f (x : Q) : string :=
  if Qltb x 0 then "-" ++ format_2f_nonneg (Qabs x) else format_2f_nonneg x.

#[export] Instance Arith_Q : Arith Q := {
  of_int := inject_Z;
  lit_0_3 := (3 # 10)%Q;
  add := Qplus;
  sub := Qminus;
  mul := Qmult;
  ltb := Qltb;
  absn := Qabs;
  format_2f := Q_format_2f
}.

(** *** IEEE binary64 *)

(** Conversion of an [int] to the nearest [float]. *)
Definition float_of_Z (z : Z) : float :=
  SF2Prim (binary_normalize prec emax z 0 false).

(** The exact value of a finite float, as a rational. *)
Definition Q_of_finite (m : positive) (e : Z) : Q :=
  match e with
  | Z0 => Zpos m # 1
  | Zpos p => (Zpos m * 2 ^ Zpos p)%Z # 1
  | Zneg p => Zpos m # (2 ^ p)%positive
  end.

Definition float_format_2f (x : float) : string :=
  match Prim2SF x with
  | S754_nan => "nan"
  | S754_infinity s => if s then "-inf" else "inf"
  | S754_zero s => if s then "-0.00" else "0.00"
  | S754_finite s m e =>
      (if s then "-" else "") ++ format_2f_nonneg (Q_of_finite m e)
  end.

#[export] Instance Arith_float : Arith float := {
  of_int := float_of_Z;
  lit_0_3 := 0x1.3333333333333p-2%float;   (* the double nearest to 0.3 *)
  add := PrimFloat.add;
  sub := PrimFloat.sub;
  mul := PrimFloat.mul;
  ltb := PrimFloat.ltb;
  absn := PrimFloat.abs;
  format_2f := float_format_2f
}.

(** ** The model table *)

Section Registry.

Context {num : Type} `{Arith num}.

(** One entry of [MODELS]: the dict of a model, with its thirteen keys. *)
Record ModelRecord : Type := {
  id : string;
  display_name : string;
  provider : string;
  context_window : Z;
  max_output_tokens : Z;
  vision : bool;
  reasoning : bool;
  pricing_input : num;
  pricing_output : num;
  knowledge_cutoff : string;
  release_date : string;
  status : string;
  notes : string
}.

(** A dict from model id to record, as the list of its items in insertion
    order. *)
Definition table : Type := list (string * ModelRecord).

Definition keys (t : table) : list string := map fst t.
Definition values (t : table) : list ModelRecord := map snd t.

(** [t.get(k)] *)
Fixpoint dict_get (t : table) (k : string) : option ModelRecord :=
  match t with
  | [] => None
  | (key, m) :: rest => if (key =? k)%string then Some m else dict_get rest k
  end.

(** [sorted(l)] and [l.sort()]: the stable sort, by insertion, for the
    comparison [lt] (Python's sort only ever asks [<]).  An element is placed
    before the first one that is not smaller than it, so equal elements keep
    their order.  CPython sorts by merging runs; the two return the same list
    when [<] is a strict weak order on the elements of the list ([ordered_on]
    below), as it is on strings and on floats none of which is NaN.  With a
    NaN among unequal float keys the result of CPython depends on the
    comparisons its algorithm happens to make, and is not modelled: the
    properties of the order below assume [ordered_on]. *)
Fixpoint insert_sorted {A : Type} (lt : A -> A -> bool) (x : A) (l : list A)
  : list A :=
  match l with
  | [] => [x]
  | y :: rest => if lt y x then y :: insert_sorted lt x rest else x :: l
  end.

Fixpoint sorted {A : Type} (lt : A -> A -> bool) (l : list A) : list A :=
  match l with
  | [] => []
  | x :: rest => insert_sorted lt x (sorted lt rest)
  end.

(** [l.sort(key=key)] and [l.sort(key=key, reverse=True)] on numeric keys. *)
Definition sort_by_key {A : Type} (key : A -> num) (l : list A) : list A :=
  sorted (fun a b => ltb (key a) (key b)) l.

Definition sort_by_key_reverse {A : Type} (key : A -> num) (l : list A)
  : list A :=
  sorted (fun a b => ltb (key b) (key a)) l.

(** [if arg: results = f(arg, results)] for an optional string argument:
    [None] and the empty string are false. *)
Definition if_given {A : Type} (arg : option string)
  (f : string -> A -> A) (results : A) : A :=
  match arg with
  | Some s => if (s =? "")%string then results else f s results
  | None => results
  end.

(** [arg or default] for an optional string argument. *)
Definition or_default (arg : option string) (default : string) : string :=
  match arg with
  | Some s => if (s =? "")%string then default else s
  | None => default
  end.

(** ** Helpers *)

Definition table_header : string :=
  "| Model ID | Display Name | Provider | Status | Context | Input $/1M | Output $/1M |".

Definition table_rule : string :=
  "|----------|-------------|----------|--------|---------|-----------|-------------|".

Definition table_row (m : ModelRecord) : string :=
  "| " ++ id m ++ " | " ++ display_name m ++ " | " ++ provider m ++ " | " ++
  status m ++ " | " ++ format_thousands (context_window m) ++ " | $" ++
  format_2f (pricing_input m) ++ " | $" ++ format_2f (pricing_output m) ++ " |".

Definition no_models_message : string :=
  "No models found matching the criteria.".

Definition _format_table (models : list ModelRecord) : string :=
  match models with
  | [] => no_models_message
  | _ => join nl (table_header :: table_rule :: map table_row models)
  end.

Definition caps_str (m : ModelRecord) : string :=
  let caps :=
    ((if vision m then ["Vision"] else []) ++
     (if reasoning m then ["Reasoning/Thinking"] else []))%list in
  match caps with
  | [] => "None"
  | _ => join ", " caps
  end.

Definition _model_detail (m : ModelRecord) : string :=
  join nl [
    "## " ++ display_name m ++ " (`" ++ id m ++ "`)";
    "";
    "| Field | Value |";
    "|-------|-------|";
    "| Provider | " ++ provider m ++ " |";
    "| Status | **" ++ status m ++ "** |";
    "| Context Window | " ++ format_thousands (context_window m) ++ " tokens |";
    "| Max Output | " ++ format_thousands (max_output_tokens m) ++ " tokens |";
    "| Capabilities | " ++ caps_str m ++ " |";
    "| Pricing (input) | $" ++ format_2f (pricing_input m) ++ " / 1M tokens |";
    "| Pricing (output) | $" ++ format_2f (pricing_output m) ++ " / 1M tokens |";
    "| Knowledge Cutoff | " ++ knowledge_cutoff m ++ " |";
    "| Release Date | " ++ release_date m ++ " |";
    "| Notes | " ++ (if (notes m =? "")%string then "—" else notes m) ++ " |"
  ].

(** ** Tools *)

Variable lower : string -> string.
Variable MODELS : table.

Definition list_models (provider_ status_ capability : option string) : string :=
  let results := values MODELS in
  let results :=
    if_given provider_
      (fun provider_ results =>
         let p := lower provider_ in
         filter (fun m => (lower (provider m) =? p)%string) results)
      results in
  let results :=
    if_given status_
      (fun status_ results =>
         let s := lower status_ in
         filter (fun m => (lower (status m) =? s)%string) results)
      results in
  let results :=
    if_given capability
      (fun capability results =>
         let c := lower capability in
         if (c =? "vision")%string then filter vision results
         else if ((c =? "reasoning") || (c =? "thinking"))%string
              then filter reasoning results
              else results)
      results in
  _format_table results.

(** Lines 122-129 of [get_model_info], which [check_model_status] repeats at
    lines 230-236: the exact lookup, then one pass over the items that stops at
    the first key equal to the query up to case or containing it up to case.
    A record is a non-empty dict, so [not model] is [model is None]. *)
Definition key_matches (model_id_lower key : string) : bool :=
  ((lower key =? model_id_lower)%string || str_in model_id_lower (lower key))%bool.

Definition resolve (model_id : string) : option ModelRecord :=
  match dict_get MODELS model_id with
  | Some model => Some model
  | None =>
      let model_id_lower := lower model_id in
      option_map snd
        (find (fun item => key_matches model_id_lower (fst item)) MODELS)
  end.

Definition info_not_found (model_id : string) : string :=
  let known := join ", " (sorted String.ltb (keys MODELS)) in
  "Model `" ++ model_id ++ "` not found in registry." ++ nl ++ nl ++
  "Known models: " ++ known.

Definition get_model_info (model_id : string) : string :=
  match resolve model_id with
  | None => info_not_found model_id
  | Some model => _model_detail model
  end.

(** *** [recommend_model] *)

(** The five task signals, the budget modifier and the quality signal, each
    as the update it makes to [score]. *)
Definition coding_signal (task_lower : string) (m : ModelRecord) (score : num)
  : num :=
  if (str_in "coding" task_lower || str_in "code" task_lower)%bool then
    let score := if reasoning m then add score (of_int 3) else score in
    if (200000 <=? context_window m)%Z then add score (of_int 1) else score
  else score.

Definition vision_signal (task_lower : string) (m : ModelRecord) (score : num)
  : num :=
  if (str_in "vision" task_lower || str_in "image" task_lower)%bool then
    if vision m then add score (of_int 4) else sub score (of_int 10)
  else score.

Definition reasoning_signal (task_lower : string) (m : ModelRecord)
  (score : num) : num :=
  if (str_in "reason" task_lower || str_in "think" task_lower
      || str_in "math" task_lower)%bool then
    if reasoning m then add score (of_int 5) else score
  else score.

Definition long_context_signal (task_lower : string) (m : ModelRecord)
  (score : num) : num :=
  if (str_in "long context" task_lower
      || str_in "large document" task_lower)%bool then
    if (1000000 <=? context_window m)%Z then add score (of_int 4)
    else if (200000 <=? context_window m)%Z then add score (of_int 2)
         else score
  else score.

Definition cheap_signal (task_lower : string) (m : ModelRecord) (score : num)
  : num :=
  if (str_in "cheap" task_lower || str_in "batch" task_lower
      || str_in "cost" task_lower)%bool then
    add score (pymax (of_int 0) (sub (of_int 5) (pricing_input m)))
  else score.

Definition budget_modifier (budget : string) (m : ModelRecord) (score : num)
  : num :=
  if (budget =? "cheap")%string then
    let score :=
      add score (pymax (of_int 0) (sub (of_int 3) (pricing_input m))) in
    if gtb (pricing_input m) (of_int 5) then sub score (of_int 5) else score
  else if (budget =? "unlimited")%string then
    add score (pymin (pricing_input m) (of_int 5))
  else score.

Definition quality_signal (m : ModelRecord) (score : num) : num :=
  add score (pymin (mul (pricing_input m) lit_0_3) (of_int 2)).

(** The body of the scoring loop for one model: [score = 0.0], then the
    updates in the order of the source. *)
Definition score_model (task_lower budget : string) (m : ModelRecord) : num :=
  let score := of_int 0 in
  let score := coding_signal task_lower m score in
  let score := vision_signal task_lower m score in
  let score := reasoning_signal task_lower m score in
  let score := long_context_signal task_lower m score in
  let score := cheap_signal task_lower m score in
  let score := budget_modifier budget m score in
  quality_signal m score.

Definition current_models : list ModelRecord :=
  filter (fun m => (status m =? "current")%string) (values MODELS).

Definition normalized_budget (budget : option string) : string :=
  lower (or_default budget "moderate").

(** [scored] after the loop, after [scored.sort(key=lambda x: x[0],
    reverse=True)], and [top = scored[:3]]. *)
Definition scored (task_lower budget : string) : list (num * ModelRecord) :=
  map (fun m => (score_model task_lower budget m, m)) current_models.

Definition ranked (task_lower budget : string) : list (num * ModelRecord) :=
  sort_by_key_reverse fst (scored task_lower budget).

Definition recommend_top (task : string) (budget : option string)
  : list (num * ModelRecord) :=
  firstn 3 (ranked (lower task) (normalized_budget budget)).

Definition cap_str (m : ModelRecord) : string :=
  let caps :=
    ((if vision m then ["vision"] else []) ++
     (if reasoning m then ["reasoning"] else []))%list in
  match caps with
  | [] => "standard"
  | _ => join ", " caps
  end.

(** One numbered block of the recommendation; [i] counts from 1. *)
Definition recommend_entry (i : nat) (entry : num * ModelRecord) : string :=
  let m := snd entry in
  digits_of_Z (Z.of_nat i) ++ ". **" ++ display_name m ++ "** (`" ++ id m ++
  "`)" ++ nl ++
  "   - Provider: " ++ provider m ++ " | Capabilities: " ++ cap_str m ++ nl ++
  "   - Pricing: $" ++ format_2f (pricing_input m) ++ " / $" ++
  format_2f (pricing_output m) ++ " per 1M tokens" ++ nl ++
  "   - Context: " ++ format_thousands (context_window m) ++ " tokens" ++ nl.

(** [enumerate(l, start)] *)
Fixpoint enumerate {A : Type} (start : nat) (l : list A) : list (nat * A) :=
  match l with
  | [] => []
  | x :: rest => (start, x) :: enumerate (S start) rest
  end.

Definition recommend_entries (task : string) (budget : option string)
  : list string :=
  map (fun ie => recommend_entry (fst ie) (snd ie))
      (enumerate 1 (recommend_top task budget)).

(** [lines] before the loop over [top]. *)
Definition recommend_header (task : string) (budget : option string)
  : list string :=
  ["## Recommendations for: *" ++ task ++ "*";
   "**Budget:** " ++ normalized_budget budget;
   ""].

Definition recommend_model (task : string) (budget : option string) : string :=
  let lines := recommend_header task budget in
  join nl (lines ++ recommend_entries task budget)%list.

(** *** [check_model_status] *)

Definition status_not_found (model_id : string) : string :=
  "`" ++ model_id ++ "` is **not found** in the registry. " ++
  "It may be misspelled, very old, or not yet tracked.".

(** The current models of the provider of [model], the closest price first. *)
Definition replacements (model : ModelRecord) : list ModelRecord :=
  sort_by_key
    (fun m => absn (sub (pricing_input m) (pricing_input model)))
    (filter (fun m => ((provider m =? provider model)
                       && (status m =? "current"))%string)
            (values MODELS)).

(** The text for a resolved [model]: lines 244-266. *)
Definition status_report (model : ModelRecord) : string :=
  let status_ := status model in
  let result :=
    "**" ++ display_name model ++ "** (`" ++ id model ++
    "`): status = **" ++ status_ ++ "**" in
  let result :=
    if ((status_ =? "legacy") || (status_ =? "deprecated"))%string then
      match replacements model with
      | r :: _ =>
          result ++ nl ++ nl ++ "Recommended replacement: **" ++
          display_name r ++ "** (`" ++ id r ++ "`)"
      | [] => result
      end
    else result in
  if (notes model =? "")%string then result
  else result ++ nl ++ nl ++ "Note: " ++ notes model.

Definition check_model_status (model_id : string) : string :=
  match resolve model_id with
  | None => status_not_found model_id
  | Some model => status_report model
  end.

(** *** [compare_models] *)

Definition at_least_2_message : string := "at least 2 models required".

(** Modelled from the spec: the not-found message of [compare_models], which
    names the identifier that did not resolve. *)
Definition compare_not_found (model_id : string) : string :=
  "Model `" ++ model_id ++ "` not found in registry.".

(** Modelled from the spec: the resolution of the identifiers of
    [compare_models], in input order; the first one that does not resolve
    ends it. *)
Fixpoint resolve_all (model_ids : list string) : string + list ModelRecord :=
  match model_ids with
  | [] => inr []
  | model_id :: rest =>
      match resolve model_id with
      | None => inl model_id
      | Some m =>
          match resolve_all rest with
          | inl missing => inl missing
          | inr ms => inr (m :: ms)
          end
      end
  end.

(** The side-by-side rendering of [compare_models], which the spec leaves
    open. *)
Variable render_comparison : list ModelRecord -> string.

(** Modelled from the spec: [compare_models], a tool that the tests import
    from [registry.py] and that the file does not define.  Section 6 of the
    spec: fewer than 2 identifiers give the fixed message; more than 5 are cut
    to the first 5; an identifier that does not resolve gives the not-found
    message naming it, and no partial comparison. *)
Definition compare_models (model_ids : list string) : string :=
  if (List.length model_ids <? 2)%nat then at_least_2_message
  else
    match resolve_all (firstn 5 model_ids) with
    | inl missing => compare_not_found missing
    | inr models => render_comparison models
    end.

End Registry.

Arguments ModelRecord num : clear implicits.
Arguments table num : clear implicits.

(** ** Reading a rendered text *)

(** What is left of [hay] after the first occurrence of [needle]. *)
Fixpoint drop (n : nat) (s : string) : string :=
  match n, s with
  | S n', String _ rest => drop n' rest
  | _, _ => s
  end.

Fixpoint after_first (needle hay : string) : option string :=
  if String.prefix needle hay then Some (drop (String.length needle) hay)
  else match hay with
       | EmptyString => None
       | String _ rest => after_first needle rest
       end.

(** [text] lists [ids] in this order: each identifier occurs in it, after the
    occurrence of the one before. *)
Fixpoint lists_in_order (ids : list string) (text : string) : bool :=
  match ids with
  | [] => true
  | i :: rest =>
      match after_first i text with
      | Some text' => lists_in_order rest text'
      | None => false
      end
  end.

(** ** Example tables

    Small tables of the documented shape, with integer prices so that they
    read the same in both arithmetics. *)

Section Examples.

Context {num : Type} `{Arith num}.

Definition gpt_5_mini : ModelRecord num := {|
  id := "gpt-5-mini"; display_name := "GPT-5 Mini"; provider := "OpenAI";
  context_window := 400000; max_output_tokens := 128000;
  vision := true; reasoning := true;
  pricing_input := of_int 0; pricing_output := of_int 2;
  knowledge_cutoff := "2024-05"; release_date := "2025-08";
  status := "current"; notes := "Small and fast" |}.

Definition gpt_5 : ModelRecord num := {|
  id := "gpt-5"; display_name := "GPT-5"; provider := "OpenAI";
  context_window := 400000; max_output_tokens := 128000;
  vision := true; reasoning := true;
  pricing_input := of_int 1; pricing_output := of_int 10;
  knowledge_cutoff := "2024-09"; release_date := "2025-08";
  status := "current"; notes := "" |}.

Definition gpt_4o : ModelRecord num := {|
  id := "gpt-4o"; display_name := "GPT-4o"; provider := "OpenAI";
  context_window := 128000; max_output_tokens := 16384;
  vision := true; reasoning := false;
  pricing_input := of_int 2; pricing_output := of_int 10;
  knowledge_cutoff := "2023-10"; release_date := "2024-05";
  status := "legacy"; notes := "Superseded by GPT-5" |}.

(** Keys in an order that is not the sorted one. *)
Definition openai_table : table num :=
  [("gpt-5-mini", gpt_5_mini); ("gpt-5", gpt_5); ("gpt-4o", gpt_4o)].

(** A model with vision and nothing else, free of charge. *)
Definition pixtral : ModelRecord num := {|
  id := "pixtral-12b"; display_name := "Pixtral 12B"; provider := "Mistral";
  context_window := 128000; max_output_tokens := 8192;
  vision := true; reasoning := false;
  pricing_input := of_int 0; pricing_output := of_int 0;
  knowledge_cutoff := "2024-06"; release_date := "2024-09";
  status := "current"; notes := "" |}.

(** A reasoning model without vision, at 10 per million input tokens. *)
Definition reasoner : ModelRecord num := {|
  id := "deepseek-reasoner"; display_name := "DeepSeek Reasoner";
  provider := "DeepSeek";
  context_window := 128000; max_output_tokens := 65536;
  vision := false; reasoning := true;
  pricing_input := of_int 10; pricing_output := of_int 20;
  knowledge_cutoff := "2024-07"; release_date := "2025-01";
  status := "current"; notes := "" |}.

Definition vision_table : table num :=
  [("pixtral-12b", pixtral); ("deepseek-reasoner", reasoner)].

Definition claude_opus : ModelRecord num := {|
  id := "claude-opus-4-6"; display_name := "Claude Opus 4.6";
  provider := "Anthropic";
  context_window := 200000; max_output_tokens := 32000;
  vision := true; reasoning := true;
  pricing_input := of_int 15; pricing_output := of_int 75;
  knowledge_cutoff := "2025-03"; release_date := "2025-11";
  status := "current"; notes := "" |}.

Definition claude_haiku : ModelRecord num := {|
  id := "claude-haiku-4-5"; display_name := "Claude Haiku 4.5";
  provider := "Anthropic";
  context_window := 200000; max_output_tokens := 64000;
  vision := true; reasoning := false;
  pricing_input := of_int 1; pricing_output := of_int 5;
  knowledge_cutoff := "2025-02"; release_date := "2025-10";
  status := "current"; notes := "" |}.

Definition gemini_pro : ModelRecord num := {|
  id := "gemini-2.5-pro"; display_name := "Gemini 2.5 Pro";
  provider := "Google";
  context_window := 1048576; max_output_tokens := 65536;
  vision := true; reasoning := true;
  pricing_input := of_int 1; pricing_output := of_int 10;
  knowledge_cutoff := "2025-01"; release_date := "2025-06";
  status := "current"; notes := "" |}.

(** [gpt_5] without vision. *)
Definition gpt_5_text : ModelRecord num := {|
  id := "gpt-5-text"; display_name := "GPT-5 (text)"; provider := "OpenAI";
  context_window := 400000; max_output_tokens := 128000;
  vision := false; reasoning := true;
  pricing_input := of_int 1; pricing_output := of_int 10;
  knowledge_cutoff := "2024-09"; release_date := "2025-08";
  status := "current"; notes := "" |}.

(** Models of four providers. *)
Definition mixed_table : table num :=
  [("claude-opus-4-6", claude_opus); ("gpt-5", gpt_5);
   ("claude-haiku-4-5", claude_haiku); ("pixtral-12b", pixtral);
   ("deepseek-reasoner", reasoner)].

(** Two current records with the same price. *)
Definition free_table : table num :=
  [("pixtral-12b", pixtral); ("gpt-5-mini", gpt_5_mini)].

End Examples.

(** ** The validation script, [scripts/validate_models.py]

    The script appends to the global list [RESULTS] and prints; a state holds
    both.  What it reads from outside, the environment variables and the
    answers of the four HTTP APIs, is a [World].  The only exception that can
    leave a [try] block of the script is the [KeyError] of [report]. *)

(** One element of [RESULTS]: a dict with the keys id, provider, status and
    detail. *)
Record Report : Type := {
  report_id : string;
  report_provider : string;
  report_status : string;
  report_detail : string
}.

Record State : Type := {
  RESULTS : list Report;
  stdout : list string      (* one element for each call of print *)
}.

Inductive exn : Type :=
| KeyError (key : string)
| HttpError (message : string).   (* raised by the HTTP client; [str(e)] *)

Inductive outcome (A : Type) : Type :=
| Returned (a : A) (s : State)
| Raised (e : exn) (s : State).

Arguments Returned {A} a s.
Arguments Raised {A} e s.

Definition M (A : Type) : Type := State -> outcome A.

Definition ret {A : Type} (a : A) : M A := fun s => Returned a s.

Definition bind {A B : Type} (c : M A) (k : A -> M B) : M B :=
  fun s =>
    match c s with
    | Returned a s' => k a s'
    | Raised e s' => Raised e s'
    end.

Notation "x <- c ;; k" := (bind c (fun x => k))
  (at level 61, c at next level, right associativity).
Notation "c ;; k" := (bind c (fun _ => k))
  (at level 61, right associativity).

Definition raise {A : Type} (e : exn) : M A := fun s => Raised e s.

(** [try: body / except Exception as e: handler(e)] *)
Definition try_except {A : Type} (body : M A) (handler : exn -> M A) : M A :=
  fun s =>
    match body s with
    | Returned a s' => Returned a s'
    | Raised e s' => handler e s'
    end.

Definition print (line : string) : M unit :=
  fun s => Returned tt {| RESULTS := RESULTS s; stdout := stdout s ++ [line] |}.

Definition read_results : M (list Report) := fun s => Returned (RESULTS s) s.

(** [for x in l: body(x)] *)
Fixpoint for_each {A : Type} (l : list A) (body : A -> M unit) : M unit :=
  match l with
  | [] => ret tt
  | x :: rest => body x ;; for_each rest body
  end.

(** [for x in l: body(x)], where the body answers [true] to [break]. *)
Fixpoint for_each_until {A : Type} (l : list A) (body : A -> M bool) : M unit :=
  match l with
  | [] => ret tt
  | x :: rest =>
      stop <- body x ;;
      if stop then ret tt else for_each_until rest body
  end.

(** The dict of icons of [report], indexed by a status. *)
Definition icon_of (status_ : string) : option string :=
  if (status_ =? "ok")%string then Some "[OK]"
  else if (status_ =? "warn")%string then Some "[WARN]"
  else if (status_ =? "error")%string then Some "[ERR]"
  else if (status_ =? "skip")%string then Some "[SKIP]"
  else None.

Definition report (model_id provider_ status_ detail : string) : M unit :=
  match icon_of status_ with
  | None => raise (KeyError status_)
  | Some icon =>
      fun s =>
        let s := {| RESULTS := RESULTS s ++
                      [{| report_id := model_id; report_provider := provider_;
                          report_status := status_; report_detail := detail |}];
                    stdout := stdout s |} in
        let msg := "  " ++ icon ++ " " ++ model_id in
        let msg := if (detail =? "")%string then msg
                   else msg ++ " — " ++ detail in
        print msg s
  end.

(** The answer to the request for the list of models of a provider: the
    [try] block fails with an exception, or gives the listed names. *)
Inductive listing : Type :=
| ListingFailed (e : string)            (* [str(e)] *)
| Listed (names : list string).

(** The answer to one request to the messages API of Anthropic. *)
Inductive post_answer : Type :=
| PostFailed (e : string)               (* [str(e)] *)
| Response (status_code : Z) (text : string).

Record World : Type := {
  environ : string -> option string;        (* [os.environ.get] *)
  openai_models : listing;
  google_models : listing;
  xai_models : listing;
  anthropic_messages : string -> post_answer
}.

(** [str(n)] for an [int]. *)
Definition str_of_int (n : Z) : string :=
  if (n <? 0)%Z then "-" ++ digits_of_Z n else digits_of_Z n.

(** [s * n] for a string and a count. *)
Fixpoint repeat_string (s : string) (n : nat) : string :=
  match n with
  | O => ""
  | S n' => s ++ repeat_string s n'
  end.

(** [name.split("/")[-1]]: what follows the last slash, or the whole name. *)
Fixpoint after_last_slash (name : string) : option string :=
  match name with
  | EmptyString => None
  | String c rest =>
      match after_last_slash rest with
      | Some segment => Some segment
      | None => if Ascii.eqb c "/" then Some rest else None
      end
  end.

Definition last_segment (name : string) : string :=
  match after_last_slash name with
  | Some segment => segment
  | None => name
  end.

Section ValidateModels.

Context {num : Type}.
Variable lower : string -> string.
(** [repr] of a string, which is [str] of a [KeyError]. *)
Variable repr : string -> string.
Variable world : World.
Variable MODELS : table num.

Definition str_of_exn (e : exn) : string :=
  match e with
  | KeyError key => repr key
  | HttpError message => message
  end.

(** The loops [for mid, m in MODELS.items(): if m["provider"] == p:
    report(mid, p, status, detail)]. *)
Definition report_all (provider_ status_ detail : string) : M unit :=
  for_each MODELS (fun item =>
    if (provider (snd item) =? provider_)%string
    then report (fst item) provider_ status_ detail
    else ret tt).

(** The common shape of [validate_openai], [validate_google] and
    [validate_xai]: the name of the provider, the environment variable of
    its key, the answer of its API with the identifiers it lists, and the
    detail of the warning. *)
Definition validate_by_listing (provider_ env_name : string)
  (answer : listing) (available_of : list string -> list string)
  (missing_detail : string) : M unit :=
  let key := environ world env_name in
  if negb (match key with Some k => negb (k =? "")%string | None => false end)
  then
    print (nl ++ "--- " ++ provider_ ++ ": " ++ env_name ++
           " not set, skipping ---") ;;
    report_all provider_ "skip" "no API key"
  else
    print (nl ++ "--- " ++ provider_ ++ ": checking model availability ---") ;;
    match answer with
    | ListingFailed e =>
        print ("  [ERR] Failed to fetch model list: " ++ e) ;;
        report_all provider_ "error" ("API error: " ++ e)
    | Listed names =>
        let available := available_of names in
        for_each MODELS (fun item =>
          if negb (provider (snd item) =? provider_)%string then ret tt
          else if existsb (String.eqb (fst item)) available
               then report (fst item) provider_ "ok" "model available"
               else report (fst item) provider_ "warn" missing_detail)
    end.

Definition validate_openai : M unit :=
  validate_by_listing "OpenAI" "OPENAI_API_KEY" (openai_models world)
    (fun ids => ids) "model ID not in /v1/models list".

Definition validate_google : M unit :=
  validate_by_listing "Google" "GOOGLE_API_KEY" (google_models world)
    (map last_segment) "model ID not in API list".

Definition validate_xai : M unit :=
  validate_by_listing "xAI" "XAI_API_KEY" (xai_models world)
    (fun ids => ids) "model ID not in /v1/models list".

(** The body of the [try] of [validate_anthropic] for one model; [true] is
    [break]. *)
Definition anthropic_request (mid : string) : M bool :=
  match anthropic_messages world mid with
  | PostFailed e => raise (HttpError e)
  | Response status_code text =>
      if (status_code =? 200)%Z then
        report mid "Anthropic" "ok" "model responds" ;; ret false
      else if ((status_code =? 400)%Z && str_in "model" (lower text))%bool then
        report mid "Anthropic" "error" "invalid model ID" ;; ret false
      else if (status_code =? 401)%Z then
        report mid "Anthropic" "skip" "auth error — check API key" ;; ret true
      else
        report mid "Anthropic" "warn" ("HTTP " ++ str_of_int status_code) ;;
        ret false
  end.

Definition validate_anthropic : M unit :=
  let key := environ world "ANTHROPIC_API_KEY" in
  if negb (match key with Some k => negb (k =? "")%string | None => false end)
  then
    print (nl ++ "--- Anthropic: ANTHROPIC_API_KEY not set, skipping ---") ;;
    report_all "Anthropic" "skip" "no API key"
  else
    print (nl ++ "--- Anthropic: checking model availability ---") ;;
    for_each_until MODELS (fun item =>
      if negb (provider (snd item) =? "Anthropic")%string then ret false
      else
        try_except (anthropic_request (fst item))
          (fun e =>
             report (fst item) "Anthropic" "error" (str_of_exn e) ;;
             ret false)).

Definition validate_no_api_providers : M unit :=
  for_each ["Meta"; "Mistral"; "DeepSeek"] (fun provider_ =>
    let models :=
      filter (fun item => (provider (snd item) =? provider_)%string) MODELS in
    match models with
    | [] => ret tt
    | _ =>
        print (nl ++ "--- " ++ provider_ ++
               ": no live validation (manual check needed) ---") ;;
        for_each models (fun item =>
          report (fst item) provider_ "skip"
                 "no automated validation available")
    end).

Definition count_status (status_ : string) (results : list Report) : nat :=
  List.length
    (filter (fun r => (report_status r =? status_)%string) results).

Definition print_reports (status_ : string) (results : list Report) : M unit :=
  for_each results (fun r =>
    if (report_status r =? status_)%string
    then print ("  - " ++ report_id r ++ " (" ++ report_provider r ++ "): " ++
                report_detail r)
    else ret tt).

(** [main]; the value returned is the exit code of the process: 1 after
    [sys.exit(1)], 0 otherwise. *)
Definition main : M Z :=
  print (repeat_string "=" 60) ;;
  print "Universal Model Registry — Validation Report" ;;
  print (repeat_string "=" 60) ;;
  print ("Total models: " ++ str_of_int (Z.of_nat (List.length MODELS))) ;;
  let providers :=
    sorted String.ltb (nodup string_dec (map provider (values MODELS))) in
  print ("Providers: " ++ join ", " providers) ;;
  validate_openai ;;
  validate_anthropic ;;
  validate_google ;;
  validate_xai ;;
  validate_no_api_providers ;;
  print (nl ++ repeat_string "=" 60) ;;
  print "SUMMARY" ;;
  print (repeat_string "=" 60) ;;
  results <- read_results ;;
  let ok := count_status "ok" results in
  let warn := count_status "warn" results in
  let err := count_status "error" results in
  let skip := count_status "skip" results in
  print ("  OK: " ++ str_of_int (Z.of_nat ok) ++
         "  |  WARN: " ++ str_of_int (Z.of_nat warn) ++
         "  |  ERROR: " ++ str_of_int (Z.of_nat err) ++
         "  |  SKIP: " ++ str_of_int (Z.of_nat skip)) ;;
  (if (0 <? err)%nat then
     print (nl ++ "ERRORS (model IDs likely invalid):") ;;
     print_reports "error" results
   else ret tt) ;;
  (if (0 <? warn)%nat then
     print (nl ++ "WARNINGS (model IDs not found in API, may need update):") ;;
     print_reports "warn" results
   else ret tt) ;;
  if (0 <? err)%nat then ret 1%Z else ret 0%Z.

End ValidateModels.

(** The state at the start of the script. *)
Definition initial_state : State := {| RESULTS := []; stdout := [] |}.

(** ** The tools on the dicts of [models_data.py]

    [MODELS] is a dict of dicts, and [m["key"]] raises [KeyError] when the
    key is missing.  Here the tools are embedded a second time, on dicts as
    they are: a record is a list of items whose values are Python values, a
    subscription is a lookup that can raise, and a tool returns a text or
    raises.  Every subscription is made in the order in which the source
    evaluates it.  The schema of section 3 of the spec gives each key a
    type; on a value of another type Python goes on with it or raises a
    [TypeError], [ValueError] or [AttributeError], depending on the
    operation: this is not modelled, the run ends as [OffSchema]. *)

(** What a call gives: a result, an exception, or a run that left the
    schema. *)
Inductive answer (A : Type) : Type :=
| Result (a : A)
| Exception (e : exn)
| OffSchema.

Arguments Result {A} a.
Arguments Exception {A} e.
Arguments OffSchema {A}.

Definition and_then {A B : Type} (c : answer A) (k : A -> answer B) : answer B :=
  match c with
  | Result a => k a
  | Exception e => Exception e
  | OffSchema => OffSchema
  end.

Notation "x <~ c ;; k" := (and_then c (fun x => k))
  (at level 61, c at next level, right associativity).

(** [[f(x) for x in l]] *)
Fixpoint for_all {A B : Type} (f : A -> answer B) (l : list A)
  : answer (list B) :=
  match l with
  | [] => Result []
  | x :: rest =>
      y <~ f x ;;
      ys <~ for_all f rest ;;
      Result (y :: ys)
  end.

(** [[x for x in l if f(x)]] *)
Fixpoint keep_if {A : Type} (f : A -> answer bool) (l : list A)
  : answer (list A) :=
  match l with
  | [] => Result []
  | x :: rest =>
      keep <~ f x ;;
      kept <~ keep_if f rest ;;
      Result (if keep then x :: kept else kept)
  end.

Section RawRegistry.

Context {num : Type} `{Arith num}.

(** The values of the dicts: [str], [int], [float], [bool] and [None]. *)
Inductive pyvalue : Type :=
| PyStr (s : string)
| PyInt (n : Z)
| PyFloat (x : num)
| PyBool (b : bool)
| PyNone.

(** A dict is the list of its items in insertion order; the keys of a dict
    differ, so a lookup finds the one item of a key. *)
Definition pydict : Type := list (string * pyvalue).
Definition raw_table : Type := list (string * pydict).

Fixpoint dict_lookup (m : pydict) (k : string) : option pyvalue :=
  match m with
  | [] => None
  | (key, v) :: rest => if (key =? k)%string then Some v else dict_lookup rest k
  end.

(** [m[k]] *)
Definition getitem (m : pydict) (k : string) : answer pyvalue :=
  match dict_lookup m k with
  | Some v => Result v
  | None => Exception (KeyError k)
  end.

(** [m[k]] where the schema gives the key [k] a type. *)
Definition str_item (m : pydict) (k : string) : answer string :=
  v <~ getitem m k ;;
  match v with PyStr s => Result s | _ => OffSchema end.

Definition int_item (m : pydict) (k : string) : answer Z :=
  v <~ getitem m k ;;
  match v with PyInt n => Result n | _ => OffSchema end.

Definition float_item (m : pydict) (k : string) : answer num :=
  v <~ getitem m k ;;
  match v with PyFloat x => Result x | _ => OffSchema end.

Definition bool_item (m : pydict) (k : string) : answer bool :=
  v <~ getitem m k ;;
  match v with PyBool b => Result b | _ => OffSchema end.

(** [MODELS.get(k)] *)
Fixpoint raw_get (t : raw_table) (k : string) : option pydict :=
  match t with
  | [] => None
  | (key, m) :: rest => if (key =? k)%string then Some m else raw_get rest k
  end.

(** [not model] for the result of [MODELS.get]: [None] and the empty dict
    are the two values that count as false. *)
Definition not_model (model : option pydict) : bool :=
  match model with
  | Some (_ :: _) => false
  | _ => true
  end.

(** Lines 38-44: one row of [_format_table]. *)
Definition raw_table_row (m : pydict) : answer string :=
  ctx <~ int_item m "context_window" ;;
  id_ <~ str_item m "id" ;;
  display_name_ <~ str_item m "display_name" ;;
  provider_ <~ str_item m "provider" ;;
  status_ <~ str_item m "status" ;;
  pricing_input_ <~ float_item m "pricing_input" ;;
  pricing_output_ <~ float_item m "pricing_output" ;;
  Result ("| " ++ id_ ++ " | " ++ display_name_ ++ " | " ++ provider_ ++
          " | " ++ status_ ++ " | " ++ format_thousands ctx ++ " | $" ++
          format_2f pricing_input_ ++ " | $" ++ format_2f pricing_output_ ++
          " |").

Definition raw_format_table (models : list pydict) : answer string :=
  match models with
  | [] => Result no_models_message
  | _ =>
      rows <~ for_all raw_table_row models ;;
      Result (join nl (table_header :: table_rule :: rows))
  end.

Definition raw_model_detail (m : pydict) : answer string :=
  vision_ <~ bool_item m "vision" ;;
  reasoning_ <~ bool_item m "reasoning" ;;
  let caps :=
    ((if vision_ then ["Vision"] else []) ++
     (if reasoning_ then ["Reasoning/Thinking"] else []))%list in
  let caps_str := match caps with [] => "None" | _ => join ", " caps end in
  display_name_ <~ str_item m "display_name" ;;
  id_ <~ str_item m "id" ;;
  provider_ <~ str_item m "provider" ;;
  status_ <~ str_item m "status" ;;
  context_window_ <~ int_item m "context_window" ;;
  max_output_tokens_ <~ int_item m "max_output_tokens" ;;
  pricing_input_ <~ float_item m "pricing_input" ;;
  pricing_output_ <~ float_item m "pricing_output" ;;
  knowledge_cutoff_ <~ str_item m "knowledge_cutoff" ;;
  release_date_ <~ str_item m "release_date" ;;
  notes_ <~ str_item m "notes" ;;
  Result (join nl [
    "## " ++ display_name_ ++ " (`" ++ id_ ++ "`)";
    "";
    "| Field | Value |";
    "|-------|-------|";
    "| Provider | " ++ provider_ ++ " |";
    "| Status | **" ++ status_ ++ "** |";
    "| Context Window | " ++ format_thousands context_window_ ++ " tokens |";
    "| Max Output | " ++ format_thousands max_output_tokens_ ++ " tokens |";
    "| Capabilities | " ++ caps_str ++ " |";
    "| Pricing (input) | $" ++ format_2f pricing_input_ ++ " / 1M tokens |";
    "| Pricing (output) | $" ++ format_2f pricing_output_ ++ " / 1M tokens |";
    "| Knowledge Cutoff | " ++ knowledge_cutoff_ ++ " |";
    "| Release Date | " ++ release_date_ ++ " |";
    "| Notes | " ++ (if (notes_ =? "")%string then "—" else notes_) ++ " |"
  ]).

Variable lower : string -> string.
Variable RAW : raw_table.

(** [if arg: results = f(arg, results)] where [f] reads the records. *)
Definition raw_if_given {A : Type} (arg : option string)
  (f : string -> A -> answer A) (results : A) : answer A :=
  match arg with
  | Some s => if (s =? "")%string then Result results else f s results
  | None => Result results
  end.

Definition raw_list_models (provider_ status_ capability : option string)
  : answer string :=
  let results := map snd RAW in
  results <~
    raw_if_given provider_
      (fun provider_ results =>
         let p := lower provider_ in
         keep_if (fun m => v <~ str_item m "provider" ;;
                           Result (lower v =? p)%string) results)
      results ;;
  results <~
    raw_if_given status_
      (fun status_ results =>
         let s := lower status_ in
         keep_if (fun m => v <~ str_item m "status" ;;
                           Result (lower v =? s)%string) results)
      results ;;
  results <~
    raw_if_given capability
      (fun capability results =>
         let c := lower capability in
         if (c =? "vision")%string
         then keep_if (fun m => bool_item m "vision") results
         else if ((c =? "reasoning") || (c =? "thinking"))%string
              then keep_if (fun m => bool_item m "reasoning") results
              else Result results)
      results ;;
  raw_format_table results.

(** Lines 122-129 and 230-236: [model] before the second [if not model]. *)
Definition raw_resolve (model_id : string) : option pydict :=
  let model := raw_get RAW model_id in
  if not_model model then
    let model_id_lower := lower model_id in
    match find (fun item => key_matches lower model_id_lower (fst item)) RAW with
    | Some (_, m) => Some m
    | None => model
    end
  else model.

Definition raw_get_model_info (model_id : string) : answer string :=
  let model := raw_resolve model_id in
  if not_model model then
    let known := join ", " (sorted String.ltb (map fst RAW)) in
    Result ("Model `" ++ model_id ++ "` not found in registry." ++ nl ++ nl ++
            "Known models: " ++ known)
  else
    match model with
    | Some m => raw_model_detail m
    | None => OffSchema
    end.

(** Lines 161-195: the score of one record. *)
Definition raw_score_model (task_lower budget : string) (m : pydict)
  : answer num :=
  let score := of_int 0 in
  score <~
    (if (str_in "coding" task_lower || str_in "code" task_lower)%bool then
       reasoning_ <~ bool_item m "reasoning" ;;
       let score := if reasoning_ then add score (of_int 3) else score in
       context_window_ <~ int_item m "context_window" ;;
       Result (if (200000 <=? context_window_)%Z then add score (of_int 1)
               else score)
     else Result score) ;;
  score <~
    (if (str_in "vision" task_lower || str_in "image" task_lower)%bool then
       vision_ <~ bool_item m "vision" ;;
       Result (if vision_ then add score (of_int 4)
               else sub score (of_int 10))
     else Result score) ;;
  score <~
    (if (str_in "reason" task_lower || str_in "think" task_lower
         || str_in "math" task_lower)%bool then
       reasoning_ <~ bool_item m "reasoning" ;;
       Result (if reasoning_ then add score (of_int 5) else score)
     else Result score) ;;
  score <~
    (if (str_in "long context" task_lower
         || str_in "large document" task_lower)%bool then
       context_window_ <~ int_item m "context_window" ;;
       Result (if (1000000 <=? context_window_)%Z then add score (of_int 4)
               else if (200000 <=? context_window_)%Z
                    then add score (of_int 2)
                    else score)
     else Result score) ;;
  score <~
    (if (str_in "cheap" task_lower || str_in "batch" task_lower
         || str_in "cost" task_lower)%bool then
       pricing_input_ <~ float_item m "pricing_input" ;;
       Result (add score (pymax (of_int 0) (sub (of_int 5) pricing_input_)))
     else Result score) ;;
  score <~
    (if (budget =? "cheap")%string then
       pricing_input_ <~ float_item m "pricing_input" ;;
       let score :=
         add score (pymax (of_int 0) (sub (of_int 3) pricing_input_)) in
       Result (if gtb pricing_input_ (of_int 5) then sub score (of_int 5)
               else score)
     else if (budget =? "unlimited")%string then
       pricing_input_ <~ float_item m "pricing_input" ;;
       Result (add score (pymin pricing_input_ (of_int 5)))
     else Result score) ;;
  pricing_input_ <~ float_item m "pricing_input" ;;
  Result (add score (pymin (mul pricing_input_ lit_0_3) (of_int 2))).

(** Lines 204-215: one numbered block. *)
Definition raw_recommend_entry (i : nat) (entry : num * pydict)
  : answer string :=
  let m := snd entry in
  vision_ <~ bool_item m "vision" ;;
  reasoning_ <~ bool_item m "reasoning" ;;
  let caps :=
    ((if vision_ then ["vision"] else []) ++
     (if reasoning_ then ["reasoning"] else []))%list in
  let cap_str := match caps with [] => "standard" | _ => join ", " caps end in
  display_name_ <~ str_item m "display_name" ;;
  id_ <~ str_item m "id" ;;
  provider_ <~ str_item m "provider" ;;
  pricing_input_ <~ float_item m "pricing_input" ;;
  pricing_output_ <~ float_item m "pricing_output" ;;
  context_window_ <~ int_item m "context_window" ;;
  Result (digits_of_Z (Z.of_nat i) ++ ". **" ++ display_name_ ++ "** (`" ++
          id_ ++ "`)" ++ nl ++
          "   - Provider: " ++ provider_ ++ " | Capabilities: " ++ cap_str ++
          nl ++
          "   - Pricing: $" ++ format_2f pricing_input_ ++ " / $" ++
          format_2f pricing_output_ ++ " per 1M tokens" ++ nl ++
          "   - Context: " ++ format_thousands context_window_ ++ " tokens" ++
          nl).

Definition raw_recommend_model (task : string) (budget : option string)
  : answer string :=
  let budget_ := lower (or_default budget "moderate") in
  let task_lower := lower task in
  current <~
    keep_if (fun m => v <~ str_item m "status" ;;
                      Result (v =? "current")%string) (map snd RAW) ;;
  scored <~
    for_all (fun m => score <~ raw_score_model task_lower budget_ m ;;
                      Result (score, m)) current ;;
  let top := firstn 3 (sort_by_key_reverse fst scored) in
  let lines :=
    ["## Recommendations for: *" ++ task ++ "*";
     "**Budget:** " ++ budget_;
     ""] in
  entries <~
    for_all (fun ie => raw_recommend_entry (fst ie) (snd ie))
            (enumerate 1 top) ;;
  Result (join nl (lines ++ entries)%list).

Definition raw_check_model_status (model_id : string) : answer string :=
  let model := raw_resolve model_id in
  if not_model model then
    Result ("`" ++ model_id ++ "` is **not found** in the registry. " ++
            "It may be misspelled, very old, or not yet tracked.")
  else
    match model with
    | None => OffSchema
    | Some model =>
        status_ <~ str_item model "status" ;;
        display_name_ <~ str_item model "display_name" ;;
        id_ <~ str_item model "id" ;;
        let result :=
          "**" ++ display_name_ ++ "** (`" ++ id_ ++
          "`): status = **" ++ status_ ++ "**" in
        result <~
          (if ((status_ =? "legacy") || (status_ =? "deprecated"))%string then
             replacements <~
               keep_if
                 (fun m =>
                    provider_ <~ str_item m "provider" ;;
                    of_model <~ str_item model "provider" ;;
                    if (provider_ =? of_model)%string then
                      v <~ str_item m "status" ;;
                      Result (v =? "current")%string
                    else Result false)
                 (map snd RAW) ;;
             keyed <~
               for_all
                 (fun m =>
                    price <~ float_item m "pricing_input" ;;
                    of_model <~ float_item model "pricing_input" ;;
                    Result (absn (sub price of_model), m))
                 replacements ;;
             match sort_by_key fst keyed with
             | (_, r) :: _ =>
                 r_name <~ str_item r "display_name" ;;
                 r_id <~ str_item r "id" ;;
                 Result (result ++ nl ++ nl ++ "Recommended replacement: **" ++
                         r_name ++ "** (`" ++ r_id ++ "`)")
             | [] => Result result
             end
           else Result result) ;;
        notes_ <~ str_item model "notes" ;;
        Result (if (notes_ =? "")%string then result
                else result ++ nl ++ nl ++ "Note: " ++ notes_)
    end.

End RawRegistry.

Arguments pyvalue num : clear implicits.
Arguments pydict num : clear implicits.
Arguments raw_table num : clear implicits.

(** ** Vocabulary of the properties *)

(** The order a sort for [lt] establishes: [x] may stand before [y] when [y]
    is not smaller than [x]. *)
Definition may_precede {A : Type} (lt : A -> A -> bool) (x y : A) : Prop :=
  lt y x = false.

(** [lt] is a strict weak order on the elements of [l]: it is asymmetric, and
    "not smaller" is transitive.  This is what a list must satisfy for "the
    sorted list" to mean one thing, whatever the sorting algorithm. *)
Definition ordered_on {A : Type} (lt : A -> A -> bool) (l : list A) : Prop :=
  (forall a b, In a l -> In b l -> lt a b = true -> lt b a = false) /\
  (forall a b c, In a l -> In b l -> In c l ->
     lt a b = false -> lt b c = false -> lt a c = false).

(** The place of a float that is not NaN in the order of [<]: its class
    (minus infinity, negative, zero, positive, infinity), then its exponent
    and its mantissa, compared in this order. *)
Definition float_rank (f : spec_float) : Z * Z * Z :=
  match f with
  | S754_nan => (0, 0, 0)
  | S754_zero _ => (0, 0, 0)
  | S754_infinity s => (if s then -2 else 2, 0, 0)
  | S754_finite s m e => if s then (-1, - e, - Zpos m) else (1, e, Zpos m)
  end%Z.

Definition rank_lt (r1 r2 : Z * Z * Z) : Prop :=
  let '(c1, e1, m1) := r1 in
  let '(c2, e2, m2) := r2 in
  (c1 < c2 \/ (c1 = c2 /\ (e1 < e2 \/ (e1 = e2 /\ m1 < m2))))%Z.

Section Vocabulary.

Context {num : Type} `{Arith num}.
Variable lower : string -> string.
Variable MODELS : table num.

(** The records an optional argument of [list_models] lets through, as a
    predicate. *)
Definition provider_keeps (provider_ : option string) (m : ModelRecord num)
  : bool :=
  if_given provider_
    (fun provider_ _ => (lower (provider m) =? lower provider_)%string) true.

Definition status_keeps (status_ : option string) (m : ModelRecord num)
  : bool :=
  if_given status_
    (fun status_ _ => (lower (status m) =? lower status_)%string) true.

Definition capability_keeps (capability : option string) (m : ModelRecord num)
  : bool :=
  if_given capability
    (fun capability _ =>
       let c := lower capability in
       if (c =? "vision")%string then vision m
       else if ((c =? "reasoning") || (c =? "thinking"))%string
            then reasoning m else true)
    true.

(** A current record of the provider of [model]. *)
Definition is_peer (model m : ModelRecord num) : bool :=
  ((provider m =? provider model) && (status m =? "current"))%string.

(** An entry of [scored] pairs a current record with its score. *)
Definition scored_entry (task_lower budget : string)
  (entry : num * ModelRecord num) : Prop :=
  fst entry = score_model task_lower budget (snd entry) /\
  In (snd entry) (current_models MODELS).

(** The scores line 199 sorts, and the price differences line 254 sorts. *)
Definition current_scores (task_lower budget : string) : list num :=
  map (score_model task_lower budget) (current_models MODELS).

Definition price_distance (model m : ModelRecord num) : num :=
  absn (sub (pricing_input m) (pricing_input model)).

(** No entry of [l] scores less than a later one. *)
Definition descending (l : list (num * ModelRecord num)) : Prop :=
  StronglySorted (fun x y => ltb (fst x) (fst y) = false) l.

(** In the list [l] no record without vision stands before a record with
    vision. *)
Definition vision_first (l : list (num * ModelRecord num)) : Prop :=
  forall before x between y after,
    l = (before ++ x :: between ++ y :: after)%list ->
    vision (snd y) = true -> vision (snd x) = true.

End Vocabulary.

(** The keywords of the five task signals, as lines 164-182 test them. *)
Definition names_coding (task_lower : string) : bool :=
  str_in "coding" task_lower || str_in "code" task_lower.

Definition names_vision (task_lower : string) : bool :=
  str_in "vision" task_lower || str_in "image" task_lower.

Definition names_reasoning (task_lower : string) : bool :=
  str_in "reason" task_lower || str_in "think" task_lower
  || str_in "math" task_lower.

Definition names_long_context (task_lower : string) : bool :=
  str_in "long context" task_lower || str_in "large document" task_lower.

Definition names_cheap (task_lower : string) : bool :=
  str_in "cheap" task_lower || str_in "batch" task_lower
  || str_in "cost" task_lower.

(** What the signals that read the flags and the context window can add to
    the score of one record and not to the score of another: 3 + 1 for a
    coding task, 5 for a reasoning task, 4 for a long-context task. *)
Definition flag_shift (task_lower : string) : Q :=
  (if names_coding task_lower then 4 else 0) +
  (if names_reasoning task_lower then 5 else 0) +
  (if names_long_context task_lower then 4 else 0).

(** The part of the score that depends on the input price (the cheap
    signal, the budget modifier and the quality signal): its least value
    over the prices that are not negative, and the width of its range. *)
Definition price_floor (task_lower budget : string) : Q :=
  if (budget =? "cheap")%string then - (7 # 2)
  else if (budget =? "unlimited")%string
       then (if names_cheap task_lower then 5 else 0)
       else (if names_cheap task_lower then 3 # 2 else 0).

Definition price_shift (task_lower budget : string) : Q :=
  if (budget =? "cheap")%string
  then (if names_cheap task_lower then 23 # 2 else 13 # 2)
  else if (budget =? "unlimited")%string
       then (if names_cheap task_lower then 2 else 7)
       else (if names_cheap task_lower then 7 # 2 else 2).

(** The 14 points between [+4] and [-10] decide the order: the other
    signals and the budget cannot move two scores apart by 14. *)
Definition vision_decides (task_lower budget : string) : bool :=
  Qltb (flag_shift task_lower + price_shift task_lower budget) 14.

(** The record [m] with its prices read as rationals by [value]. *)
Definition exact_record {num : Type} (value : num -> Q) (m : ModelRecord num)
  : ModelRecord Q := {|
  id := id m; display_name := display_name m; provider := provider m;
  context_window := context_window m;
  max_output_tokens := max_output_tokens m;
  vision := vision m; reasoning := reasoning m;
  pricing_input := value (pricing_input m);
  pricing_output := value (pricing_output m);
  knowledge_cutoff := knowledge_cutoff m; release_date := release_date m;
  status := status m; notes := notes m |}.

(** The rational a finite float stands for. *)
Definition float_value (x : float) : Q :=
  match Prim2SF x with
  | S754_finite s m e =>
      if s then (- Q_of_finite m e)%Q else Q_of_finite m e
  | _ => 0
  end.

(** Two current records: one with vision and nothing else, one without
    vision, with reasoning and a context window of 1,048,576. *)
Definition rival (with_vision : bool) (price : float) : ModelRecord float := {|
  id := if with_vision then "seer" else "thinker";
  display_name := if with_vision then "Seer" else "Thinker";
  provider := "Example";
  context_window := if with_vision then 8192 else 1048576;
  max_output_tokens := 4096;
  vision := with_vision; reasoning := negb with_vision;
  pricing_input := price; pricing_output := price;
  knowledge_cutoff := "2025-01"; release_date := "2025-06";
  status := "current"; notes := "" |}.

(** The table of the two, the one with vision first, at the prices that
    serve the record without vision best under the budget. *)
Definition rivals (task_lower budget : string) : table float :=
  let cheap_budget := (budget =? "cheap")%string in
  let unlimited := (budget =? "unlimited")%string in
  let seer_price :=
    if cheap_budget then 5.5%float
    else if unlimited then 0%float
    else if names_cheap task_lower then 5%float else 0%float in
  let thinker_price :=
    if cheap_budget then 0%float
    else if unlimited then 7%float
    else if names_cheap task_lower then 0%float else 7%float in
  [("seer", rival true seer_price); ("thinker", rival false thinker_price)].

(** *** Vocabulary of the dicts *)

Section Schema.

Context {num : Type} `{Arith num}.

Definition is_str (v : option (pyvalue num)) : bool :=
  match v with Some (PyStr _) => true | _ => false end.
Definition is_int (v : option (pyvalue num)) : bool :=
  match v with Some (PyInt _) => true | _ => false end.
Definition is_float (v : option (pyvalue num)) : bool :=
  match v with Some (PyFloat _) => true | _ => false end.
Definition is_bool (v : option (pyvalue num)) : bool :=
  match v with Some (PyBool _) => true | _ => false end.

(** The schema of a record: the thirteen keys, each with a value of its
    type. *)
Definition has_schema (m : pydict num) : bool :=
  is_str (dict_lookup m "id") && is_str (dict_lookup m "display_name") &&
  is_str (dict_lookup m "provider") &&
  is_int (dict_lookup m "context_window") &&
  is_int (dict_lookup m "max_output_tokens") &&
  is_bool (dict_lookup m "vision") && is_bool (dict_lookup m "reasoning") &&
  is_float (dict_lookup m "pricing_input") &&
  is_float (dict_lookup m "pricing_output") &&
  is_str (dict_lookup m "knowledge_cutoff") &&
  is_str (dict_lookup m "release_date") &&
  is_str (dict_lookup m "status") && is_str (dict_lookup m "notes").

(** The value of a key, or a default when the dict has none of this type. *)
Definition str_of (m : pydict num) (k : string) : string :=
  match dict_lookup m k with Some (PyStr s) => s | _ => "" end.
Definition int_of (m : pydict num) (k : string) : Z :=
  match dict_lookup m k with Some (PyInt n) => n | _ => 0%Z end.
Definition float_of (m : pydict num) (k : string) : num :=
  match dict_lookup m k with Some (PyFloat x) => x | _ => of_int 0 end.
Definition bool_of (m : pydict num) (k : string) : bool :=
  match dict_lookup m k with Some (PyBool b) => b | _ => false end.

(** The record a dict of the schema stands for. *)
Definition record_of (m : pydict num) : ModelRecord num := {|
  id := str_of m "id";
  display_name := str_of m "display_name";
  provider := str_of m "provider";
  context_window := int_of m "context_window";
  max_output_tokens := int_of m "max_output_tokens";
  vision := bool_of m "vision";
  reasoning := bool_of m "reasoning";
  pricing_input := float_of m "pricing_input";
  pricing_output := float_of m "pricing_output";
  knowledge_cutoff := str_of m "knowledge_cutoff";
  release_date := str_of m "release_date";
  status := str_of m "status";
  notes := str_of m "notes" |}.

(** The dict of a record, with the keys in the order of the schema. *)
Definition dict_of (m : ModelRecord num) : pydict num :=
  [("id", PyStr (id m)); ("display_name", PyStr (display_name m));
   ("provider", PyStr (provider m));
   ("context_window", PyInt (context_window m));
   ("max_output_tokens", PyInt (max_output_tokens m));
   ("vision", PyBool (vision m)); ("reasoning", PyBool (reasoning m));
   ("pricing_input", PyFloat (pricing_input m));
   ("pricing_output", PyFloat (pricing_output m));
   ("knowledge_cutoff", PyStr (knowledge_cutoff m));
   ("release_date", PyStr (release_date m));
   ("status", PyStr (status m)); ("notes", PyStr (notes m))].

Definition records_of (t : raw_table num) : table num :=
  map (fun item => (fst item, record_of (snd item))) t.

Definition dicts_of (t : table num) : raw_table num :=
  map (fun item => (fst item, dict_of (snd item))) t.

(** The dict [m] without the key [k]. *)
Definition without (k : string) (m : pydict num) : pydict num :=
  filter (fun item => negb (fst item =? k)%string) m.

End Schema.

(** *** Vocabulary of the validation script *)

(** The computation [c] returns [a] and appends the reports [rs] to
    [RESULTS], whatever the state it starts from; it raises nothing. *)
Definition appends {A : Type} (c : M A) (a : A) (rs : list Report) : Prop :=
  forall s, exists out,
    c s = Returned a {| RESULTS := RESULTS s ++ rs; stdout := stdout s ++ out |}.

Definition make_report (model_id provider_ status_ detail : string) : Report :=
  {| report_id := model_id; report_provider := provider_;
     report_status := status_; report_detail := detail |}.

Section ValidateVocabulary.

Context {num : Type}.
Variable lower : string -> string.
Variable world : World.
Variable MODELS : table num.

(** The environment variable holds a key: it is set and not empty. *)
Definition key_is_set (env_name : string) : bool :=
  match environ world env_name with
  | Some k => negb (k =? "")%string
  | None => false
  end.

(** The items of the table for one provider, in table order. *)
Definition models_of (provider_ : string) : table num :=
  filter (fun item => (provider (snd item) =? provider_)%string) MODELS.

(** The status and the detail the validator of a listing API gives a model
    id. *)
Definition listing_verdict (env_name : string) (answer : listing)
  (available_of : list string -> list string) (missing_detail mid : string)
  : string * string :=
  if key_is_set env_name then
    match answer with
    | ListingFailed e => ("error", "API error: " ++ e)
    | Listed names =>
        if existsb (String.eqb mid) (available_of names)
        then ("ok", "model available")
        else ("warn", missing_detail)
    end
  else ("skip", "no API key").

Definition listing_reports (provider_ env_name : string) (answer : listing)
  (available_of : list string -> list string) (missing_detail : string)
  : list Report :=
  map (fun item =>
         let verdict :=
           listing_verdict env_name answer available_of missing_detail
                           (fst item) in
         make_report (fst item) provider_ (fst verdict) (snd verdict))
      (models_of provider_).

Definition openai_reports : list Report :=
  listing_reports "OpenAI" "OPENAI_API_KEY" (openai_models world)
    (fun ids => ids) "model ID not in /v1/models list".

Definition google_reports : list Report :=
  listing_reports "Google" "GOOGLE_API_KEY" (google_models world)
    (map last_segment) "model ID not in API list".

Definition xai_reports : list Report :=
  listing_reports "xAI" "XAI_API_KEY" (xai_models world)
    (fun ids => ids) "model ID not in /v1/models list".

(** The status and the detail [validate_anthropic] gives a model id, and
    whether the loop stops after it. *)
Definition anthropic_verdict (mid : string) : string * string * bool :=
  match anthropic_messages world mid with
  | PostFailed e => ("error", e, false)
  | Response status_code text =>
      if (status_code =? 200)%Z then ("ok", "model responds", false)
      else if ((status_code =? 400)%Z && str_in "model" (lower text))%bool
           then ("error", "invalid model ID", false)
           else if (status_code =? 401)%Z
                then ("skip", "auth error — check API key", true)
                else ("warn", "HTTP " ++ str_of_int status_code, false)
  end.

Fixpoint anthropic_answers (items : table num) : list Report :=
  match items with
  | [] => []
  | item :: rest =>
      let '(status_, detail, stop) := anthropic_verdict (fst item) in
      make_report (fst item) "Anthropic" status_ detail ::
      (if stop then [] else anthropic_answers rest)
  end.

Definition anthropic_reports : list Report :=
  if key_is_set "ANTHROPIC_API_KEY"
  then anthropic_answers (models_of "Anthropic")
  else map (fun item => make_report (fst item) "Anthropic" "skip" "no API key")
           (models_of "Anthropic").

Definition no_api_reports : list Report :=
  flat_map
    (fun provider_ =>
       map (fun item => make_report (fst item) provider_ "skip"
                                    "no automated validation available")
           (models_of provider_))
    ["Meta"; "Mistral"; "DeepSeek"].

(** The reports of a run of [main], in the order of the five validators. *)
Definition expected_results : list Report :=
  (openai_reports ++ anthropic_reports ++ google_reports ++ xai_reports ++
   no_api_reports)%list.

End ValidateVocabulary.

(** The four statuses of a report and the seven providers of the script. *)
Definition known_status (status_ : string) : Prop :=
  In status_ ["ok"; "warn"; "error"; "skip"].

Definition validated_providers : list string :=
  ["OpenAI"; "Anthropic"; "Google"; "xAI"; "Meta"; "Mistral"; "DeepSeek"].

(** A report of [r] is about a model of the table, under the provider of the
    model, with one of the four statuses. *)
Definition sound_report {num : Type} (MODELS : table num) (r : Report) : Prop :=
  known_status (report_status r) /\
  In (report_provider r) validated_providers /\
  exists m, In (report_id r, m) MODELS /\ provider m = report_provider r.

(** The reports of [rs] under one provider. *)
Definition reports_of (provider_ : string) (rs : list Report) : list Report :=
  filter (fun r => (report_provider r =? provider_)%string) rs.

(** Two worlds that differ at most in what OpenAI is asked and answers. *)
Definition same_but_openai (w1 w2 : World) : Prop :=
  (forall name, name <> "OPENAI_API_KEY" -> environ w1 name = environ w2 name) /\
  google_models w1 = google_models w2 /\
  xai_models w1 = xai_models w2 /\
  (forall mid, anthropic_messages w1 mid = anthropic_messages w2 mid).

(** No API key is set. *)
Definition no_keys : World := {|
  environ := fun _ => None;
  openai_models := ListingFailed "";
  google_models := ListingFailed "";
  xai_models := ListingFailed "";
  anthropic_messages := fun _ => PostFailed ""
|}.

(** The key of OpenAI alone is set; its API lists two models. *)
Definition openai_only : World := {|
  environ := fun name =>
    if (name =? "OPENAI_API_KEY")%string then Some "sk-test" else None;
  openai_models := Listed ["gpt-5"; "gpt-4o"];
  google_models := ListingFailed "";
  xai_models := ListingFailed "";
  anthropic_messages := fun _ => PostFailed ""
|}.

(** The key of Anthropic alone is set, and is refused. *)
Definition anthropic_refused : World := {|
  environ := fun name =>
    if (name =? "ANTHROPIC_API_KEY")%string then Some "sk-ant" else None;
  openai_models := ListingFailed "";
  google_models := ListingFailed "";
  xai_models := ListingFailed "";
  anthropic_messages := fun _ => Response 401 "invalid x-api-key"
|}.

(** The key of Google alone is set; its API lists one model, under its
    resource name. *)
Definition google_only : World := {|
  environ := fun name =>
    if (name =? "GOOGLE_API_KEY")%string then Some "AIza" else None;
  openai_models := ListingFailed "";
  google_models := Listed ["models/gemini-2.5-pro"];
  xai_models := ListingFailed "";
  anthropic_messages := fun _ => PostFailed ""
|}.

(** As [openai_only], but the request to OpenAI times out. *)
Definition openai_down : World := {|
  environ := fun name =>
    if (name =? "OPENAI_API_KEY")%string then Some "sk-test" else None;
  openai_models := ListingFailed "timed out";
  google_models := ListingFailed "";
  xai_models := ListingFailed "";
  anthropic_messages := fun _ => PostFailed ""
|}.

(** * Properties *)

(** ** Strings *)

Lemma prefix_refl (s : string) : String.prefix s s = true.
Proof.
  induction s as [|c s IH]; simpl; [reflexivity|].
  destruct (ascii_dec c c) as [_|ne]; [exact IH | now elim ne].
Qed.

Lemma str_in_refl (s : string) : str_in s s = true.
Proof.
  destruct s as [|c s]; [reflexivity|].
  cbn [str_in]. now rewrite prefix_refl.
Qed.

Lemma str_in_empty (s : string) : str_in "" s = true.
Proof. destruct s; reflexivity. Qed.

(** Equality up to case is a special case of containment up to case: the
    test of the resolver's pass is the substring test alone. *)
Lemma key_matches_substring (lower : string -> string) (q key : string) :
  key_matches lower q key = str_in q (lower key).
Proof.
  unfold key_matches.
  destruct (String.eqb_spec (lower key) q) as [e|ne]; [|reflexivity].
  rewrite e. now rewrite str_in_refl.
Qed.

Lemma string_ltb_leb (a b : string) : String.ltb a b = true -> String.leb a b = true.
Proof.
  unfold String.ltb, String.leb. now destruct (String.compare a b).
Qed.

Lemma string_not_ltb_leb (a b : string) :
  String.ltb a b = false -> String.leb b a = true.
Proof.
  unfold String.ltb, String.leb. rewrite (String.compare_antisym a b).
  now destruct (String.compare b a).
Qed.

(** ** The stable sort *)

Section Sorting.

Context {A : Type} (lt : A -> A -> bool).

Lemma insert_sorted_perm (x : A) (l : list A) :
  Permutation (insert_sorted lt x l) (x :: l).
Proof.
  induction l as [|y l IH]; simpl; [reflexivity|].
  destruct (lt y x); [|reflexivity].
  rewrite IH. apply perm_swap.
Qed.

Lemma sorted_perm (l : list A) : Permutation (sorted lt l) l.
Proof.
  induction l as [|x l IH]; simpl; [reflexivity|].
  rewrite insert_sorted_perm. now apply perm_skip.
Qed.

Lemma sorted_length (l : list A) : List.length (sorted lt l) = List.length l.
Proof. apply Permutation_length, sorted_perm. Qed.

Lemma sorted_In (x : A) (l : list A) : In x (sorted lt l) <-> In x l.
Proof.
  split; apply Permutation_in; [|symmetry]; apply sorted_perm.
Qed.

Hypothesis lt_asym : forall x y, lt x y = true -> lt y x = false.

Lemma insert_sorted_HdRel (x a : A) (l : list A) :
  may_precede lt a x -> HdRel (may_precede lt) a l ->
  HdRel (may_precede lt) a (insert_sorted lt x l).
Proof.
  intros ax al. destruct l as [|y l]; simpl; [now constructor|].
  destruct (lt y x); constructor; [now inversion al | exact ax].
Qed.

Lemma insert_sorted_Sorted (x : A) (l : list A) :
  Sorted (may_precede lt) l -> Sorted (may_precede lt) (insert_sorted lt x l).
Proof.
  induction 1 as [|y l sl IH hd]; simpl; [repeat constructor|].
  destruct (lt y x) eqn:yx.
  - constructor; [exact IH|].
    apply insert_sorted_HdRel; [|exact hd].
    unfold may_precede. now apply lt_asym.
  - constructor; [now constructor|]. constructor. exact yx.
Qed.

Lemma sorted_Sorted (l : list A) : Sorted (may_precede lt) (sorted lt l).
Proof.
  induction l as [|x l IH]; simpl; [constructor|].
  now apply insert_sorted_Sorted.
Qed.

End Sorting.

(** The same for a comparison that is a strict weak order on the elements
    of the list only, as [<] on floats is when none of them is NaN. *)
Section SortingOn.

Context {A : Type} (lt : A -> A -> bool).

Lemma ordered_on_incl (l l' : list A) :
  incl l' l -> ordered_on lt l -> ordered_on lt l'.
Proof.
  intros sub [asym negtrans]. split.
  - intros a b ia ib. apply asym; now apply sub.
  - intros a b c ia ib ic. apply negtrans; now apply sub.
Qed.

Lemma insert_sorted_In (x y : A) (l : list A) :
  In y (insert_sorted lt x l) <-> y = x \/ In y l.
Proof.
  split.
  - intros i. apply (Permutation_in _ (insert_sorted_perm lt x l)) in i.
    destruct i as [<-|i]; auto.
  - intros i.
    apply (Permutation_in _ (Permutation_sym (insert_sorted_perm lt x l))).
    destruct i as [->|i]; [now left | now right].
Qed.

Lemma insert_sorted_StronglySorted_on (x : A) (l : list A) :
  ordered_on lt (x :: l) ->
  StronglySorted (may_precede lt) l ->
  StronglySorted (may_precede lt) (insert_sorted lt x l).
Proof.
  intros [asym negtrans] ordered.
  induction ordered as [|y l ordered IH above]; simpl;
    [repeat constructor|].
  rewrite Forall_forall in above.
  destruct (lt y x) eqn:yx.
  - constructor.
    + apply IH.
      * intros a b ia ib. apply asym; simpl in *; tauto.
      * intros a b c ia ib ic. apply negtrans; simpl in *; tauto.
    + apply Forall_forall. intros z iz. apply insert_sorted_In in iz.
      destruct iz as [->|iz]; [|now apply above].
      unfold may_precede. apply asym; simpl; auto.
  - constructor; [constructor; [exact ordered | now apply Forall_forall]|].
    constructor; [exact yx|].
    apply Forall_forall. intros z iz. unfold may_precede.
    apply (negtrans z y x); simpl; auto. now apply above.
Qed.

Lemma sorted_StronglySorted_on (l : list A) :
  ordered_on lt l -> StronglySorted (may_precede lt) (sorted lt l).
Proof.
  induction l as [|x l IH]; intros order; simpl; [constructor|].
  apply insert_sorted_StronglySorted_on.
  - apply (ordered_on_incl (x :: l)); [|exact order].
    intros y [<-|iy]; [now left|]. right. now apply (sorted_In lt y l).
  - apply IH. apply (ordered_on_incl (x :: l)); [|exact order].
    intros y iy. now right.
Qed.

End SortingOn.

Lemma ordered_on_key {A B : Type} (lt : A -> A -> bool) (key : B -> A)
  (l : list B) :
  ordered_on lt (map key l) -> ordered_on (fun a b => lt (key a) (key b)) l.
Proof.
  intros [asym negtrans]. split.
  - intros a b ia ib. apply asym; now apply in_map.
  - intros a b c ia ib ic. apply negtrans; now apply in_map.
Qed.

Lemma ordered_on_key_reverse {A B : Type} (lt : A -> A -> bool) (key : B -> A)
  (l : list B) :
  ordered_on lt (map key l) -> ordered_on (fun a b => lt (key b) (key a)) l.
Proof.
  intros [asym negtrans]. split.
  - intros a b ia ib. apply asym; now apply in_map.
  - intros a b c ia ib ic ab bc.
    apply (negtrans (key c) (key b) (key a)); auto using in_map.
Qed.

(** *** The order of floats

    [<] on binary64 compares the ranks of two floats that are not NaN, so it
    is a strict weak order on every list of floats without NaN. *)
Lemma SFltb_rank (x y : spec_float) :
  x <> S754_nan -> y <> S754_nan ->
  (SFltb x y = true <-> rank_lt (float_rank x) (float_rank y)).
Proof.
  intros nx ny. unfold SFltb, SFcompare.
  destruct x as [sx|sx| |sx mx ex], y as [sy|sy| |sy my ey];
    try congruence; try destruct sx; try destruct sy; simpl;
    try (split; [discriminate | lia]);
    try (split; [intros _; lia | reflexivity]).
  - destruct (Z.compare_spec ex ey); rewrite ?Pos.compare_cont_spec; simpl;
      try destruct (Pos.compare_spec mx my); simpl; split;
      try discriminate; try lia; reflexivity.
  - destruct (Z.compare_spec ex ey); rewrite ?Pos.compare_cont_spec; simpl;
      try destruct (Pos.compare_spec mx my); simpl; split;
      try discriminate; try lia; reflexivity.
Qed.

Lemma not_nan_spec (x : float) : is_nan x = false -> Prim2SF x <> S754_nan.
Proof.
  unfold is_nan. rewrite eqb_spec. intros number e. rewrite e in number.
  discriminate.
Qed.

Lemma float_ordered_on (l : list float) :
  Forall (fun x => is_nan x = false) l -> ordered_on PrimFloat.ltb l.
Proof.
  rewrite Forall_forall. intros numbers.
  assert (rank : forall a b, In a l -> In b l ->
            (PrimFloat.ltb a b = true <->
             rank_lt (float_rank (Prim2SF a)) (float_rank (Prim2SF b)))).
  { intros a b ia ib. rewrite ltb_spec.
    apply SFltb_rank; apply not_nan_spec, numbers; assumption. }
  split.
  - intros a b ia ib ab. apply (rank a b ia ib) in ab.
    destruct (PrimFloat.ltb b a) eqn:ba; [|reflexivity].
    apply (rank b a ib ia) in ba.
    destruct (float_rank (Prim2SF a)) as [[c1 e1] m1],
             (float_rank (Prim2SF b)) as [[c2 e2] m2].
    simpl in *. lia.
  - intros a b c ia ib ic ab bc.
    destruct (PrimFloat.ltb a c) eqn:ac; [|reflexivity].
    apply (rank a c ia ic) in ac.
    assert (nab : ~ rank_lt (float_rank (Prim2SF a)) (float_rank (Prim2SF b))).
    { intros r. apply (rank a b ia ib) in r. congruence. }
    assert (nbc : ~ rank_lt (float_rank (Prim2SF b)) (float_rank (Prim2SF c))).
    { intros r. apply (rank b c ib ic) in r. congruence. }
    destruct (float_rank (Prim2SF a)) as [[c1 e1] m1],
             (float_rank (Prim2SF b)) as [[c2 e2] m2],
             (float_rank (Prim2SF c)) as [[c3 e3] m3].
    simpl in *. lia.
Qed.

(** ** Lists *)

Lemma find_pointwise {A : Type} (f g : A -> bool) (l : list A) :
  (forall x, f x = g x) -> find f l = find g l.
Proof.
  intros same. induction l as [|x l IH]; simpl; [reflexivity|].
  now rewrite same, IH.
Qed.

Lemma StronglySorted_suffix {A : Type} (R : A -> A -> Prop) (l1 l2 : list A) :
  StronglySorted R (l1 ++ l2) -> StronglySorted R l2.
Proof.
  induction l1 as [|x l1 IH]; simpl; [trivial|].
  intros ordered. apply IH. now apply StronglySorted_inv in ordered.
Qed.

Lemma StronglySorted_prefix {A : Type} (R : A -> A -> Prop) (l1 l2 : list A) :
  StronglySorted R (l1 ++ l2) -> StronglySorted R l1.
Proof.
  induction l1 as [|x l1 IH]; simpl; [constructor|].
  intros ordered. apply StronglySorted_inv in ordered.
  destruct ordered as [ordered above]. constructor; [now apply IH|].
  now apply Forall_app in above.
Qed.

Lemma StronglySorted_app_inv {A : Type} (R : A -> A -> Prop) (l1 l2 : list A) :
  StronglySorted R (l1 ++ l2) ->
  forall x y, In x l1 -> In y l2 -> R x y.
Proof.
  induction l1 as [|a l1 IH]; simpl; intros ordered x y ix iy; [destruct ix|].
  apply StronglySorted_inv in ordered. destruct ordered as [ordered above].
  destruct ix as [<-|ix]; [|now apply IH].
  rewrite Forall_forall in above. apply above, in_or_app. now right.
Qed.

(** ** The identifier resolver *)

Section Resolver.

Context {num : Type} `{Arith num}.
Variable lower : string -> string.

Lemma dict_get_In (t : table num) (k : string) (m : ModelRecord num) :
  dict_get t k = Some m -> In (k, m) t.
Proof.
  induction t as [|[key m'] t IH]; simpl; [discriminate|].
  destruct (String.eqb_spec key k) as [->|_].
  - intros [= ->]. now left.
  - intros e. right. now apply IH.
Qed.

Lemma dict_get_None (t : table num) (k : string) :
  ~ In k (keys t) -> dict_get t k = None.
Proof.
  induction t as [|[key m] t IH]; simpl; [reflexivity|].
  intros nin. destruct (String.eqb_spec key k) as [e|_].
  - elim nin. now left.
  - apply IH. intros i. apply nin. now right.
Qed.

(** The pass of the resolver skips the items whose key does not contain the
    query and stops at the first one whose key does. *)
Lemma find_skips (q : string) (before after : table num)
  (key : string) (m : ModelRecord num) :
  Forall (fun item => str_in q (lower (fst item)) = false) before ->
  str_in q (lower key) = true ->
  find (fun item => key_matches lower q (fst item))
       (before ++ (key, m) :: after) = Some (key, m).
Proof.
  intros skipped hit.
  induction skipped as [|item before miss _ IH]; simpl.
  - now rewrite key_matches_substring, hit.
  - now rewrite key_matches_substring, miss.
Qed.

(** C1, as amended.  The resolver has two steps, not three: the exact lookup
    and, when it fails, one pass over the items in table order that returns
    the first key containing the query up to case (a key equal to the query up
    to case is such a key).  A key equal to the query up to case is therefore
    returned when no key before it contains the query up to case. *)
Theorem resolve_single_pass (MODELS : table num) (model_id : string) :
  (forall m, dict_get MODELS model_id = Some m ->
             resolve lower MODELS model_id = Some m) /\
  (dict_get MODELS model_id = None ->
   resolve lower MODELS model_id =
   option_map snd
     (find (fun item => str_in (lower model_id) (lower (fst item))) MODELS)) /\
  (forall before key m after,
     dict_get MODELS model_id = None ->
     MODELS = (before ++ (key, m) :: after)%list ->
     lower key = lower model_id ->
     Forall (fun item => str_in (lower model_id) (lower (fst item)) = false)
            before ->
     resolve lower MODELS model_id = Some m).
Proof.
  unfold resolve. repeat split.
  - intros m found. now rewrite found.
  - intros missing. rewrite missing. f_equal.
    apply find_pointwise. intros item. apply key_matches_substring.
  - intros before key m after missing -> same skipped.
    rewrite missing, (find_skips _ before after key m skipped); [reflexivity|].
    rewrite same. apply str_in_refl.
Qed.

(** C3, as amended.  When the query does not resolve, [get_model_info]
    answers with the not-found sentence followed by the known identifiers in
    sorted order (a rearrangement of the keys in which no identifier is
    followed by a smaller one), and [check_model_status] answers with its own
    not-found sentence, which lists no identifier. *)
Theorem not_found_messages (MODELS : table num) (model_id : string) :
  resolve lower MODELS model_id = None ->
  let known := sorted String.ltb (keys MODELS) in
  get_model_info lower MODELS model_id =
    "Model `" ++ model_id ++ "` not found in registry." ++ nl ++ nl ++
    "Known models: " ++ join ", " known /\
  Permutation known (keys MODELS) /\
  Sorted (fun a b => String.leb a b = true) known /\
  check_model_status lower MODELS model_id =
    "`" ++ model_id ++ "` is **not found** in the registry. " ++
    "It may be misspelled, very old, or not yet tracked.".
Proof.
  intros unresolved known.
  unfold get_model_info, check_model_status. rewrite unresolved.
  split; [reflexivity|]. split; [apply sorted_perm|]. split; [|reflexivity].
  assert (ordered : Sorted (may_precede String.ltb) known).
  { apply sorted_Sorted. intros x y xy.
    unfold String.ltb in *. rewrite (String.compare_antisym y x).
    now destruct (String.compare x y). }
  induction ordered as [|a l _ IH hd]; constructor; [exact IH|].
  destruct hd as [|b l ab]; constructor.
  now apply string_not_ltb_leb.
Qed.

(** C8.  On a table whose first item is [(key, m)] and in which no later key
    is the empty string, the empty query resolves to [m]: both tools render
    [m], and neither answers with its not-found message. *)
Theorem empty_query_resolves_first
  (key : string) (m : ModelRecord num) (rest : table num) :
  lower "" = "" ->
  ~ In "" (keys rest) ->
  let MODELS := (key, m) :: rest in
  resolve lower MODELS "" = Some m /\
  get_model_info lower MODELS "" = _model_detail m /\
  check_model_status lower MODELS "" = status_report MODELS m /\
  get_model_info lower MODELS "" <> info_not_found MODELS "" /\
  check_model_status lower MODELS "" <> status_not_found "".
Proof.
  intros lower_empty later MODELS.
  assert (first : resolve lower MODELS "" = Some m).
  { unfold resolve, MODELS. simpl dict_get.
    destruct (String.eqb_spec key "") as [_|_]; [reflexivity|].
    rewrite (dict_get_None rest "" later). simpl.
    now rewrite key_matches_substring, lower_empty, str_in_empty. }
  unfold get_model_info, check_model_status. rewrite first.
  repeat split; try discriminate.
  unfold status_report, status_not_found.
  repeat match goal with |- context [if ?c then _ else _] => destruct c end;
    repeat match goal with |- context [match ?c with _ => _ end] => destruct c end;
    discriminate.
Qed.

End Resolver.

(** ** The filter engine *)

Section Filters.

Context {num : Type} `{Arith num}.
Variable lower : string -> string.
Variable MODELS : table num.

Lemma filter_all {A : Type} (l : list A) : filter (fun _ => true) l = l.
Proof. induction l as [|x l IH]; simpl; congruence. Qed.

Lemma filter_twice {A : Type} (f g : A -> bool) (l : list A) :
  filter g (filter f l) = filter (fun x => f x && g x) l.
Proof.
  induction l as [|x l IH]; simpl; [reflexivity|].
  destruct (f x); simpl; [destruct (g x)|]; now rewrite IH.
Qed.

Lemma if_given_filter (arg : option string)
  (test : string -> ModelRecord num -> bool) (results : list (ModelRecord num)) :
  if_given arg (fun a r => filter (test a) r) results =
  filter (fun m => if_given arg (fun a _ => test a m) true) results.
Proof.
  unfold if_given. destruct arg as [s|]; [destruct (s =? "")%string|];
    now rewrite ?filter_all.
Qed.

(** [list_models] renders the records that pass the three filters, in table
    order. *)
Lemma list_models_filter (provider_ status_ capability : option string) :
  list_models lower MODELS provider_ status_ capability =
  _format_table
    (filter (fun m => provider_keeps lower provider_ m
                      && status_keeps lower status_ m
                      && capability_keeps lower capability m)
            (values MODELS)).
Proof.
  unfold list_models. cbv zeta. f_equal.
  rewrite <- !filter_twice.
  rewrite !if_given_filter.
  fold (@provider_keeps num lower provider_)
       (@status_keeps num lower status_).
  generalize (filter (status_keeps lower status_)
                (filter (provider_keeps lower provider_) (values MODELS))).
  intros results.
  unfold capability_keeps, if_given. destruct capability as [c|];
    [destruct (c =? "")%string|]; rewrite ?filter_all; try reflexivity.
  destruct (lower c =? "vision")%string; [reflexivity|].
  destruct ((lower c =? "reasoning") || (lower c =? "thinking"))%string;
    now rewrite ?filter_all.
Qed.

(** C9.  An empty string for [provider], [status] or [capability] is the same
    as no argument: the filter is skipped, whatever the other two arguments
    are; with all three empty or absent the table of every record, in table
    order, is rendered. *)
Theorem list_models_empty_is_absent :
  (forall status_ capability,
     list_models lower MODELS (Some "") status_ capability =
     list_models lower MODELS None status_ capability) /\
  (forall provider_ capability,
     list_models lower MODELS provider_ (Some "") capability =
     list_models lower MODELS provider_ None capability) /\
  (forall provider_ status_,
     list_models lower MODELS provider_ status_ (Some "") =
     list_models lower MODELS provider_ status_ None) /\
  list_models lower MODELS (Some "") (Some "") (Some "") =
    list_models lower MODELS None None None /\
  list_models lower MODELS None None None = _format_table (values MODELS).
Proof.
  assert (unfiltered :
    list_models lower MODELS None None None = _format_table (values MODELS)).
  { rewrite list_models_filter. f_equal. apply filter_all. }
  split; [|split; [|split; [|split]]].
  - intros status_ capability. now rewrite !list_models_filter.
  - intros provider_ capability. now rewrite !list_models_filter.
  - intros provider_ status_. now rewrite !list_models_filter.
  - rewrite unfiltered, list_models_filter. f_equal. apply filter_all.
  - exact unfiltered.
Qed.

End Filters.

(** ** The recommendation scorer *)

Section Scorer.

Context {num : Type} `{Arith num}.
Variable lower : string -> string.
Variable MODELS : table num.

Lemma current_models_spec (m : ModelRecord num) :
  In m (current_models MODELS) <->
  In m (values MODELS) /\ status m = "current".
Proof.
  unfold current_models. rewrite filter_In.
  now rewrite String.eqb_eq.
Qed.

Lemma scored_entries (task_lower budget : string) :
  Forall (scored_entry MODELS task_lower budget) (scored MODELS task_lower budget).
Proof.
  unfold scored. apply Forall_map, Forall_forall.
  intros m current. now split.
Qed.

Lemma ranked_perm (task_lower budget : string) :
  Permutation (ranked MODELS task_lower budget)
              (scored MODELS task_lower budget).
Proof. apply sorted_perm. Qed.

Lemma ranked_entries (task_lower budget : string) :
  Forall (scored_entry MODELS task_lower budget) (ranked MODELS task_lower budget).
Proof.
  eapply Permutation_Forall; [symmetry; apply ranked_perm|].
  apply scored_entries.
Qed.

Lemma ranked_length (task_lower budget : string) :
  List.length (ranked MODELS task_lower budget) =
  List.length (current_models MODELS).
Proof.
  rewrite (Permutation_length (ranked_perm task_lower budget)).
  apply length_map.
Qed.

Lemma Forall_firstn_of {A : Type} (P : A -> Prop) (n : nat) (l : list A) :
  Forall P l -> Forall P (firstn n l).
Proof.
  intros all. rewrite <- (firstn_skipn n l) in all.
  now apply Forall_app in all.
Qed.

Lemma enumerate_length {A : Type} (start : nat) (l : list A) :
  List.length (enumerate start l) = List.length l.
Proof.
  revert start. induction l as [|x l IH]; intros start; simpl;
    [reflexivity | now rewrite IH].
Qed.

Lemma recommend_entries_length (task : string) (budget : option string) :
  List.length (recommend_entries lower MODELS task budget) =
  List.length (recommend_top lower MODELS task budget).
Proof.
  unfold recommend_entries. now rewrite length_map, enumerate_length.
Qed.

Lemma count_current (l : list (ModelRecord num)) :
  count_occ string_dec (map status l) "current" =
  List.length (filter (fun m => (status m =? "current")%string) l).
Proof.
  induction l as [|m l IH]; [reflexivity|].
  cbn [map count_occ filter].
  destruct (string_dec (status m) "current") as [e|ne].
  - rewrite e. simpl. now rewrite IH.
  - apply String.eqb_neq in ne. now rewrite ne.
Qed.

Lemma ranked_descending (task_lower budget : string) :
  ordered_on ltb (current_scores MODELS task_lower budget) ->
  descending (ranked MODELS task_lower budget).
Proof.
  intros order. unfold descending, ranked, sort_by_key_reverse.
  apply (sorted_StronglySorted_on
           (fun a b : num * ModelRecord num => ltb (fst b) (fst a))).
  apply ordered_on_key_reverse.
  unfold scored. rewrite map_map. exact order.
Qed.

Lemma scored_In (task_lower budget : string) (m : ModelRecord num) :
  In m (values MODELS) -> status m = "current" ->
  In (score_model task_lower budget m, m) (ranked MODELS task_lower budget).
Proof.
  intros listed current.
  apply (Permutation_in _ (Permutation_sym (ranked_perm _ _))).
  unfold scored. apply (in_map (fun m => (score_model _ _ m, m))).
  now apply current_models_spec.
Qed.

(** A current record is one of the first three of a descending ranking, or
    none of the three scores less than it. *)
Lemma top_is_best (task_lower budget : string) (m : ModelRecord num) :
  descending (ranked MODELS task_lower budget) ->
  In m (values MODELS) -> status m = "current" ->
  let top := firstn 3 (ranked MODELS task_lower budget) in
  In (score_model task_lower budget m, m) top \/
  (List.length top = 3%nat /\
   Forall (fun entry =>
             ltb (fst entry) (score_model task_lower budget m) = false) top).
Proof.
  intros ordered listed current top.
  pose proof (scored_In task_lower budget m listed current) as entry.
  unfold descending in ordered.
  rewrite <- (firstn_skipn 3 (ranked MODELS task_lower budget))
    in entry, ordered.
  apply in_app_or in entry. destruct entry as [first|later]; [now left|].
  right. split.
  - unfold top. rewrite length_firstn.
    assert (skipn 3 (ranked MODELS task_lower budget) <> []) as more
      by (intros e; rewrite e in later; destruct later).
    destruct (ranked MODELS task_lower budget) as [|a [|b [|c l]]];
      simpl in *; congruence.
  - apply Forall_forall. intros x ix.
    exact (StronglySorted_app_inv _ _ _ ordered x _ ix later).
Qed.

(** C5.  Whatever the task and the budget, [recommend_model] renders at most
    three entries, one numbered block each; every entry is a record of the
    table whose status is "current", paired with its score.  The entries are
    ranked: when [<] is a strict weak order on the scores of the current
    records (no score is NaN), no entry scores less than a later one, and
    every current record of the table is one of the entries or is there with
    three entries none of which scores less than it. *)
Theorem recommend_top_current (task : string) (budget : option string) :
  let task_lower := lower task in
  let b := normalized_budget lower budget in
  let top := recommend_top lower MODELS task budget in
  (List.length top <= 3)%nat /\
  Forall (fun entry =>
            status (snd entry) = "current" /\
            In (snd entry) (values MODELS) /\
            fst entry = score_model task_lower b (snd entry)) top /\
  List.length (recommend_entries lower MODELS task budget) = List.length top /\
  (ordered_on ltb (current_scores MODELS task_lower b) ->
   StronglySorted (fun x y => ltb (fst x) (fst y) = false) top /\
   forall m, In m (values MODELS) -> status m = "current" ->
     In (score_model task_lower b m, m) top \/
     (List.length top = 3%nat /\
      Forall (fun entry => ltb (fst entry) (score_model task_lower b m) = false)
             top)).
Proof.
  intros task_lower b top. split; [apply firstn_le_length|]. split.
  { apply Forall_firstn_of.
    eapply Forall_impl; [|apply ranked_entries].
    intros entry [score current].
    apply current_models_spec in current. tauto. }
  split; [apply recommend_entries_length|].
  intros order. apply ranked_descending in order. split.
  - unfold top, recommend_top. fold task_lower b.
    apply (StronglySorted_prefix _ _ (skipn 3 (ranked MODELS task_lower b))).
    rewrite firstn_skipn. exact order.
  - intros m listed current. now apply top_is_best.
Qed.

(** When at most three records are current, the top holds all of them. *)
Lemma firstn_all_of {A : Type} (n : nat) (l : list A) :
  (List.length l <= n)%nat -> firstn n l = l.
Proof.
  revert n. induction l as [|x l IH]; intros [|n] short; simpl in *;
    try reflexivity; [lia|].
  f_equal. apply IH. lia.
Qed.

(** C10.  There is no threshold on the score: the number of entries, and of
    numbered blocks in the text, is the smaller of 3 and the number of
    records of the table whose status is "current"; when that number is at
    most three, the entries are these records, each one paired with its
    score, whatever the score is. *)
Theorem recommend_top_length (task : string) (budget : option string) :
  let task_lower := lower task in
  let b := normalized_budget lower budget in
  let top := recommend_top lower MODELS task budget in
  let n_current :=
    count_occ string_dec (map status (values MODELS)) "current" in
  List.length top = Nat.min 3 n_current /\
  List.length (recommend_entries lower MODELS task budget) =
    Nat.min 3 n_current /\
  ((n_current <= 3)%nat ->
   Permutation top
     (map (fun m => (score_model task_lower b m, m))
          (filter (fun m => (status m =? "current")%string) (values MODELS))) /\
   forall m, In m (values MODELS) -> status m = "current" ->
     In (score_model task_lower b m, m) top).
Proof.
  intros task_lower b top n_current.
  assert (count : n_current = List.length (current_models MODELS))
    by apply count_current.
  assert (size : List.length top = Nat.min 3 n_current).
  { unfold top, recommend_top. now rewrite length_firstn, ranked_length, count. }
  split; [exact size|]. split.
  - now rewrite recommend_entries_length.
  - intros few.
    assert (all : top = ranked MODELS task_lower b).
    { unfold top, recommend_top. apply firstn_all_of.
      rewrite ranked_length, <- count. exact few. }
    split.
    + rewrite all. apply ranked_perm.
    + intros m listed current. rewrite all. now apply scored_In.
Qed.

(** C7.  On a task whose lowercased text contains "coding" or "code", the
    coding signal adds 3 to the score of a record whose reasoning flag is
    set, and 1 more, or 1 alone, when its context window is at least 200,000;
    it is the first update of the score, which starts from 0, of every scored
    record. *)
Theorem coding_signal_adds (task budget : string) (m : ModelRecord num)
  (score : num) :
  (str_in "coding" (lower task) || str_in "code" (lower task))%bool = true ->
  coding_signal (lower task) m score =
    match reasoning m, (200000 <=? context_window m)%Z with
    | true, true => add (add score (of_int 3)) (of_int 1)
    | true, false => add score (of_int 3)
    | false, true => add score (of_int 1)
    | false, false => score
    end /\
  score_model (lower task) budget m =
    quality_signal m
      (budget_modifier budget m
         (cheap_signal (lower task) m
            (long_context_signal (lower task) m
               (reasoning_signal (lower task) m
                  (vision_signal (lower task) m
                     (coding_signal (lower task) m (of_int 0))))))) /\
  (In m (current_models MODELS) ->
   In (score_model (lower task) budget m, m)
      (ranked MODELS (lower task) budget)).
Proof.
  intros coding. split; [|split].
  - unfold coding_signal. rewrite coding.
    destruct (reasoning m), (200000 <=? context_window m)%Z; reflexivity.
  - reflexivity.
  - intros current.
    apply (Permutation_in _ (Permutation_sym (ranked_perm _ _))).
    unfold scored. now apply (in_map (fun m => (score_model _ _ m, m))).
Qed.

End Scorer.

(** ** [compare_models] *)

Section Tools.

Context {num : Type} `{Arith num}.
Variable lower : string -> string.
Variable MODELS : table num.

(** C2.  With fewer than two identifiers, the empty list included,
    [compare_models] returns the fixed message, whatever the identifiers,
    the table and the renderer are. *)
Theorem compare_models_needs_two
  (render_comparison : list (ModelRecord num) -> string)
  (model_ids : list string) :
  (List.length model_ids < 2)%nat ->
  compare_models lower MODELS render_comparison model_ids = at_least_2_message.
Proof.
  intros few. unfold compare_models.
  destruct (Nat.ltb_spec (List.length model_ids) 2) as [_|enough];
    [reflexivity | lia].
Qed.

End Tools.

(** * The tools on the example tables *)

(** C1 at a concrete input.  In [openai_table] the key "gpt-5" equals the
    query "GPT-5" up to case, and the key before it, "gpt-5-mini", contains
    the query up to case: both tools answer with GPT-5 Mini, not with GPT-5. *)
Lemma resolve_prefers_earlier_substring :
  let MODELS := @openai_table float _ in
  In ("gpt-5", gpt_5) MODELS /\
  ascii_lower "gpt-5" = ascii_lower "GPT-5" /\
  dict_get MODELS "GPT-5" = None /\
  resolve ascii_lower MODELS "GPT-5" = Some gpt_5_mini /\
  get_model_info ascii_lower MODELS "GPT-5" = _model_detail gpt_5_mini /\
  check_model_status ascii_lower MODELS "GPT-5" =
    "**GPT-5 Mini** (`gpt-5-mini`): status = **current**" ++ nl ++ nl ++
    "Note: Small and fast" /\
  _model_detail (@gpt_5_mini float _) <> _model_detail gpt_5.
Proof.
  cbv zeta. repeat split; try reflexivity.
  - right. now left.
  - vm_compute. discriminate.
Qed.

Lemma resolve_single_pass_witness :
  let MODELS := @openai_table float _ in
  dict_get MODELS "GPT-4O" = None /\
  ascii_lower "gpt-4o" = ascii_lower "GPT-4O" /\
  resolve ascii_lower MODELS "GPT-4O" = Some gpt_4o.
Proof.
  cbv zeta. split; [reflexivity|]. split; [reflexivity|].
  apply (proj2 (proj2 (resolve_single_pass ascii_lower openai_table "GPT-4O"))
           [("gpt-5-mini", gpt_5_mini); ("gpt-5", gpt_5)] "gpt-4o" gpt_4o []).
  - reflexivity.
  - reflexivity.
  - reflexivity.
  - repeat constructor.
Defined.

(** C3 at a concrete input.  The keys of [openai_table] are not in sorted
    order; for a query that does not resolve, [get_model_info] lists them
    sorted, and [check_model_status] lists none of them. *)
Lemma not_found_lists_differ :
  let MODELS := @openai_table float _ in
  keys MODELS = ["gpt-5-mini"; "gpt-5"; "gpt-4o"] /\
  resolve ascii_lower MODELS "zzz" = None /\
  get_model_info ascii_lower MODELS "zzz" =
    "Model `zzz` not found in registry." ++ nl ++ nl ++
    "Known models: gpt-4o, gpt-5, gpt-5-mini" /\
  lists_in_order (keys MODELS) (get_model_info ascii_lower MODELS "zzz")
    = false /\
  check_model_status ascii_lower MODELS "zzz" =
    "`zzz` is **not found** in the registry. " ++
    "It may be misspelled, very old, or not yet tracked." /\
  lists_in_order (keys MODELS) (check_model_status ascii_lower MODELS "zzz")
    = false /\
  forallb (fun key => negb (str_in key
                              (check_model_status ascii_lower MODELS "zzz")))
          (keys MODELS) = true.
Proof. cbv zeta. repeat split; vm_compute; reflexivity. Qed.

Lemma not_found_messages_witness :
  let MODELS := @openai_table float _ in
  resolve ascii_lower MODELS "zzz" = None /\
  get_model_info ascii_lower MODELS "zzz" =
    "Model `zzz` not found in registry." ++ nl ++ nl ++
    "Known models: " ++ join ", " (sorted String.ltb (keys MODELS)).
Proof.
  cbv zeta. split; [reflexivity|].
  apply (not_found_messages ascii_lower openai_table "zzz"). reflexivity.
Defined.

Lemma empty_query_resolves_first_witness :
  ascii_lower "" = "" /\
  ~ In "" (keys [("gpt-5", @gpt_5 float _); ("gpt-4o", gpt_4o)]) /\
  get_model_info ascii_lower (@openai_table float _) "" =
    _model_detail gpt_5_mini /\
  check_model_status ascii_lower (@openai_table float _) "" =
    status_report openai_table gpt_5_mini.
Proof.
  assert (later : ~ In "" (keys [("gpt-5", @gpt_5 float _); ("gpt-4o", gpt_4o)])).
  { simpl. intros [e|[e|[]]]; discriminate. }
  split; [reflexivity|]. split; [exact later|].
  destruct (empty_query_resolves_first ascii_lower "gpt-5-mini" gpt_5_mini
              [("gpt-5", gpt_5); ("gpt-4o", gpt_4o)] eq_refl later)
    as (_ & info & report & _).
  split; [exact info | exact report].
Defined.

(** C6 at a concrete input.  In [vision_table] both records are current;
    Pixtral has vision, DeepSeek Reasoner has not.  On the task "image code
    reasoning" with the budget "unlimited" the reasoner scores
    3 - 10 + 5 + 5 + 2 = 5 and Pixtral 4: the record without vision is ranked
    first, in binary64 and in exact arithmetic alike. *)
Lemma reasoner_outranks_vision :
  map (fun m => (id m, status m, vision m)) (values (@vision_table float _)) =
    [("pixtral-12b", "current", true); ("deepseek-reasoner", "current", false)] /\
  (str_in "vision" (ascii_lower "image code reasoning")
   || str_in "image" (ascii_lower "image code reasoning"))%bool = true /\
  map (fun entry => (fst entry, id (snd entry), vision (snd entry)))
      (recommend_top ascii_lower (@vision_table float _)
                     "image code reasoning" (Some "unlimited")) =
    [(5%float, "deepseek-reasoner", false); (4%float, "pixtral-12b", true)] /\
  map (fun entry => (Qred (fst entry), id (snd entry), vision (snd entry)))
      (recommend_top ascii_lower (@vision_table Q _)
                     "image code reasoning" (Some "unlimited")) =
    [(5%Q, "deepseek-reasoner", false); (4%Q, "pixtral-12b", true)].
Proof. repeat split; vm_compute; reflexivity. Qed.

Lemma coding_signal_adds_witness :
  (str_in "coding" (ascii_lower "Coding agent")
   || str_in "code" (ascii_lower "Coding agent"))%bool = true /\
  coding_signal (ascii_lower "Coding agent") (@gpt_5 float _) 0%float = 4%float.
Proof.
  split; [reflexivity|].
  destruct (coding_signal_adds ascii_lower openai_table "Coding agent"
              "moderate" (@gpt_5 float _) 0%float eq_refl) as [adds _].
  rewrite adds. reflexivity.
Defined.

(** In binary64, on the task "Image analysis" with the budget "cheap", the
    five current records of [mixed_table] score 1, 6.3, 6.3, 7 and -13; none
    of these is NaN. *)
Lemma mixed_scores_ordered :
  ordered_on PrimFloat.ltb
    (current_scores (@mixed_table float _) (ascii_lower "Image analysis")
                    (normalized_budget ascii_lower (Some "cheap"))).
Proof. apply float_ordered_on. repeat constructor. Qed.

(** C5 at a concrete input: the entries are Pixtral, GPT-5 and Claude Haiku,
    in this order; Claude Opus, at 1, is left out. *)
Lemma recommend_top_current_witness :
  ordered_on PrimFloat.ltb
    (current_scores (@mixed_table float _) (ascii_lower "Image analysis")
                    (normalized_budget ascii_lower (Some "cheap"))) /\
  map (fun entry => (fst entry, id (snd entry)))
      (recommend_top ascii_lower (@mixed_table float _) "Image analysis"
                     (Some "cheap")) =
    [(7%float, "pixtral-12b"); (0x1.9333333333333p+2%float, "gpt-5");
     (0x1.9333333333333p+2%float, "claude-haiku-4-5")] /\
  StronglySorted (fun x y => PrimFloat.ltb (fst x) (fst y) = false)
    (recommend_top ascii_lower (@mixed_table float _) "Image analysis"
                   (Some "cheap")) /\
  Forall (fun entry =>
            PrimFloat.ltb (fst entry)
              (score_model (ascii_lower "Image analysis") "cheap"
                           (@claude_opus float _)) = false)
         (recommend_top ascii_lower (@mixed_table float _) "Image analysis"
                        (Some "cheap")).
Proof.
  split; [exact mixed_scores_ordered|]. split; [reflexivity|].
  destruct (recommend_top_current ascii_lower (@mixed_table float _)
              "Image analysis" (Some "cheap"))
    as (_ & _ & _ & ranked_).
  destruct (ranked_ mixed_scores_ordered) as [descends best].
  split; [exact descends|].
  destruct (best claude_opus (or_introl eq_refl) eq_refl)
    as [entry|[_ outscored]]; [|exact outscored].
  vm_compute in entry. repeat destruct entry as [entry|entry];
    try discriminate entry. destruct entry.
Defined.

(** A table with a legacy record between two current ones. *)
Lemma legacy_between_count :
  (count_occ string_dec
     (map status
        (values [("pixtral-12b", @pixtral float _); ("gpt-4o", gpt_4o);
                 ("deepseek-reasoner", reasoner)])) "current" <= 3)%nat.
Proof. vm_compute. lia. Qed.

(** C10 at a concrete input: of the three records two are current; on the
    task "vision" the reasoner scores -10 + 2 = -8, and is the second of the
    two entries. *)
Lemma recommend_top_length_witness :
  let MODELS :=
    [("pixtral-12b", @pixtral float _); ("gpt-4o", gpt_4o);
     ("deepseek-reasoner", reasoner)] in
  (count_occ string_dec (map status (values MODELS)) "current" <= 3)%nat /\
  map (fun entry => (fst entry, id (snd entry)))
      (recommend_top ascii_lower MODELS "vision" None) =
    [(4%float, "pixtral-12b"); ((-8)%float, "deepseek-reasoner")] /\
  In (score_model (ascii_lower "vision") "moderate" (@reasoner float _),
      reasoner)
     (recommend_top ascii_lower MODELS "vision" None).
Proof.
  cbv zeta. split; [exact legacy_between_count|]. split; [reflexivity|].
  destruct (recommend_top_length ascii_lower
              [("pixtral-12b", @pixtral float _); ("gpt-4o", gpt_4o);
               ("deepseek-reasoner", reasoner)] "vision" None)
    as (_ & _ & all).
  destruct (all legacy_between_count) as [_ every].
  apply (every reasoner); [|reflexivity].
  right. right. now left.
Defined.

Lemma compare_models_needs_two_witness :
  (List.length ["gpt-5"] < 2)%nat /\
  compare_models ascii_lower (@openai_table float _)
                 (fun models => join " | " (map display_name models))
                 ["gpt-5"] = at_least_2_message.
Proof.
  assert (few : (List.length ["gpt-5"] < 2)%nat) by (simpl; lia).
  split; [exact few|].
  apply (compare_models_needs_two ascii_lower openai_table _ ["gpt-5"] few).
Defined.

(** Strings that are no identifier are ordinary queries that match no key. *)
Example injection_payload_not_found :
  get_model_info ascii_lower (@openai_table float _) "gpt-5'; DROP TABLE" =
    "Model `gpt-5'; DROP TABLE` not found in registry." ++ nl ++ nl ++
    "Known models: gpt-4o, gpt-5, gpt-5-mini" /\
  check_model_status ascii_lower (@openai_table float _)
                     "<script>alert(1)</script>" =
    "`<script>alert(1)</script>` is **not found** in the registry. " ++
    "It may be misspelled, very old, or not yet tracked." /\
  get_model_info ascii_lower (@openai_table float _) "模型" =
    "Model `模型` not found in registry." ++ nl ++ nl ++
    "Known models: gpt-4o, gpt-5, gpt-5-mini".
Proof. repeat split; vm_compute; reflexivity. Qed.

(** A legacy model is reported with the current model of its provider whose
    price is closest. *)
Example legacy_model_replacement :
  check_model_status ascii_lower (@openai_table float _) "gpt-4o" =
    "**GPT-4o** (`gpt-4o`): status = **legacy**" ++ nl ++ nl ++
    "Recommended replacement: **GPT-5** (`gpt-5`)" ++ nl ++ nl ++
    "Note: Superseded by GPT-5".
Proof. vm_compute. reflexivity. Qed.

(** Filters that keep nothing give the fixed sentence. *)
Example list_models_no_match :
  list_models ascii_lower (@openai_table float _)
              (Some "Meta") None (Some "reasoning") =
    "No models found matching the criteria." /\
  list_models ascii_lower (@openai_table float _)
              (Some "OPENAI") (Some "Legacy") (Some "VISION") =
    table_header ++ nl ++ table_rule ++ nl ++
    "| gpt-4o | GPT-4o | OpenAI | legacy | 128,000 | $2.00 | $10.00 |".
Proof. split; vm_compute; reflexivity. Qed.

(** * Further properties of the tools *)

(** ** Substrings of a rendered text *)

Lemma prefix_app (x a b : string) :
  String.prefix x a = true -> String.prefix x (a ++ b) = true.
Proof.
  revert a. induction x as [|c x IH]; intros a;
    [intros _; now destruct (a ++ b)|].
  destruct a as [|d a]; simpl; [discriminate|].
  destruct (ascii_dec c d); [apply IH | discriminate].
Qed.

Lemma str_in_cons (x : string) (c : ascii) (s : string) :
  str_in x s = true -> str_in x (String c s) = true.
Proof. intros inside. cbn [str_in]. rewrite inside. apply orb_true_r. Qed.

Lemma str_in_app_r (x a b : string) :
  str_in x b = true -> str_in x (a ++ b) = true.
Proof.
  intros inside. induction a as [|c a IH]; simpl append; [exact inside|].
  now apply str_in_cons.
Qed.

Lemma str_in_app_l (x a b : string) :
  str_in x a = true -> str_in x (a ++ b) = true.
Proof.
  induction a as [|c a IH].
  - destruct x; [intros _; apply str_in_empty | discriminate].
  - cbn [str_in]. intros inside. apply orb_true_iff in inside.
    destruct inside as [here|later].
    + change (String c a ++ b) with (String c (a ++ b)). cbn [str_in].
      apply orb_true_iff. left.
      exact (prefix_app x (String c a) b here).
    + change (String c a ++ b) with (String c (a ++ b)).
      apply str_in_cons. now apply IH.
Qed.

Lemma str_in_head (x b : string) : str_in x (x ++ b) = true.
Proof. apply str_in_app_l, str_in_refl. Qed.

Lemma str_in_join (sep x : string) (parts : list string) :
  In x parts -> str_in x (join sep parts) = true.
Proof.
  unfold join. induction parts as [|p parts IH]; [intros []|].
  intros [->|later].
  - destruct parts; [apply str_in_refl | apply str_in_head].
  - destruct parts as [|p' parts]; [destruct later|].
    change (str_in x (p ++ sep ++ String.concat sep (p' :: parts)) = true).
    now apply str_in_app_r, str_in_app_r, IH.
Qed.

Lemma append_assoc (a b c : string) : (a ++ b) ++ c = a ++ b ++ c.
Proof. induction a as [|x a IH]; simpl; [reflexivity | now rewrite IH]. Qed.

Lemma str_in_join_part (sep x p : string) (parts : list string) :
  In p parts -> str_in x p = true -> str_in x (join sep parts) = true.
Proof.
  unfold join. intros listed inside.
  induction parts as [|q parts IH]; [destruct listed|].
  destruct listed as [->|later].
  - destruct parts; [exact inside | now apply str_in_app_l].
  - destruct parts as [|q' parts]; [destruct later|].
    change (str_in x (q ++ sep ++ String.concat sep (q' :: parts)) = true).
    now apply str_in_app_r, str_in_app_r, IH.
Qed.

(** A part of a joined text stands in it, between two texts. *)
Lemma join_nth (sep : string) (parts : list string) (i : nat) (x : string) :
  nth_error parts i = Some x ->
  exists a b, join sep parts = a ++ x ++ b.
Proof.
  unfold join. revert i. induction parts as [|p parts IH]; intros [|i] at_i;
    try discriminate.
  - injection at_i as ->. destruct parts as [|q parts].
    + exists "", "". simpl. clear. induction x; simpl; congruence.
    + exists "", (sep ++ String.concat sep (q :: parts)). reflexivity.
  - destruct parts as [|q parts]; [destruct i; discriminate|].
    destruct (IH i at_i) as (a & b & split).
    exists (p ++ sep ++ a), b.
    change (p ++ sep ++ String.concat sep (q :: parts) =
            (p ++ sep ++ a) ++ x ++ b).
    rewrite split. now rewrite !append_assoc.
Qed.

(** Two parts of a joined text stand in it in the order of the list. *)
Lemma join_nth_order (sep : string) (parts : list string) (i j : nat)
  (x y : string) :
  nth_error parts i = Some x -> nth_error parts j = Some y -> (i < j)%nat ->
  exists a b c, join sep parts = a ++ x ++ b ++ y ++ c.
Proof.
  revert i j. induction parts as [|p parts IH]; intros i j at_i at_j order;
    [destruct i; discriminate|].
  destruct j as [|j]; [lia|].
  destruct parts as [|q parts]; [destruct j; discriminate|].
  unfold join in *.
  change (String.concat sep (p :: q :: parts))
    with (p ++ sep ++ String.concat sep (q :: parts)).
  destruct i as [|i].
  - injection at_i as ->.
    destruct (join_nth sep (q :: parts) j y at_j) as (a & b & split).
    unfold join in split. rewrite split.
    exists "", (sep ++ a), b. simpl. now rewrite !append_assoc.
  - destruct (IH i j at_i at_j ltac:(lia)) as (a & b & c & split).
    rewrite split. exists (p ++ sep ++ a), b, c.
    now rewrite !append_assoc.
Qed.

(** Search of a field in a text built with [++] from literals and fields. *)
Ltac find_field :=
  first
    [ apply str_in_refl
    | apply str_in_head
    | apply str_in_cons; find_field
    | apply str_in_app_l; find_field
    | apply str_in_app_r; find_field ].

(** ** More on the resolver *)

Section ResolverLookups.

Context {num : Type} `{Arith num}.
Variable lower : string -> string.
Variable MODELS : table num.

Lemma dict_get_first (t : table num) (key : string) (m : ModelRecord num) :
  NoDup (keys t) -> In (key, m) t -> dict_get t key = Some m.
Proof.
  induction t as [|[k m'] t IH]; simpl; [intros _ []|].
  intros distinct [here|later].
  - injection here as -> ->. now rewrite String.eqb_refl.
  - apply NoDup_cons_iff in distinct. destruct distinct as [fresh distinct].
    destruct (String.eqb_spec k key) as [->|_]; [|now apply IH].
    elim fresh. now apply (in_map fst) in later.
Qed.

Lemma dict_get_missing (t : table num) (k : string) :
  dict_get t k = None -> ~ In k (keys t).
Proof.
  induction t as [|[key m] t IH]; simpl; [tauto|].
  destruct (String.eqb_spec key k) as [_|ne]; [discriminate|].
  intros missing [e|later]; [now apply ne | now apply IH].
Qed.

(** X1.  A key of the table resolves to its own record, whatever stands
    before it: the exact lookup comes first.  (The keys of a dict are
    distinct.) *)
Theorem exact_key_resolves (key : string) (m : ModelRecord num) :
  NoDup (keys MODELS) ->
  In (key, m) MODELS ->
  resolve lower MODELS key = Some m /\
  get_model_info lower MODELS key = _model_detail m /\
  check_model_status lower MODELS key = status_report MODELS m.
Proof.
  intros distinct present.
  assert (found : resolve lower MODELS key = Some m).
  { unfold resolve. now rewrite (dict_get_first MODELS key m distinct present). }
  unfold get_model_info, check_model_status. now rewrite found.
Qed.

(** X2.  A query is not found exactly when no key of the table contains it up
    to case. *)
Theorem resolve_none_iff (model_id : string) :
  resolve lower MODELS model_id = None <->
  Forall (fun key => str_in (lower model_id) (lower key) = false)
         (keys MODELS).
Proof.
  unfold resolve. split.
  - destruct (dict_get MODELS model_id) eqn:exact; [discriminate|].
    destruct (find _ MODELS) as [item|] eqn:pass; [discriminate|]. intros _.
    apply Forall_forall. intros key listed.
    apply in_map_iff in listed. destruct listed as ([k m] & <- & listed).
    pose proof (find_none _ _ pass _ listed) as miss. simpl in miss.
    now rewrite key_matches_substring in miss.
  - intros none. rewrite Forall_forall in none.
    destruct (dict_get MODELS model_id) as [m|] eqn:exact.
    + apply dict_get_In, (in_map fst) in exact.
      apply none in exact. simpl in exact.
      now rewrite str_in_refl in exact.
    + destruct (find _ MODELS) as [[k m]|] eqn:pass; [|reflexivity].
      apply find_some in pass. destruct pass as [listed hit].
      rewrite key_matches_substring in hit. simpl in hit.
      apply (in_map fst) in listed. apply none in listed. simpl in listed.
      congruence.
Qed.

(** X3.  The not-found answer of [get_model_info] names the query and every
    key of the table. *)
Theorem not_found_names_every_key (model_id : string) :
  resolve lower MODELS model_id = None ->
  str_in model_id (get_model_info lower MODELS model_id) = true /\
  Forall (fun key => str_in key (get_model_info lower MODELS model_id) = true)
         (keys MODELS).
Proof.
  intros unresolved. unfold get_model_info. rewrite unresolved.
  unfold info_not_found. split.
  - cbn [append]. find_field.
  - apply Forall_forall. intros key listed.
    do 6 apply str_in_app_r.
    apply str_in_join, sorted_In, listed.
Qed.

(** X4.  The detail sheet and the status report of a record name its display
    name and its id; the sheet also shows its provider and its status, and a
    row of the table its id. *)
Theorem renderings_name_the_record (m : ModelRecord num) :
  str_in (display_name m) (_model_detail m) = true /\
  str_in (id m) (_model_detail m) = true /\
  str_in (provider m) (_model_detail m) = true /\
  str_in (status m) (_model_detail m) = true /\
  str_in (display_name m) (status_report MODELS m) = true /\
  str_in (id m) (status_report MODELS m) = true /\
  str_in (status m) (status_report MODELS m) = true /\
  str_in (id m) (table_row m) = true.
Proof.
  assert (report : forall field,
    str_in field ("**" ++ display_name m ++ "** (`" ++ id m ++
                  "`): status = **" ++ status m ++ "**") = true ->
    str_in field (status_report MODELS m) = true).
  { intros field inside. unfold status_report. cbv zeta.
    destruct (_ || _)%bool; [destruct (replacements MODELS m)|];
      destruct (notes m =? "")%string;
      repeat (try exact inside; apply str_in_app_l); exact inside. }
  repeat split;
    try (apply report); unfold _model_detail, table_row, join;
    cbn [append String.concat]; find_field.
Qed.

End ResolverLookups.

(** ** More on the filters *)

Section FilterValues.

Context {num : Type} `{Arith num}.
Variable lower : string -> string.
Variable MODELS : table num.

Lemma format_table_populated (models : list (ModelRecord num)) :
  models <> [] -> _format_table models <> no_models_message.
Proof.
  destruct models as [|m models]; [tauto|]. intros _.
  unfold _format_table, join. cbn [map String.concat]. discriminate.
Qed.

(** X5.  The three filters of [list_models] act as one conjunction: the rows
    are the records of the table that pass the provider test, the status test
    and the capability test, in table order. *)
Theorem list_models_conjunction (provider_ status_ capability : option string) :
  let passes m :=
    (provider_keeps lower provider_ m && status_keeps lower status_ m
     && capability_keeps lower capability m)%bool in
  list_models lower MODELS provider_ status_ capability =
    _format_table (filter passes (values MODELS)) /\
  (forall m, In m (filter passes (values MODELS)) <->
             In m (values MODELS) /\
             provider_keeps lower provider_ m = true /\
             status_keeps lower status_ m = true /\
             capability_keeps lower capability m = true).
Proof.
  intros passes. split; [apply list_models_filter|].
  intros m. rewrite filter_In. unfold passes.
  rewrite !andb_true_iff. tauto.
Qed.

(** X6.  A capability that is none of "vision", "reasoning" and "thinking"
    up to case filters nothing. *)
Theorem unknown_capability_is_ignored
  (provider_ status_ : option string) (capability : string) :
  (lower capability =? "vision")%string = false ->
  (lower capability =? "reasoning")%string = false ->
  (lower capability =? "thinking")%string = false ->
  list_models lower MODELS provider_ status_ (Some capability) =
  list_models lower MODELS provider_ status_ None.
Proof.
  intros not_vision not_reasoning not_thinking.
  rewrite !list_models_filter. f_equal. apply filter_ext. intros m.
  unfold capability_keeps, if_given. cbv zeta.
  rewrite not_vision, not_reasoning, not_thinking.
  now destruct (capability =? "")%string.
Qed.

(** X7.  "thinking" and "reasoning" name the same filter, the records whose
    reasoning flag is set. *)
Theorem thinking_is_reasoning
  (provider_ status_ : option string) (c1 c2 : string) :
  c1 <> "" -> c2 <> "" ->
  lower c1 = "reasoning" -> lower c2 = "thinking" ->
  list_models lower MODELS provider_ status_ (Some c1) =
  list_models lower MODELS provider_ status_ (Some c2) /\
  list_models lower MODELS None None (Some c2) =
  _format_table (filter reasoning (values MODELS)).
Proof.
  intros given1 given2 is_reasoning is_thinking.
  apply String.eqb_neq in given1, given2.
  rewrite !list_models_filter. split; f_equal; apply filter_ext; intros m;
    unfold provider_keeps, status_keeps, capability_keeps, if_given;
    cbv zeta; rewrite ?given1, ?given2, ?is_reasoning, ?is_thinking;
    reflexivity.
Qed.

(** X8.  A filter argument counts up to case only: two providers, two
    statuses or two capabilities with the same lowercase form select the same
    rows. *)
Theorem filters_ignore_case (a b : string) :
  a <> "" -> b <> "" -> lower a = lower b ->
  (forall status_ capability,
     list_models lower MODELS (Some a) status_ capability =
     list_models lower MODELS (Some b) status_ capability) /\
  (forall provider_ capability,
     list_models lower MODELS provider_ (Some a) capability =
     list_models lower MODELS provider_ (Some b) capability) /\
  (forall provider_ status_,
     list_models lower MODELS provider_ status_ (Some a) =
     list_models lower MODELS provider_ status_ (Some b)).
Proof.
  intros given_a given_b same.
  apply String.eqb_neq in given_a, given_b.
  repeat split; intros; rewrite !list_models_filter; f_equal;
    apply filter_ext; intros m;
    unfold provider_keeps, status_keeps, capability_keeps, if_given;
    cbv zeta; now rewrite given_a, given_b, same.
Qed.

(** X9.  [list_models] answers with the fixed sentence exactly when no record
    of the table passes the filters; a table with rows is never that
    sentence. *)
Theorem no_models_sentence_iff (provider_ status_ capability : option string) :
  list_models lower MODELS provider_ status_ capability = no_models_message <->
  Forall (fun m => (provider_keeps lower provider_ m
                    && status_keeps lower status_ m
                    && capability_keeps lower capability m)%bool = false)
         (values MODELS).
Proof.
  rewrite list_models_filter.
  set (passes := fun m => (_ && _ && _)%bool).
  split.
  - intros sentence. apply Forall_forall. intros m listed.
    destruct (passes m) eqn:kept; [|exact kept].
    elim (format_table_populated (filter passes (values MODELS)));
      [|exact sentence].
    intros empty. assert (i : In m (filter passes (values MODELS)))
      by now apply filter_In.
    rewrite empty in i. destruct i.
  - intros none. rewrite Forall_forall in none.
    assert (empty : filter passes (values MODELS) = []).
    { destruct (filter passes (values MODELS)) as [|m rest] eqn:kept;
        [reflexivity|].
      assert (i : In m (filter passes (values MODELS)))
        by (rewrite kept; now left).
      apply filter_In in i. destruct i as [listed pass].
      pose proof (none m listed) as miss.
      change (passes m = false) in miss. congruence. }
    now rewrite empty.
Qed.

End FilterValues.

(** ** More on the stable sort *)

Section SortingOrder.

Context {A : Type} (lt : A -> A -> bool).

(** Elements among which none is smaller than another are not moved past
    each other. *)
Lemma insert_sorted_filter (P : A -> bool) (x : A) (l : list A) :
  (P x = true -> forall y, In y l -> P y = true -> lt y x = false) ->
  filter P (insert_sorted lt x l) = filter P (x :: l).
Proof.
  induction l as [|y l IH]; intros tied; [reflexivity|].
  cbn [insert_sorted]. destruct (lt y x) eqn:yx; [|reflexivity].
  cbn [filter]. rewrite IH.
  - cbn [filter]. destruct (P x) eqn:px, (P y) eqn:py; try reflexivity.
    rewrite (tied eq_refl y (or_introl eq_refl) py) in yx. discriminate.
  - intros px z later pz. apply (tied px); [now right | exact pz].
Qed.

Lemma sorted_filter_stable (P : A -> bool) (l : list A) :
  (forall x y, In x l -> In y l -> P x = true -> P y = true -> lt x y = false) ->
  filter P (sorted lt l) = filter P l.
Proof.
  induction l as [|x l IH]; intros tied; [reflexivity|].
  cbn [sorted]. rewrite insert_sorted_filter.
  - cbn [filter]. rewrite IH; [reflexivity|].
    intros a b ia ib. apply tied; now right.
  - intros px y listed py. apply sorted_In in listed.
    apply tied; [now right | now left | exact py | exact px].
Qed.

End SortingOrder.

Lemma filter_map_snd {A B : Type} (P : B -> bool) (l : list (A * B)) :
  filter P (map snd l) = map snd (filter (fun e => P (snd e)) l).
Proof.
  induction l as [|e l IH]; simpl; [reflexivity|].
  destruct (P (snd e)); simpl; now rewrite IH.
Qed.

Lemma enumerate_nth {A : Type} (start i : nat) (l : list A) :
  nth_error (enumerate start l) i =
  option_map (fun x => ((start + i)%nat, x)) (nth_error l i).
Proof.
  revert start i. induction l as [|x l IH]; intros start [|i]; simpl;
    try reflexivity.
  - now rewrite Nat.add_0_r.
  - rewrite IH. now rewrite Nat.add_succ_r.
Qed.

(** ** More on the ranking *)

Section Ranking.

Context {num : Type} `{Arith num}.
Variable lower : string -> string.
Variable MODELS : table num.

(** X10.  The sort of the ranking is stable.  When [<] is a strict weak order
    on the scores of the current records (no score is NaN), the ranking
    descends, and current records among which none scores less than another
    stand in it in table order. *)
Theorem ties_keep_table_order (task_lower budget : string)
  (same : ModelRecord num -> bool) :
  ordered_on ltb (current_scores MODELS task_lower budget) ->
  (forall m1 m2,
     In m1 (values MODELS) -> status m1 = "current" ->
     In m2 (values MODELS) -> status m2 = "current" ->
     same m1 = true -> same m2 = true ->
     ltb (score_model task_lower budget m1)
         (score_model task_lower budget m2) = false) ->
  StronglySorted (fun x y => ltb (fst x) (fst y) = false)
                 (ranked MODELS task_lower budget) /\
  filter same (map snd (ranked MODELS task_lower budget)) =
  filter same
    (filter (fun m => (status m =? "current")%string) (values MODELS)).
Proof.
  intros order tied. split; [now apply ranked_descending|].
  rewrite filter_map_snd. unfold ranked, sort_by_key_reverse.
  rewrite sorted_filter_stable.
  - rewrite <- filter_map_snd. unfold scored. rewrite map_map. simpl.
    now rewrite map_id.
  - intros x y ix iy sx sy.
    pose proof (scored_entries MODELS task_lower budget) as entries.
    rewrite Forall_forall in entries.
    destruct (entries x ix) as [score_x current_x].
    destruct (entries y iy) as [score_y current_y].
    apply current_models_spec in current_x, current_y.
    destruct current_x as [listed_x is_current_x].
    destruct current_y as [listed_y is_current_y].
    rewrite score_x, score_y. now apply tied.
Qed.

(** X11.  When [<] is a strict weak order on the scores of the current
    records (no score is NaN), the first entry of [recommend_model] is a
    current record of the table with its score, and no current record of the
    table scores more. *)
Theorem first_recommendation_is_best (task : string) (budget : option string)
  (first : num * ModelRecord num) (rest : list (num * ModelRecord num)) :
  ordered_on ltb (current_scores MODELS (lower task)
                                 (normalized_budget lower budget)) ->
  recommend_top lower MODELS task budget = first :: rest ->
  In (snd first) (values MODELS) /\ status (snd first) = "current" /\
  fst first = score_model (lower task) (normalized_budget lower budget)
                          (snd first) /\
  forall m, In m (values MODELS) -> status m = "current" ->
    ltb (fst first)
        (score_model (lower task) (normalized_budget lower budget) m) = false.
Proof.
  intros order shape.
  set (task_lower := lower task) in *.
  set (b := normalized_budget lower budget) in *.
  pose proof (ranked_descending MODELS task_lower b order) as ordered.
  unfold descending in ordered.
  unfold recommend_top in shape. fold task_lower b in shape.
  pose proof (ranked_entries MODELS task_lower b) as entries.
  destruct (ranked MODELS task_lower b) as [|head tail] eqn:ranking;
    [discriminate|].
  injection shape as -> _.
  apply Forall_inv in entries. destruct entries as [score current].
  apply current_models_spec in current. destruct current as [listed current].
  split; [exact listed|]. split; [exact current|]. split; [exact score|].
  intros m listed_m current_m.
  pose proof (scored_In MODELS task_lower b m listed_m current_m) as entry.
  rewrite ranking in entry.
  apply StronglySorted_inv in ordered. destruct ordered as [_ above].
  destruct entry as [e|later].
  - rewrite e. simpl.
    destruct (ltb (score_model task_lower b m) (score_model task_lower b m))
      eqn:self; [|reflexivity].
    rewrite <- self. apply (proj1 order); [| |exact self];
      apply in_map; now apply current_models_spec.
  - rewrite Forall_forall in above. exact (above _ later).
Qed.

(** X12.  A budget that is neither "cheap" nor "unlimited" once lowercased
    changes no score: all such budgets, the absent one and the empty one
    included, give the same entries. *)
Theorem other_budgets_rank_alike (task : string) (budget1 budget2 : option string) :
  (normalized_budget lower budget1 =? "cheap")%string = false ->
  (normalized_budget lower budget1 =? "unlimited")%string = false ->
  (normalized_budget lower budget2 =? "cheap")%string = false ->
  (normalized_budget lower budget2 =? "unlimited")%string = false ->
  recommend_top lower MODELS task budget1 =
  recommend_top lower MODELS task budget2 /\
  recommend_entries lower MODELS task budget1 =
  recommend_entries lower MODELS task budget2 /\
  recommend_model lower MODELS task None =
  recommend_model lower MODELS task (Some "").
Proof.
  intros c1 u1 c2 u2.
  assert (top : recommend_top lower MODELS task budget1 =
                recommend_top lower MODELS task budget2).
  { unfold recommend_top, ranked, scored. do 2 f_equal.
    apply map_ext. intros m. f_equal.
    unfold score_model, budget_modifier. cbv zeta.
    now rewrite c1, u1, c2, u2. }
  split; [exact top|]. split; [|reflexivity].
  unfold recommend_entries. now rewrite top.
Qed.

Lemma recommend_entries_nth (task : string) (budget : option string) (i : nat) :
  nth_error (recommend_entries lower MODELS task budget) i =
  option_map (recommend_entry (S i))
             (nth_error (recommend_top lower MODELS task budget) i).
Proof.
  unfold recommend_entries. rewrite nth_error_map, enumerate_nth.
  now destruct (nth_error (recommend_top lower MODELS task budget) i).
Qed.

Lemma recommend_model_nth (task : string) (budget : option string) (i : nat)
  (entry : num * ModelRecord num) :
  nth_error (recommend_top lower MODELS task budget) i = Some entry ->
  nth_error (recommend_header lower task budget
             ++ recommend_entries lower MODELS task budget)%list (3 + i) =
  Some (recommend_entry (S i) entry).
Proof.
  intros at_i.
  rewrite nth_error_app2 by (simpl; lia).
  replace (3 + i - List.length (recommend_header lower task budget))%nat
    with i by (simpl; lia).
  now rewrite recommend_entries_nth, at_i.
Qed.

(** X13.  The text of [recommend_model] shows the task as it was given and
    the budget as it was read; for each entry it holds the number of the
    entry, counted from 1, followed by its display name and its id; and the
    blocks of two entries stand in the text in the order of the entries. *)
Theorem blocks_follow_ranking (task : string) (budget : option string) :
  let text := recommend_model lower MODELS task budget in
  str_in ("## Recommendations for: *" ++ task ++ "*") text = true /\
  str_in ("**Budget:** " ++ normalized_budget lower budget) text = true /\
  (forall i entry,
     nth_error (recommend_top lower MODELS task budget) i = Some entry ->
     str_in (digits_of_Z (Z.of_nat (S i)) ++ ". **" ++
             display_name (snd entry) ++ "** (`" ++ id (snd entry) ++ "`)")
            text = true) /\
  (forall i j entry_i entry_j,
     nth_error (recommend_top lower MODELS task budget) i = Some entry_i ->
     nth_error (recommend_top lower MODELS task budget) j = Some entry_j ->
     (i < j)%nat ->
     exists a b c,
       text = a ++ recommend_entry (S i) entry_i ++ b ++
              recommend_entry (S j) entry_j ++ c).
Proof.
  intros text. unfold text, recommend_model. cbv zeta.
  split; [|split; [|split]].
  - apply str_in_join. apply in_or_app. left. now left.
  - apply str_in_join. apply in_or_app. left. right. now left.
  - intros i entry at_i.
    apply (str_in_join_part _ _ (recommend_entry (S i) entry)).
    + apply (nth_error_In _ (3 + i)). now apply recommend_model_nth.
    + unfold recommend_entry. cbv zeta.
      match goal with
      | |- str_in ?n (?d ++ ?a ++ ?b ++ ?c ++ ?e ++ ?f ++ ?rest) = true =>
          replace (d ++ a ++ b ++ c ++ e ++ f ++ rest) with (n ++ rest)
            by now rewrite !append_assoc
      end.
      apply str_in_head.
  - intros i j entry_i entry_j at_i at_j order.
    apply (join_nth_order nl _ (3 + i) (3 + j)).
    + now apply recommend_model_nth.
    + now apply recommend_model_nth.
    + lia.
Qed.

End Ranking.

(** ** The replacement of [check_model_status] *)

Section Replacement.

Context {num : Type} `{Arith num}.
Variable MODELS : table num.

Lemma replacements_perm (model : ModelRecord num) :
  Permutation (replacements MODELS model)
              (filter (is_peer model) (values MODELS)).
Proof. apply sorted_perm. Qed.

Lemma is_peer_spec (model r : ModelRecord num) :
  In r (filter (is_peer model) (values MODELS)) <->
  In r (values MODELS) /\ provider r = provider model /\ status r = "current".
Proof.
  rewrite filter_In. unfold is_peer.
  now rewrite andb_true_iff, !String.eqb_eq.
Qed.

Lemma replacements_peers (model : ModelRecord num) :
  Forall (fun r => In r (values MODELS) /\
                   provider r = provider model /\ status r = "current")
         (replacements MODELS model).
Proof.
  apply Forall_forall. intros r candidate.
  apply is_peer_spec. now apply (Permutation_in _ (replacements_perm model)).
Qed.

(** X14.  The candidates for the replacement of a record are the current
    records of its provider in the table, each one once for each time it is
    in the table; there is none exactly when the provider has no current
    record. *)
Theorem replacements_are_current_peers (model : ModelRecord num) :
  Permutation (replacements MODELS model)
              (filter (is_peer model) (values MODELS)) /\
  Forall (fun r => In r (values MODELS) /\
                   provider r = provider model /\ status r = "current")
         (replacements MODELS model) /\
  (replacements MODELS model = [] <->
   Forall (fun m => provider m = provider model -> status m <> "current")
          (values MODELS)).
Proof.
  pose proof (replacements_perm model) as perm.
  split; [exact perm|]. split; [apply replacements_peers|].
  rewrite Forall_forall. split.
  - intros none m listed same current.
    assert (i : In m (replacements MODELS model)).
    { apply (Permutation_in _ (Permutation_sym perm)), is_peer_spec. auto. }
    rewrite none in i. destruct i.
  - intros none.
    destruct (replacements MODELS model) as [|r rest] eqn:some;
      [reflexivity|].
    assert (i : In r (filter (is_peer model) (values MODELS))).
    { apply (Permutation_in _ perm). now left. }
    apply is_peer_spec in i. destruct i as (listed & same & current).
    now elim (none r listed same).
Qed.

(** X15.  The report of a legacy or deprecated record names the first
    candidate, a current record of the same provider, as its replacement;
    the report of a record with any other status does not depend on the
    table: it suggests nothing. *)
Theorem report_names_replacement (model : ModelRecord num) :
  (forall r rest,
     (status model = "legacy" \/ status model = "deprecated") ->
     replacements MODELS model = r :: rest ->
     str_in ("Recommended replacement: **" ++ display_name r ++ "** (`" ++
             id r ++ "`)") (status_report MODELS model) = true /\
     provider r = provider model /\ status r = "current" /\ r <> model) /\
  (status model <> "legacy" -> status model <> "deprecated" ->
   forall other : table num,
     status_report MODELS model = status_report other model).
Proof.
  split.
  - intros r rest old first.
    pose proof (replacements_peers model) as peers.
    rewrite first in peers. apply Forall_inv in peers.
    destruct peers as (_ & same & current).
    split; [|split; [exact same|split; [exact current|]]].
    + unfold status_report. cbv zeta. rewrite first.
      assert (old_b : ((status model =? "legacy")
                       || (status model =? "deprecated"))%string = true).
      { apply orb_true_iff. rewrite !String.eqb_eq. exact old. }
      rewrite old_b.
      destruct (notes model =? "")%string.
      * do 3 apply str_in_app_r. apply str_in_refl.
      * apply str_in_app_l. do 3 apply str_in_app_r. apply str_in_refl.
    + intros ->. destruct old as [old|old]; rewrite old in current;
        discriminate.
  - intros not_legacy not_deprecated other. unfold status_report. cbv zeta.
    apply String.eqb_neq in not_legacy, not_deprecated.
    now rewrite not_legacy, not_deprecated.
Qed.

(** X16.  When [<] is a strict weak order on the differences between the
    input price of a record and those of the current records of its provider
    (no difference is NaN), the first candidate is a current record of the
    provider in the table, and no such record is closer in price. *)
Theorem replacement_is_closest (model r : ModelRecord num)
  (rest : list (ModelRecord num)) :
  ordered_on ltb (map (price_distance model)
                      (filter (is_peer model) (values MODELS))) ->
  replacements MODELS model = r :: rest ->
  In r (values MODELS) /\ provider r = provider model /\
  status r = "current" /\
  forall m, In m (values MODELS) ->
    provider m = provider model -> status m = "current" ->
    ltb (absn (sub (pricing_input m) (pricing_input model)))
        (absn (sub (pricing_input r) (pricing_input model))) = false.
Proof.
  intros order first.
  pose proof (replacements_peers model) as peers.
  rewrite first in peers. apply Forall_inv in peers.
  destruct peers as (listed & same & current).
  split; [exact listed|]. split; [exact same|]. split; [exact current|].
  intros m listed_m same_m current_m.
  change (ltb (price_distance model m) (price_distance model r) = false).
  assert (peer : In m (filter (is_peer model) (values MODELS)))
    by (apply is_peer_spec; auto).
  assert (peer_r : In r (filter (is_peer model) (values MODELS)))
    by (apply is_peer_spec; auto).
  pose proof (sorted_StronglySorted_on
                (fun a b => ltb (price_distance model a) (price_distance model b))
                (filter (is_peer model) (values MODELS))
                (ordered_on_key ltb (price_distance model) _ order)) as ordered.
  change (sorted _ _) with (replacements MODELS model) in ordered.
  assert (candidate : In m (replacements MODELS model)).
  { apply (Permutation_in _ (Permutation_sym (replacements_perm model))).
    exact peer. }
  rewrite first in ordered, candidate.
  apply StronglySorted_inv in ordered. destruct ordered as [_ above].
  destruct candidate as [<-|later].
  - destruct (ltb (price_distance model r) (price_distance model r)) eqn:self;
      [|reflexivity].
    rewrite <- self. apply (proj1 order); [| |exact self];
      now apply in_map.
  - rewrite Forall_forall in above. exact (above _ later).
Qed.

End Replacement.

(** ** The score in exact arithmetic *)

Section ExactScore.

Local Open Scope Q_scope.

Ltac split_cases :=
  repeat match goal with
    | |- context [if ?c then _ else _] => destruct c
    end.

Lemma coding_signal_shift (tl : string) (m : ModelRecord Q) (s : Q) :
  coding_signal tl m s == s + coding_signal tl m 0.
Proof. unfold coding_signal; simpl; split_cases; unfold inject_Z; ring. Qed.

Lemma vision_signal_shift (tl : string) (m : ModelRecord Q) (s : Q) :
  vision_signal tl m s == s + vision_signal tl m 0.
Proof. unfold vision_signal; simpl; split_cases; unfold inject_Z; ring. Qed.

Lemma reasoning_signal_shift (tl : string) (m : ModelRecord Q) (s : Q) :
  reasoning_signal tl m s == s + reasoning_signal tl m 0.
Proof. unfold reasoning_signal; simpl; split_cases; unfold inject_Z; ring. Qed.

Lemma long_context_signal_shift (tl : string) (m : ModelRecord Q) (s : Q) :
  long_context_signal tl m s == s + long_context_signal tl m 0.
Proof.
  unfold long_context_signal; simpl; split_cases; unfold inject_Z; ring.
Qed.

Lemma cheap_signal_shift (tl : string) (m : ModelRecord Q) (s : Q) :
  cheap_signal tl m s == s + cheap_signal tl m 0.
Proof.
  unfold cheap_signal, pymax, gtb; simpl; split_cases; unfold inject_Z; ring.
Qed.

Lemma budget_modifier_shift (b : string) (m : ModelRecord Q) (s : Q) :
  budget_modifier b m s == s + budget_modifier b m 0.
Proof.
  unfold budget_modifier, pymax, pymin, gtb; simpl; split_cases;
    unfold inject_Z; ring.
Qed.

Lemma quality_signal_shift (m : ModelRecord Q) (s : Q) :
  quality_signal m s == s + quality_signal m 0.
Proof.
  unfold quality_signal, pymin; simpl; split_cases; unfold inject_Z; ring.
Qed.

Lemma score_model_sum (task_lower budget : string) (m : ModelRecord Q) :
  score_model task_lower budget m ==
  coding_signal task_lower m 0 + vision_signal task_lower m 0 +
  reasoning_signal task_lower m 0 + long_context_signal task_lower m 0 +
  cheap_signal task_lower m 0 + budget_modifier budget m 0 +
  quality_signal m 0.
Proof.
  unfold score_model. cbv zeta. cbn [of_int Arith_Q].
  change (inject_Z 0) with 0.
  rewrite quality_signal_shift, budget_modifier_shift, cheap_signal_shift,
    long_context_signal_shift, reasoning_signal_shift, vision_signal_shift.
  ring.
Qed.

End ExactScore.

(** ** Vision tasks

    In exact arithmetic the score is the sum of what the signals add, and
    the part of each signal has a range; the scores the program computes
    are compared with the exact ones through a reading [value] of its
    numbers as rationals. *)

Lemma Qltb_spec (a b : Q) : reflect (a < b)%Q (Qltb a b).
Proof.
  unfold Qltb. destruct (a ?= b)%Q eqn:c; constructor.
  - apply Qeq_alt in c. lra.
  - now apply Qlt_alt.
  - apply Qgt_alt in c. lra.
Qed.

Section VisionExact.

Local Open Scope Q_scope.

Ltac by_cases :=
  repeat match goal with
    | |- context [Qltb ?a ?b] => destruct (Qltb_spec a b)
    | |- context [if ?c then _ else _] => destruct c
    end.

Lemma flags_range (tl : string) (m : ModelRecord Q) :
  0 <= coding_signal tl m 0 + reasoning_signal tl m 0
       + long_context_signal tl m 0 <= flag_shift tl.
Proof.
  unfold coding_signal, reasoning_signal, long_context_signal, flag_shift,
    names_coding, names_reasoning, names_long_context; simpl.
  by_cases; unfold inject_Z; lra.
Qed.

Lemma price_part_range (tl b : string) (m : ModelRecord Q) :
  0 <= pricing_input m ->
  price_floor tl b <=
    cheap_signal tl m 0 + budget_modifier b m 0 + quality_signal m 0
  <= price_floor tl b + price_shift tl b.
Proof.
  intros price.
  unfold cheap_signal, budget_modifier, quality_signal, price_floor,
    price_shift, names_cheap, pymax, pymin, gtb; simpl.
  by_cases; unfold inject_Z in *; lra.
Qed.

Lemma vision_part (tl : string) (m : ModelRecord Q) :
  names_vision tl = true ->
  vision_signal tl m 0 == if vision m then 4 else - (10).
Proof.
  unfold vision_signal, names_vision. intros ->. simpl.
  destruct (vision m); unfold inject_Z; ring.
Qed.

Lemma decided_shift (tl b : string) :
  vision_decides tl b = true ->
  flag_shift tl + price_shift tl b <= 25 # 2.
Proof.
  unfold vision_decides, flag_shift, price_shift.
  destruct (names_coding tl), (names_reasoning tl), (names_long_context tl),
    (names_cheap tl), (b =? "cheap")%string, (b =? "unlimited")%string;
    intros decided; vm_compute in decided; try discriminate decided;
    vm_compute; discriminate.
Qed.

(** When the vision signal decides, the exact score of a record with
    vision is above the exact score of a record without it by 3/2 or
    more. *)
Lemma exact_vision_gap (tl b : string) (v n : ModelRecord Q) :
  names_vision tl = true -> vision_decides tl b = true ->
  0 <= pricing_input v -> 0 <= pricing_input n ->
  vision v = true -> vision n = false ->
  score_model tl b n + (3 # 2) <= score_model tl b v.
Proof.
  intros names decided pv pn seen blind.
  rewrite !score_model_sum.
  pose proof (flags_range tl v) as fv. pose proof (flags_range tl n) as fn.
  pose proof (price_part_range tl b v pv) as qv.
  pose proof (price_part_range tl b n pn) as qn.
  pose proof (decided_shift tl b decided) as shift.
  rewrite (vision_part tl v names), (vision_part tl n names), seen, blind.
  lra.
Qed.

End VisionExact.

Section VisionTasks.

Context {num : Type} `{Arith num}.
Variable lower : string -> string.
Variable MODELS : table num.
Variable value : num -> Q.

Lemma exact_order_ordered_on (l : list num) :
  (forall a b, In a l -> In b l -> ltb a b = Qltb (value a) (value b)) ->
  ordered_on ltb l.
Proof.
  intros exact. split.
  - intros a b ia ib. rewrite (exact a b ia ib), (exact b a ib ia).
    destruct (Qltb_spec (value a) (value b)); [|discriminate]. intros _.
    destruct (Qltb_spec (value b) (value a)); [lra | reflexivity].
  - intros a b c ia ib ic.
    rewrite (exact a b ia ib), (exact b c ib ic), (exact a c ia ic).
    destruct (Qltb_spec (value a) (value b)); [discriminate|].
    destruct (Qltb_spec (value b) (value c)); [discriminate|]. intros _ _.
    destruct (Qltb_spec (value a) (value c)); [lra | reflexivity].
Qed.

Lemma vision_first_firstn (n : nat) (l : list (num * ModelRecord num)) :
  vision_first l -> vision_first (firstn n l).
Proof.
  intros first before x between y after split.
  apply (first before x between y (after ++ skipn n l)%list).
  rewrite <- (firstn_skipn n l) at 1. rewrite split.
  now rewrite <- !app_assoc, <- !app_comm_cons, <- !app_assoc.
Qed.

(** C6, as amended.  On a task whose lowercased text contains "vision" or
    "image", with a budget and other keywords for which the vision signal
    decides ([vision_decides]: what the other signals and the budget can add
    to one score and not to another is less than 14), and with input prices
    that are not negative, every current record with vision scores more than
    every current record without it, and in the ranking and in the entries
    of [recommend_model] no record without vision stands before a record
    with vision.  The scores are those of the program, in its arithmetic:
    [value] reads them as rationals, each one within 1/4 of the exact score,
    and [<] compares them as it compares their values. *)
Theorem vision_ranked_first (task : string) (budget : option string) :
  let task_lower := lower task in
  let b := normalized_budget lower budget in
  (str_in "vision" task_lower || str_in "image" task_lower)%bool = true ->
  vision_decides task_lower b = true ->
  (forall m, In m (values MODELS) -> status m = "current" ->
     (0 <= value (pricing_input m))%Q /\
     (Qabs (value (score_model task_lower b m)
            - score_model task_lower b (exact_record value m)) <= 1 # 4)%Q) ->
  (forall m1 m2,
     In m1 (values MODELS) -> status m1 = "current" ->
     In m2 (values MODELS) -> status m2 = "current" ->
     ltb (score_model task_lower b m1) (score_model task_lower b m2) =
     Qltb (value (score_model task_lower b m1))
          (value (score_model task_lower b m2))) ->
  (forall v n,
     In v (values MODELS) -> status v = "current" -> vision v = true ->
     In n (values MODELS) -> status n = "current" -> vision n = false ->
     ltb (score_model task_lower b n) (score_model task_lower b v) = true) /\
  vision_first (ranked MODELS task_lower b) /\
  vision_first (recommend_top lower MODELS task budget).
Proof.
  intros task_lower b names decided accurate exact.
  assert (above : forall v n,
     In v (values MODELS) -> status v = "current" -> vision v = true ->
     In n (values MODELS) -> status n = "current" -> vision n = false ->
     ltb (score_model task_lower b n) (score_model task_lower b v) = true).
  { intros v n lv cv seen ln cn blind.
    rewrite (exact n v ln cn lv cv).
    destruct (accurate v lv cv) as [pv av], (accurate n ln cn) as [pn an].
    pose proof (exact_vision_gap task_lower b (exact_record value v)
                  (exact_record value n) names decided pv pn seen blind) as gap.
    apply Qabs_Qle_condition in av, an.
    destruct (Qltb_spec (value (score_model task_lower b n))
                        (value (score_model task_lower b v)));
      [reflexivity | lra]. }
  assert (first : vision_first (ranked MODELS task_lower b)).
  { assert (ordered : descending (ranked MODELS task_lower b)).
    { apply ranked_descending, exact_order_ordered_on.
      unfold current_scores. intros x y ix iy.
      apply in_map_iff in ix, iy.
      destruct ix as (m1 & <- & c1), iy as (m2 & <- & c2).
      apply current_models_spec in c1, c2.
      destruct c1, c2. now apply exact. }
    pose proof (ranked_entries MODELS task_lower b) as entries.
    intros before x between y after split seen.
    unfold descending in ordered. rewrite split in ordered, entries.
    apply StronglySorted_suffix in ordered.
    apply StronglySorted_inv in ordered. destruct ordered as [_ later].
    rewrite Forall_forall in later.
    assert (xy : ltb (fst x) (fst y) = false).
    { apply later, in_or_app. right. now left. }
    apply Forall_app in entries. destruct entries as [_ entries].
    pose proof (Forall_inv entries) as [sx cx].
    apply Forall_inv_tail, Forall_app in entries.
    destruct entries as [_ entries].
    pose proof (Forall_inv entries) as [sy cy].
    apply current_models_spec in cx, cy. destruct cx as [lx cx], cy as [ly cy].
    destruct (vision (snd x)) eqn:blind; [reflexivity|].
    rewrite sx, sy in xy.
    now rewrite (above (snd y) (snd x) ly cy seen lx cx blind) in xy. }
  split; [exact above|]. split; [exact first|].
  now apply vision_first_firstn.
Qed.

End VisionTasks.

(** X29.  The condition of C6 is exact.  In binary64, for every task that
    names vision and every budget for which the vision signal does not
    decide, [recommend_model] ranks the record without vision of the table
    [rivals] first, before the record with vision. *)
Theorem vision_decides_is_tight (lower : string -> string) (task : string)
  (budget : option string) :
  let task_lower := lower task in
  let b := normalized_budget lower budget in
  names_vision task_lower = true ->
  vision_decides task_lower b = false ->
  map (fun entry => (id (snd entry), vision (snd entry)))
      (recommend_top lower (rivals task_lower b) task budget) =
  [("thinker", false); ("seer", true)].
Proof.
  intros task_lower b. unfold recommend_top. fold task_lower b.
  generalize task_lower b. clear. intros tl b.
  unfold names_vision, vision_decides, flag_shift, price_shift, rivals,
    names_coding, names_reasoning, names_long_context, names_cheap.
  unfold ranked, scored, current_models, sort_by_key_reverse, score_model,
    coding_signal, vision_signal, reasoning_signal, long_context_signal,
    cheap_signal, budget_modifier, quality_signal.
  cbv zeta.
  destruct (str_in "coding" tl || str_in "code" tl)%bool,
    (str_in "vision" tl || str_in "image" tl)%bool,
    (str_in "reason" tl || str_in "think" tl || str_in "math" tl)%bool,
    (str_in "long context" tl || str_in "large document" tl)%bool,
    (str_in "cheap" tl || str_in "batch" tl || str_in "cost" tl)%bool,
    (b =? "cheap")%string, (b =? "unlimited")%string;
    intros names decided; try discriminate names;
    try (vm_compute in decided; discriminate decided);
    vm_compute; reflexivity.
Qed.

(** ** The tools on dicts of the schema

    On a table whose dicts all have the schema no subscription raises, and
    each tool returns the text of the tool on records. *)

Lemma for_all_pure {A B : Type} (f : A -> answer B) (g : A -> B) (l : list A) :
  (forall x, In x l -> f x = Result (g x)) -> for_all f l = Result (map g l).
Proof.
  induction l as [|x l IH]; intros pure; [reflexivity|].
  cbn [for_all map]. rewrite (pure x (or_introl eq_refl)). cbn [and_then].
  rewrite IH; [reflexivity|]. intros y iy. apply pure. now right.
Qed.

Lemma keep_if_pure {A : Type} (f : A -> answer bool) (g : A -> bool)
  (l : list A) :
  (forall x, In x l -> f x = Result (g x)) ->
  keep_if f l = Result (filter g l).
Proof.
  induction l as [|x l IH]; intros pure; [reflexivity|].
  cbn [keep_if filter]. rewrite (pure x (or_introl eq_refl)). cbn [and_then].
  rewrite IH; [reflexivity|]. intros y iy. apply pure. now right.
Qed.

Lemma map_filter_comm {A B : Type} (f : A -> B) (g : B -> bool) (l : list A) :
  map f (filter (fun x => g (f x)) l) = filter g (map f l).
Proof.
  induction l as [|x l IH]; [reflexivity|].
  cbn [filter map]. destruct (g (f x)); cbn [map]; now rewrite IH.
Qed.

Lemma enumerate_map {A B : Type} (f : A -> B) (start : nat) (l : list A) :
  enumerate start (map f l) =
  map (fun ie => (fst ie, f (snd ie))) (enumerate start l).
Proof.
  revert start. induction l as [|x l IH]; intros start; [reflexivity|].
  cbn [map enumerate]. now rewrite IH.
Qed.

Lemma enumerate_snd {A : Type} (start : nat) (l : list A) (ie : nat * A) :
  In ie (enumerate start l) -> In (snd ie) l.
Proof.
  revert start. induction l as [|x l IH]; intros start; [intros []|].
  intros [<-|later]; [now left|]. right. now apply (IH (S start)).
Qed.

Section SortedMap.

Context {A B : Type} (lt : A -> A -> bool) (lt' : B -> B -> bool) (f : A -> B).

Lemma insert_sorted_map (x : A) (l : list A) :
  (forall y, In y l -> lt' (f y) (f x) = lt y x) ->
  insert_sorted lt' (f x) (map f l) = map f (insert_sorted lt x l).
Proof.
  induction l as [|y l IH]; intros same; [reflexivity|].
  cbn [map insert_sorted]. rewrite (same y (or_introl eq_refl)).
  destruct (lt y x); [|reflexivity].
  cbn [map]. rewrite IH; [reflexivity|]. intros z iz. apply same. now right.
Qed.

Lemma sorted_map (l : list A) :
  (forall x y, In x l -> In y l -> lt' (f x) (f y) = lt x y) ->
  sorted lt' (map f l) = map f (sorted lt l).
Proof.
  induction l as [|x l IH]; intros same; [reflexivity|].
  cbn [map sorted]. rewrite IH by (intros a b ia ib; apply same; now right).
  apply insert_sorted_map. intros y iy. apply sorted_In in iy.
  apply same; [now right | now left].
Qed.

End SortedMap.

Section RawProperties.

Context {num : Type} `{Arith num}.
Variable lower : string -> string.

Lemma str_item_schema (m : pydict num) (k : string) :
  is_str (dict_lookup m k) = true -> str_item m k = Result (str_of m k).
Proof.
  unfold str_item, getitem, str_of, is_str.
  destruct (dict_lookup m k) as [[]|]; try discriminate. reflexivity.
Qed.

Lemma int_item_schema (m : pydict num) (k : string) :
  is_int (dict_lookup m k) = true -> int_item m k = Result (int_of m k).
Proof.
  unfold int_item, getitem, int_of, is_int.
  destruct (dict_lookup m k) as [[]|]; try discriminate. reflexivity.
Qed.

Lemma float_item_schema (m : pydict num) (k : string) :
  is_float (dict_lookup m k) = true -> float_item m k = Result (float_of m k).
Proof.
  unfold float_item, getitem, float_of, is_float.
  destruct (dict_lookup m k) as [[]|]; try discriminate. reflexivity.
Qed.

Lemma bool_item_schema (m : pydict num) (k : string) :
  is_bool (dict_lookup m k) = true -> bool_item m k = Result (bool_of m k).
Proof.
  unfold bool_item, getitem, bool_of, is_bool.
  destruct (dict_lookup m k) as [[]|]; try discriminate. reflexivity.
Qed.

(** Every field of a dict of the schema is read without an exception, and
    is the field of its record. *)
Lemma schema_items (m : pydict num) :
  has_schema m = true ->
  str_item m "id" = Result (id (record_of m)) /\
  str_item m "display_name" = Result (display_name (record_of m)) /\
  str_item m "provider" = Result (provider (record_of m)) /\
  int_item m "context_window" = Result (context_window (record_of m)) /\
  int_item m "max_output_tokens" = Result (max_output_tokens (record_of m)) /\
  bool_item m "vision" = Result (vision (record_of m)) /\
  bool_item m "reasoning" = Result (reasoning (record_of m)) /\
  float_item m "pricing_input" = Result (pricing_input (record_of m)) /\
  float_item m "pricing_output" = Result (pricing_output (record_of m)) /\
  str_item m "knowledge_cutoff" = Result (knowledge_cutoff (record_of m)) /\
  str_item m "release_date" = Result (release_date (record_of m)) /\
  str_item m "status" = Result (status (record_of m)) /\
  str_item m "notes" = Result (notes (record_of m)).
Proof.
  unfold has_schema. rewrite !andb_true_iff.
  intros ((((((((((((a & b) & c) & d) & e) & f) & g) & h) & i) & j) & k) & l)
          & n).
  repeat split;
    first [ now apply str_item_schema | now apply int_item_schema
          | now apply float_item_schema | now apply bool_item_schema ].
Qed.

Ltac read_fields m ok :=
  let items := fresh "items" in
  pose proof (schema_items m ok) as items;
  repeat match type of items with
    | _ /\ _ =>
        let e := fresh "field" in
        destruct items as [e items]; rewrite ?e; cbn [and_then]
    end;
  rewrite ?items; cbn [and_then].

Lemma raw_table_row_schema (m : pydict num) :
  has_schema m = true -> raw_table_row m = Result (table_row (record_of m)).
Proof.
  intros ok. unfold raw_table_row. read_fields m ok. reflexivity.
Qed.

Lemma raw_format_table_schema (models : list (pydict num)) :
  Forall (fun m => has_schema m = true) models ->
  raw_format_table models = Result (_format_table (map record_of models)).
Proof.
  intros ok. destruct models as [|m models]; [reflexivity|].
  unfold raw_format_table.
  rewrite (for_all_pure _ (fun m => table_row (record_of m))).
  - cbn [and_then]. unfold _format_table. cbn [map]. now rewrite map_map.
  - rewrite Forall_forall in ok. intros x ix.
    now apply raw_table_row_schema, ok.
Qed.

Lemma raw_model_detail_schema (m : pydict num) :
  has_schema m = true ->
  raw_model_detail m = Result (_model_detail (record_of m)).
Proof.
  intros ok. unfold raw_model_detail.
  pose proof (schema_items m ok) as
    (e1 & e2 & e3 & e4 & e5 & e6 & e7 & e8 & e9 & e10 & e11 & e12 & e13).
  rewrite e6. cbn [and_then]. rewrite e7. cbn [and_then]. cbv zeta.
  rewrite e2. cbn [and_then]. rewrite e1. cbn [and_then].
  rewrite e3. cbn [and_then]. rewrite e12. cbn [and_then].
  rewrite e4. cbn [and_then]. rewrite e5. cbn [and_then].
  rewrite e8. cbn [and_then]. rewrite e9. cbn [and_then].
  rewrite e10. cbn [and_then]. rewrite e11. cbn [and_then].
  rewrite e13. cbn [and_then]. reflexivity.
Qed.


Variable RAW : raw_table num.
Hypothesis schema : Forall (fun item => has_schema (snd item) = true) RAW.

Let MODELS : table num := records_of RAW.

Lemma values_records_of : values MODELS = map record_of (map snd RAW).
Proof. unfold MODELS, values, records_of. now rewrite !map_map. Qed.

Lemma keys_records_of : keys MODELS = map fst RAW.
Proof. unfold MODELS, keys, records_of. now rewrite map_map. Qed.

Lemma raw_values_schema : Forall (fun m => has_schema m = true) (map snd RAW).
Proof. now apply Forall_map. Qed.

Lemma filter_schema (g : pydict num -> bool) (l : list (pydict num)) :
  Forall (fun m => has_schema m = true) l ->
  Forall (fun m => has_schema m = true) (filter g l).
Proof.
  rewrite !Forall_forall. intros ok m im. apply filter_In in im.
  now apply ok.
Qed.

(** One filter of [list_models]. *)
Lemma raw_if_given_schema (arg : option string)
  (f : string -> pydict num -> answer bool)
  (g : string -> ModelRecord num -> bool) (l : list (pydict num)) :
  Forall (fun m => has_schema m = true) l ->
  (forall s m, has_schema m = true -> f s m = Result (g s (record_of m))) ->
  exists l',
    raw_if_given arg (fun s results => keep_if (f s) results) l = Result l' /\
    Forall (fun m => has_schema m = true) l' /\
    map record_of l' =
    if_given arg (fun s results => filter (g s) results) (map record_of l).
Proof.
  intros ok pure. unfold raw_if_given, if_given.
  destruct arg as [s|]; [|now exists l].
  destruct (s =? "")%string; [now exists l|].
  exists (filter (fun m => g s (record_of m)) l).
  split; [|split].
  - apply keep_if_pure. intros m im. apply pure.
    rewrite Forall_forall in ok. now apply ok.
  - now apply filter_schema.
  - apply map_filter_comm.
Qed.

Lemma raw_list_models_schema (provider_ status_ capability : option string) :
  raw_list_models lower RAW provider_ status_ capability =
  Result (list_models lower MODELS provider_ status_ capability).
Proof.
  unfold raw_list_models, list_models. cbv zeta.
  rewrite values_records_of.
  destruct (raw_if_given_schema provider_
              (fun s m => v <~ str_item m "provider" ;;
                          Result (lower v =? lower s)%string)
              (fun s m => (lower (provider m) =? lower s)%string)
              (map snd RAW) raw_values_schema)
    as (l1 & run1 & ok1 & same1).
  { intros s m ok. destruct (schema_items m ok) as (_ & _ & e & _).
    rewrite e. reflexivity. }
  rewrite run1. cbn [and_then]. rewrite <- same1.
  destruct (raw_if_given_schema status_
              (fun s m => v <~ str_item m "status" ;;
                          Result (lower v =? lower s)%string)
              (fun s m => (lower (status m) =? lower s)%string)
              l1 ok1)
    as (l2 & run2 & ok2 & same2).
  { intros s m ok.
    destruct (schema_items m ok) as (_&_&_&_&_&_&_&_&_&_&_& e & _).
    rewrite e. reflexivity. }
  rewrite run2. cbn [and_then]. rewrite <- same2.
  assert (vision_pure : forall l, Forall (fun m => has_schema m = true) l ->
            keep_if (fun m => bool_item m "vision") l =
            Result (filter (fun m => vision (record_of m)) l)).
  { intros l ok. apply keep_if_pure. intros m im.
    rewrite Forall_forall in ok.
    now destruct (schema_items m (ok m im)) as (_&_&_&_&_& e & _). }
  assert (reasoning_pure : forall l, Forall (fun m => has_schema m = true) l ->
            keep_if (fun m => bool_item m "reasoning") l =
            Result (filter (fun m => reasoning (record_of m)) l)).
  { intros l ok. apply keep_if_pure. intros m im.
    rewrite Forall_forall in ok.
    now destruct (schema_items m (ok m im)) as (_&_&_&_&_&_& e & _). }
  unfold raw_if_given, if_given.
  destruct capability as [c|];
    [|cbn [and_then]; now apply raw_format_table_schema].
  destruct (c =? "")%string;
    [cbn [and_then]; now apply raw_format_table_schema|].
  destruct (lower c =? "vision")%string.
  - rewrite (vision_pure l2 ok2). cbn [and_then].
    rewrite raw_format_table_schema by now apply filter_schema.
    now rewrite map_filter_comm.
  - destruct ((lower c =? "reasoning") || (lower c =? "thinking"))%string.
    + rewrite (reasoning_pure l2 ok2). cbn [and_then].
      rewrite raw_format_table_schema by now apply filter_schema.
      now rewrite map_filter_comm.
    + cbn [and_then]. now apply raw_format_table_schema.
Qed.

(** *** The resolver *)

Lemma schema_not_empty (m : pydict num) : has_schema m = true -> m <> [].
Proof. intros ok ->. discriminate ok. Qed.

Lemma raw_get_schema (t : raw_table num) (k : string) :
  Forall (fun item => has_schema (snd item) = true) t ->
  dict_get (records_of t) k = option_map record_of (raw_get t k) /\
  not_model (raw_get t k) =
    match raw_get t k with Some _ => false | None => true end /\
  (forall m, raw_get t k = Some m -> has_schema m = true).
Proof.
  induction 1 as [|[key m] t ok oks IH]; [repeat split; discriminate|].
  cbn [records_of map raw_get dict_get fst snd].
  destruct (key =? k)%string.
  - simpl in ok. repeat split.
    + destruct m; [discriminate ok | reflexivity].
    + intros m' e. now injection e as <-.
  - exact IH.
Qed.

Lemma raw_find_schema (P : string -> bool) (t : raw_table num) :
  Forall (fun item => has_schema (snd item) = true) t ->
  find (fun item => P (fst item)) (records_of t) =
  option_map (fun item => (fst item, record_of (snd item)))
             (find (fun item => P (fst item)) t) /\
  (forall item, find (fun item => P (fst item)) t = Some item ->
                has_schema (snd item) = true).
Proof.
  induction 1 as [|[key m] t ok oks IH]; [split; [reflexivity | discriminate]|].
  cbn [records_of map find fst snd].
  destruct (P key).
  - split; [reflexivity|]. intros item e. now injection e as <-.
  - exact IH.
Qed.

Lemma raw_resolve_schema (model_id : string) :
  resolve lower MODELS model_id =
    option_map record_of (raw_resolve lower RAW model_id) /\
  not_model (raw_resolve lower RAW model_id) =
    match raw_resolve lower RAW model_id with
    | Some _ => false
    | None => true
    end /\
  (forall m, raw_resolve lower RAW model_id = Some m -> has_schema m = true).
Proof.
  unfold resolve, raw_resolve, MODELS. cbv zeta.
  destruct (raw_get_schema RAW model_id schema) as (get & falsy & ok).
  rewrite get, falsy.
  destruct (raw_get RAW model_id) as [m|]; [now split|].
  cbn [option_map].
  destruct (raw_find_schema (key_matches lower (lower model_id)) RAW schema)
    as (pass & found).
  rewrite pass.
  destruct (find _ RAW) as [[key m]|]; cbn [option_map snd].
  - pose proof (found _ eq_refl) as ok_m. simpl in ok_m.
    repeat split.
    + destruct m; [discriminate ok_m | reflexivity].
    + intros m' e. now injection e as <-.
  - repeat split. discriminate.
Qed.

Lemma raw_get_model_info_schema (model_id : string) :
  raw_get_model_info lower RAW model_id =
  Result (get_model_info lower MODELS model_id).
Proof.
  unfold raw_get_model_info, get_model_info. cbv zeta.
  destruct (raw_resolve_schema model_id) as (same & falsy & ok).
  rewrite same, falsy.
  destruct (raw_resolve lower RAW model_id) as [m|]; cbn [option_map].
  - now apply raw_model_detail_schema, ok.
  - unfold info_not_found. now rewrite keys_records_of.
Qed.


(** *** The scorer *)

Lemma raw_score_model_schema (task_lower budget : string) (m : pydict num) :
  has_schema m = true ->
  raw_score_model task_lower budget m =
  Result (score_model task_lower budget (record_of m)).
Proof.
  intros ok.
  pose proof (schema_items m ok) as
    (e1 & e2 & e3 & e4 & e5 & e6 & e7 & e8 & e9 & e10 & e11 & e12 & e13).
  unfold raw_score_model, score_model, coding_signal, vision_signal,
    reasoning_signal, long_context_signal, cheap_signal, budget_modifier,
    quality_signal.
  cbv zeta. rewrite ?e4, ?e6, ?e7, ?e8.
  destruct (str_in "coding" task_lower || str_in "code" task_lower)%bool,
    (str_in "vision" task_lower || str_in "image" task_lower)%bool,
    (str_in "reason" task_lower || str_in "think" task_lower
     || str_in "math" task_lower)%bool,
    (str_in "long context" task_lower
     || str_in "large document" task_lower)%bool,
    (str_in "cheap" task_lower || str_in "batch" task_lower
     || str_in "cost" task_lower)%bool,
    (budget =? "cheap")%string, (budget =? "unlimited")%string;
    reflexivity.
Qed.

Lemma raw_recommend_entry_schema (i : nat) (entry : num * pydict num) :
  has_schema (snd entry) = true ->
  raw_recommend_entry i entry =
  Result (recommend_entry i (fst entry, record_of (snd entry))).
Proof.
  intros ok. unfold raw_recommend_entry. cbv zeta.
  pose proof (schema_items (snd entry) ok) as
    (e1 & e2 & e3 & e4 & e5 & e6 & e7 & e8 & e9 & e10 & e11 & e12 & e13).
  rewrite e6. cbn [and_then]. rewrite e7. cbn [and_then].
  rewrite e2. cbn [and_then]. rewrite e1. cbn [and_then].
  rewrite e3. cbn [and_then]. rewrite e8. cbn [and_then].
  rewrite e9. cbn [and_then]. rewrite e4. cbn [and_then].
  reflexivity.
Qed.

Lemma raw_recommend_model_schema (task : string) (budget : option string) :
  raw_recommend_model lower RAW task budget =
  Result (recommend_model lower MODELS task budget).
Proof.
  unfold raw_recommend_model. cbv zeta.
  set (b := lower (or_default budget "moderate")).
  set (tl := lower task).
  set (lift := fun e : num * pydict num => (fst e, record_of (snd e))).
  rewrite (keep_if_pure _ (fun m => (status (record_of m) =? "current")%string)).
  2:{ intros m im. pose proof raw_values_schema as ok.
      rewrite Forall_forall in ok.
      destruct (schema_items m (ok m im)) as (_&_&_&_&_&_&_&_&_&_&_& e & _).
      now rewrite e. }
  cbn [and_then].
  set (current := filter _ (map snd RAW)).
  assert (ok_current : Forall (fun m => has_schema m = true) current)
    by apply filter_schema, raw_values_schema.
  rewrite (for_all_pure _ (fun m => (score_model tl b (record_of m), m))).
  2:{ intros m im. rewrite Forall_forall in ok_current.
      now rewrite raw_score_model_schema by now apply ok_current. }
  cbn [and_then].
  set (scored_ := map _ current).
  assert (ok_scored : Forall (fun e => has_schema (snd e) = true) scored_).
  { unfold scored_. apply Forall_map. exact ok_current. }
  set (top := firstn 3 (sort_by_key_reverse fst scored_)).
  assert (ok_top : Forall (fun e => has_schema (snd e) = true) top).
  { unfold top. apply Forall_firstn_of.
    eapply Permutation_Forall; [|exact ok_scored].
    symmetry. apply sorted_perm. }
  rewrite (for_all_pure _ (fun ie => recommend_entry (fst ie) (lift (snd ie)))).
  2:{ intros ie iie. apply raw_recommend_entry_schema.
      rewrite Forall_forall in ok_top.
      apply ok_top. now apply (enumerate_snd 1). }
  cbn [and_then]. f_equal.
  unfold recommend_model, recommend_header, normalized_budget. cbv zeta.
  fold b. do 4 f_equal.
  unfold recommend_entries, recommend_top, normalized_budget. fold b tl.
  assert (same : ranked MODELS tl b = map lift (sort_by_key_reverse fst scored_)).
  { unfold ranked, sort_by_key_reverse, scored, current_models.
    rewrite values_records_of, <- map_filter_comm. fold current.
    rewrite map_map.
    rewrite <- (sorted_map (fun a b0 : num * pydict num => ltb (fst b0) (fst a))
                           (fun a b0 : num * ModelRecord num => ltb (fst b0) (fst a))
                           lift) by reflexivity.
    unfold scored_. now rewrite map_map. }
  rewrite same, firstn_map. fold top.
  rewrite enumerate_map, map_map. reflexivity.
Qed.


(** *** The status report *)

Lemma raw_check_model_status_schema (model_id : string) :
  raw_check_model_status lower RAW model_id =
  Result (check_model_status lower MODELS model_id).
Proof.
  unfold raw_check_model_status, check_model_status. cbv zeta.
  destruct (raw_resolve_schema model_id) as (same & falsy & ok).
  rewrite same, falsy.
  destruct (raw_resolve lower RAW model_id) as [model|]; cbn [option_map];
    [|reflexivity].
  specialize (ok model eq_refl).
  pose proof (schema_items model ok) as
    (e1 & e2 & e3 & e4 & e5 & e6 & e7 & e8 & e9 & e10 & e11 & e12 & e13).
  rewrite e12. cbn [and_then]. rewrite e2. cbn [and_then].
  rewrite e1. cbn [and_then]. rewrite e13.
  unfold status_report. cbv zeta.
  destruct ((status (record_of model) =? "legacy")
            || (status (record_of model) =? "deprecated"))%string;
    [|reflexivity].
  set (peer := fun m : pydict num =>
                 ((provider (record_of m) =? provider (record_of model))
                  && (status (record_of m) =? "current"))%string).
  rewrite (keep_if_pure _ peer).
  2:{ intros m im. pose proof raw_values_schema as oks.
      rewrite Forall_forall in oks.
      destruct (schema_items m (oks m im))
        as (_&_& p &_&_&_&_&_&_&_&_& s_ & _).
      rewrite p. cbn [and_then]. rewrite e3. cbn [and_then]. unfold peer.
      destruct (provider (record_of m) =? provider (record_of model))%string;
        [|reflexivity].
      now rewrite s_. }
  cbn [and_then].
  set (peers := filter peer (map snd RAW)).
  assert (ok_peers : Forall (fun m => has_schema m = true) peers)
    by apply filter_schema, raw_values_schema.
  set (key := fun r : ModelRecord num =>
                absn (sub (pricing_input r) (pricing_input (record_of model)))).
  rewrite (for_all_pure _ (fun m => (key (record_of m), m))).
  2:{ intros m im. rewrite Forall_forall in ok_peers.
      destruct (schema_items m (ok_peers m im)) as (_&_&_&_&_&_&_& p & _).
      rewrite p. cbn [and_then]. now rewrite e8. }
  cbn [and_then].
  set (keyed := map _ peers).
  assert (order :
    replacements MODELS (record_of model) =
    map (fun e => record_of (snd e)) (sort_by_key fst keyed)).
  { unfold replacements, sort_by_key. rewrite values_records_of.
    rewrite <- (map_filter_comm record_of).
    change (filter _ (map snd RAW)) with peers.
    rewrite <- (sorted_map
                  (fun a b : num * pydict num => ltb (fst a) (fst b))
                  (fun a b : ModelRecord num => ltb (key a) (key b))
                  (fun e => record_of (snd e)) keyed).
    - unfold keyed. now rewrite map_map.
    - intros x y ix iy. unfold keyed in ix, iy.
      apply in_map_iff in ix, iy.
      destruct ix as (mx & <- & _), iy as (my & <- & _). reflexivity. }
  rewrite order.
  destruct (sort_by_key fst keyed) as [|[k r] rest] eqn:first; cbn [map snd];
    [reflexivity|].
  assert (ok_r : has_schema r = true).
  { assert (listed : In (k, r) keyed).
    { apply (sorted_In (fun a b : num * pydict num => ltb (fst a) (fst b))).
      unfold sort_by_key in first. rewrite first. now left. }
    unfold keyed in listed. apply in_map_iff in listed.
    destruct listed as (m & e & im). injection e as _ <-.
    rewrite Forall_forall in ok_peers. now apply ok_peers. }
  destruct (schema_items r ok_r) as (r1 & r2 & _).
  rewrite r2. cbn [and_then]. rewrite r1. reflexivity.
Qed.

End RawProperties.

(** Every record is the record of its dict, which has the schema. *)
Lemma dict_of_schema {num : Type} `{Arith num} (m : ModelRecord num) :
  has_schema (dict_of m) = true /\ record_of (dict_of m) = m.
Proof. destruct m. split; reflexivity. Qed.

Lemma records_of_dicts_of {num : Type} `{Arith num} (t : table num) :
  Forall (fun item => has_schema (snd item) = true) (dicts_of t) /\
  records_of (dicts_of t) = t.
Proof.
  unfold records_of, dicts_of. split.
  - apply Forall_map, Forall_forall. intros item _. apply dict_of_schema.
  - rewrite map_map. rewrite <- (map_id t) at 2. apply map_ext.
    intros [key m]. simpl. f_equal. apply dict_of_schema.
Qed.

(** A query that no key contains up to case resolves to nothing, on any
    table of dicts. *)
Lemma raw_resolve_no_match {num : Type} `{Arith num}
  (lower : string -> string) (RAW : raw_table num) (model_id : string) :
  Forall (fun item => str_in (lower model_id) (lower (fst item)) = false) RAW ->
  raw_resolve lower RAW model_id = None.
Proof.
  intros none. unfold raw_resolve. cbv zeta.
  assert (pass : find (fun item => key_matches lower (lower model_id) (fst item))
                      RAW = None).
  { induction none as [|[key m] t miss none IH]; [reflexivity|].
    cbn [find fst]. rewrite key_matches_substring. simpl in miss.
    rewrite miss. exact IH. }
  assert (exact : raw_get RAW model_id = None).
  { clear pass. induction none as [|[key m] t miss none IH]; [reflexivity|].
    cbn [raw_get]. destruct (String.eqb_spec key model_id) as [->|_];
      [|exact IH].
    simpl in miss. now rewrite str_in_refl in miss. }
  rewrite exact, pass. reflexivity.
Qed.

(** C4.  On a table whose dicts all have the thirteen keys of the schema,
    each with a value of its type, no tool raises, whatever its string
    arguments are, absent and empty ones included: every subscription finds
    its key, and each of [list_models], [get_model_info], [recommend_model]
    and [check_model_status] returns a text, the one the tool on records
    computes from the records of the dicts.  A query that no key contains up
    to case, whatever its characters, is answered with the not-found
    messages, which quote it. *)
Theorem tools_return_text {num : Type} `{Arith num}
  (lower : string -> string) (RAW : raw_table num) :
  Forall (fun item => has_schema (snd item) = true) RAW ->
  (forall provider_ status_ capability,
     raw_list_models lower RAW provider_ status_ capability =
     Result (list_models lower (records_of RAW) provider_ status_ capability)) /\
  (forall model_id,
     raw_get_model_info lower RAW model_id =
     Result (get_model_info lower (records_of RAW) model_id)) /\
  (forall task budget,
     raw_recommend_model lower RAW task budget =
     Result (recommend_model lower (records_of RAW) task budget)) /\
  (forall model_id,
     raw_check_model_status lower RAW model_id =
     Result (check_model_status lower (records_of RAW) model_id)) /\
  (forall model_id,
     Forall (fun item => str_in (lower model_id) (lower (fst item)) = false)
            RAW ->
     raw_get_model_info lower RAW model_id =
       Result ("Model `" ++ model_id ++ "` not found in registry." ++ nl ++ nl ++
               "Known models: " ++
               join ", " (sorted String.ltb (map fst RAW))) /\
     raw_check_model_status lower RAW model_id =
       Result ("`" ++ model_id ++ "` is **not found** in the registry. " ++
               "It may be misspelled, very old, or not yet tracked.")).
Proof.
  intros schema. split; [|split; [|split; [|split]]].
  - intros. now apply raw_list_models_schema.
  - intros. now apply raw_get_model_info_schema.
  - intros. now apply raw_recommend_model_schema.
  - intros. now apply raw_check_model_status_schema.
  - intros model_id none.
    unfold raw_get_model_info, raw_check_model_status. cbv zeta.
    rewrite (raw_resolve_no_match lower RAW model_id none). now split.
Qed.

(** * The validation script *)

(** ** Computations that append reports *)

Lemma appends_ret {A : Type} (a : A) : appends (ret a) a [].
Proof.
  intros [results out]. exists []. unfold ret. simpl. now rewrite !app_nil_r.
Qed.

Lemma appends_bind {A B : Type} (c : M A) (k : A -> M B) (a : A) (b : B)
  (rs rs' : list Report) :
  appends c a rs -> appends (k a) b rs' -> appends (bind c k) b (rs ++ rs').
Proof.
  intros first second s. unfold bind.
  destruct (first s) as [out run]. rewrite run.
  destruct (second {| RESULTS := RESULTS s ++ rs; stdout := stdout s ++ out |})
    as [out' run'].
  exists (out ++ out')%list. rewrite run'. simpl. now rewrite !app_assoc.
Qed.

Lemma appends_print (line : string) : appends (print line) tt [].
Proof.
  intros s. exists [line]. unfold print. now rewrite app_nil_r.
Qed.

(** With one of the four statuses, [report] appends one report and raises
    nothing. *)
Lemma appends_report (model_id provider_ status_ detail : string) :
  known_status status_ ->
  appends (report model_id provider_ status_ detail) tt
          [make_report model_id provider_ status_ detail].
Proof.
  intros known s.
  assert (icon : exists i, icon_of status_ = Some i).
  { destruct known as [<-|[<-|[<-|[<-|[]]]]]; eexists; reflexivity. }
  destruct icon as [i icon]. unfold report. rewrite icon.
  eexists. unfold print. simpl. reflexivity.
Qed.

(** With any other status it raises [KeyError] and changes nothing. *)
Lemma report_unknown_status (model_id provider_ status_ detail : string)
  (s : State) :
  icon_of status_ = None ->
  report model_id provider_ status_ detail s = Raised (KeyError status_) s.
Proof. intros unknown. unfold report. now rewrite unknown. Qed.

Lemma appends_after_print {A : Type} (line : string) (c : M A) (a : A)
  (rs : list Report) :
  appends c a rs -> appends (print line ;; c) a rs.
Proof.
  intros run. exact (appends_bind _ _ tt a [] rs (appends_print line) run).
Qed.

Lemma appends_same {A : Type} (c : M A) (a : A) (rs rs' : list Report) :
  rs = rs' -> appends c a rs -> appends c a rs'.
Proof. now intros ->. Qed.

Lemma appends_for_each {A : Type} (l : list A) (body : A -> M unit)
  (f : A -> list Report) :
  (forall x, In x l -> appends (body x) tt (f x)) ->
  appends (for_each l body) tt (flat_map f l).
Proof.
  induction l as [|x l IH]; intros each; simpl; [apply appends_ret|].
  apply (appends_bind _ _ tt); [apply each; now left|].
  apply IH. intros y later. apply each. now right.
Qed.

Lemma flat_map_filter {A B : Type} (test : A -> bool) (f : A -> B)
  (l : list A) :
  flat_map (fun x => if test x then [f x] else []) l = map f (filter test l).
Proof.
  induction l as [|x l IH]; simpl; [reflexivity|].
  destruct (test x); simpl; now rewrite IH.
Qed.

Ltac known :=
  unfold known_status; simpl; repeat (first [left; reflexivity | right]).

(** ** The validators *)

Section Validators.

Context {num : Type}.
Variable lower : string -> string.
Variable repr : string -> string.
Variable world : World.
Variable MODELS : table num.

Lemma report_all_appends (provider_ status_ detail : string) :
  known_status status_ ->
  appends (report_all MODELS provider_ status_ detail) tt
          (map (fun item => make_report (fst item) provider_ status_ detail)
               (models_of MODELS provider_)).
Proof.
  intros known. unfold report_all, models_of.
  rewrite <- flat_map_filter. apply appends_for_each.
  intros item _. destruct (provider (snd item) =? provider_)%string;
    [now apply appends_report | apply appends_ret].
Qed.

Lemma validate_by_listing_appends (provider_ env_name : string)
  (answer : listing) (available_of : list string -> list string)
  (missing_detail : string) :
  appends (validate_by_listing world MODELS provider_ env_name answer
                               available_of missing_detail) tt
          (listing_reports world MODELS provider_ env_name answer available_of
                           missing_detail).
Proof.
  unfold validate_by_listing, listing_reports, listing_verdict.
  fold (key_is_set world env_name).
  destruct (key_is_set world env_name); cbn [negb].
  - destruct answer as [e|names].
    + apply appends_after_print.
      apply appends_after_print.
      apply report_all_appends. known.
    + apply appends_after_print.
      unfold models_of. rewrite <- flat_map_filter.
      apply appends_for_each. intros item _.
      destruct (provider (snd item) =? provider_)%string; cbn [negb];
        [|apply appends_ret].
      destruct (existsb _ _); apply appends_report; known.
  - apply appends_after_print.
    apply report_all_appends. known.
Qed.

Lemma anthropic_request_appends (mid : string) :
  let '(status_, detail, stop) := anthropic_verdict lower world mid in
  appends
    (try_except (anthropic_request lower world mid)
       (fun e => report mid "Anthropic" "error" (str_of_exn repr e) ;;
                 ret false))
    stop [make_report mid "Anthropic" status_ detail].
Proof.
  unfold anthropic_verdict, anthropic_request.
  destruct (anthropic_messages world mid) as [e|code text].
  - intros s. unfold try_except, raise.
    destruct (appends_bind _ (fun _ => ret false) tt false _ []
                (appends_report mid "Anthropic" "error" e ltac:(known))
                (appends_ret false) s) as [out run].
    exists out. exact run.
  - assert (quiet : forall (c : M bool) (stop : bool) rs,
              appends c stop rs ->
              appends (try_except c
                         (fun e => report mid "Anthropic" "error"
                                          (str_of_exn repr e) ;; ret false))
                      stop rs).
    { intros c stop rs run s. destruct (run s) as [out ran].
      exists out. unfold try_except. now rewrite ran. }
    destruct (code =? 200)%Z; [|destruct (_ && _)%bool;
                                 [|destruct (code =? 401)%Z]];
      apply quiet;
      apply (appends_bind _ _ tt _ [_] []);
      try apply appends_ret; apply appends_report; known.
Qed.

Lemma anthropic_loop_appends (items : table num) :
  appends
    (for_each_until items (fun item =>
       if negb (provider (snd item) =? "Anthropic")%string then ret false
       else
         try_except (anthropic_request lower world (fst item))
           (fun e =>
              report (fst item) "Anthropic" "error" (str_of_exn repr e) ;;
              ret false)))
    tt
    (anthropic_answers lower world
       (filter (fun item => (provider (snd item) =? "Anthropic")%string)
               items)).
Proof.
  induction items as [|item items IH]; simpl; [apply appends_ret|].
  destruct (provider (snd item) =? "Anthropic")%string; cbn [negb].
  - cbn [anthropic_answers].
    pose proof (anthropic_request_appends (fst item)) as one.
    destruct (anthropic_verdict lower world (fst item))
      as [[status_ detail] stop].
    apply (appends_bind _ _ stop tt [_]); [exact one|].
    destruct stop; [apply appends_ret | exact IH].
  - apply (appends_bind _ _ false tt []); [apply appends_ret | exact IH].
Qed.

Lemma validate_anthropic_appends :
  appends (validate_anthropic lower repr world MODELS) tt
          (anthropic_reports lower world MODELS).
Proof.
  unfold validate_anthropic, anthropic_reports.
  fold (key_is_set world "ANTHROPIC_API_KEY").
  destruct (key_is_set world "ANTHROPIC_API_KEY"); cbn [negb].
  - apply appends_after_print.
    apply anthropic_loop_appends.
  - apply appends_after_print.
    apply report_all_appends. known.
Qed.

Lemma validate_no_api_providers_appends :
  appends (validate_no_api_providers MODELS) tt (no_api_reports MODELS).
Proof.
  unfold validate_no_api_providers, no_api_reports.
  apply appends_for_each. intros provider_ _.
  fold (models_of MODELS provider_).
  destruct (models_of MODELS provider_) as [|item items] eqn:some;
    [apply appends_ret|].
  apply appends_after_print.
  eapply appends_same; [|apply appends_for_each].
  - instantiate (1 := fun item => [make_report (fst item) provider_ "skip"
                                     "no automated validation available"]).
    generalize (item :: items). intros l.
    induction l as [|x l IH]; simpl; congruence.
  - intros x _. apply appends_report. known.
Qed.

End Validators.

(** ** The run of [main] *)

Lemma bind_appends_run {A B : Type} (c : M A) (k : A -> M B) (a : A)
  (rs : list Report) :
  appends c a rs ->
  forall s, exists out,
    bind c k s =
    k a {| RESULTS := RESULTS s ++ rs; stdout := stdout s ++ out |}.
Proof.
  intros run s. destruct (run s) as [out ran]. exists out.
  unfold bind. now rewrite ran.
Qed.

Lemma print_reports_appends (status_ : string) (results : list Report) :
  appends (print_reports status_ results) tt [].
Proof.
  unfold print_reports.
  eapply appends_same; [|apply appends_for_each].
  - instantiate (1 := fun _ => []). induction results; simpl; congruence.
  - intros r _. destruct (report_status r =? status_)%string;
      [apply appends_print | apply appends_ret].
Qed.

Tactic Notation "run_next" uconstr(H) :=
  match goal with
  | |- context [bind ?c ?k ?s] =>
      let out := fresh "out" in
      let run := fresh "run" in
      destruct (bind_appends_run c k _ _ H s) as [out run];
      rewrite run; clear run; cbv beta
  end.

Section Main.

Context {num : Type}.
Variable lower : string -> string.
Variable repr : string -> string.
Variable world : World.
Variable MODELS : table num.

(** From any state [main] returns: it appends the reports of the five
    validators, in this order, and its exit code is 1 when [RESULTS] holds a
    report of an error. *)
Lemma main_runs (s : State) :
  let results := (RESULTS s ++ expected_results lower world MODELS)%list in
  exists out,
    main lower repr world MODELS s =
    Returned (if (0 <? count_status "error" results)%nat then 1%Z else 0%Z)
             {| RESULTS := results; stdout := stdout s ++ out |}.
Proof.
  intros results. unfold main. cbv zeta.
  do 5 run_next (appends_print _).
  run_next (validate_by_listing_appends world MODELS _ _ _ _ _).
  run_next (validate_anthropic_appends lower repr world MODELS).
  run_next (validate_by_listing_appends world MODELS _ _ _ _ _).
  run_next (validate_by_listing_appends world MODELS _ _ _ _ _).
  run_next (validate_no_api_providers_appends MODELS).
  do 3 run_next (appends_print _).
  unfold bind at 1. unfold read_results at 1. cbv beta iota. cbn [RESULTS].
  fold (openai_reports world MODELS) (google_reports world MODELS)
       (xai_reports world MODELS).
  assert (same : ((((((((((((((RESULTS s ++ []) ++ []) ++ []) ++ []) ++ [])
                    ++ openai_reports world MODELS)
                    ++ anthropic_reports lower world MODELS)
                    ++ google_reports world MODELS)
                    ++ xai_reports world MODELS)
                    ++ no_api_reports MODELS) ++ []) ++ []) ++ [])%list
                 = results)).
  { unfold results, expected_results. now rewrite !app_nil_r, <- !app_assoc. }
  rewrite same. clear same.
  run_next (appends_print _).
  match goal with
  | |- context [bind (if ?c then _ else _) _ _] =>
      assert (quiet1 : forall line st,
                appends (if c then print line ;; print_reports st results
                         else ret tt) tt [])
  end.
  { intros line st. destruct (0 <? _)%nat; [|apply appends_ret].
    apply appends_after_print, print_reports_appends. }
  run_next (quiet1 _ _). clear quiet1.
  match goal with
  | |- context [bind (if ?c then _ else _) _ _] =>
      assert (quiet2 : forall line st,
                appends (if c then print line ;; print_reports st results
                         else ret tt) tt [])
  end.
  { intros line st. destruct (0 <? _)%nat; [|apply appends_ret].
    apply appends_after_print, print_reports_appends. }
  run_next (quiet2 _ _). clear quiet2.
  cbn [RESULTS stdout]. rewrite !app_nil_r, <- !app_assoc.
  eexists. destruct (0 <? _)%nat; unfold ret; reflexivity.
Qed.

End Main.

(** ** The reports of a run *)

Lemma reports_of_app (p : string) (rs rs' : list Report) :
  reports_of p (rs ++ rs') = (reports_of p rs ++ reports_of p rs')%list.
Proof. apply filter_app. Qed.

Lemma reports_of_same (p : string) (rs : list Report) :
  Forall (fun r => report_provider r = p) rs -> reports_of p rs = rs.
Proof.
  induction 1 as [|r rs same _ IH]; simpl; [reflexivity|].
  now rewrite same, String.eqb_refl, IH.
Qed.

Lemma reports_of_other (p q : string) (rs : list Report) :
  p <> q -> Forall (fun r => report_provider r = p) rs -> reports_of q rs = [].
Proof.
  intros other. induction 1 as [|r rs same _ IH]; simpl; [reflexivity|].
  rewrite same. apply String.eqb_neq in other. now rewrite other.
Qed.

Lemma count_known_statuses (rs : list Report) :
  Forall (fun r => known_status (report_status r)) rs ->
  (count_status "ok" rs + count_status "warn" rs + count_status "error" rs
   + count_status "skip" rs = List.length rs)%nat.
Proof.
  unfold count_status.
  induction 1 as [|r rs known _ IH]; simpl; [reflexivity|].
  destruct known as [<-|[<-|[<-|[<-|[]]]]]; simpl; lia.
Qed.

Section ReportFacts.

Context {num : Type}.
Variable lower : string -> string.
Variable world : World.
Variable MODELS : table num.

Lemma models_of_In (item : string * ModelRecord num) (p : string) :
  In item (models_of MODELS p) <-> In item MODELS /\ provider (snd item) = p.
Proof. unfold models_of. now rewrite filter_In, String.eqb_eq. Qed.

Lemma sound_from_item (item : string * ModelRecord num) (p st d : string) :
  In item (models_of MODELS p) -> In p validated_providers ->
  known_status st ->
  sound_report MODELS (make_report (fst item) p st d).
Proof.
  intros listed validated known. apply models_of_In in listed.
  destruct item as [key m]. destruct listed as [listed same].
  split; [exact known|]. split; [exact validated|]. now exists m.
Qed.

Lemma listing_verdict_known (env_name : string) (answer : listing)
  (available_of : list string -> list string) (missing_detail mid : string) :
  known_status
    (fst (listing_verdict world env_name answer available_of missing_detail
                          mid)).
Proof.
  unfold listing_verdict.
  destruct (key_is_set world env_name); [destruct answer|];
    try destruct (existsb _ _); known.
Qed.

Lemma listing_reports_facts (p env_name : string) (answer : listing)
  (available_of : list string -> list string) (missing_detail : string) :
  In p validated_providers ->
  Forall (fun r => report_provider r = p)
         (listing_reports world MODELS p env_name answer available_of
                          missing_detail) /\
  Forall (sound_report MODELS)
         (listing_reports world MODELS p env_name answer available_of
                          missing_detail) /\
  map report_id (listing_reports world MODELS p env_name answer available_of
                                 missing_detail) =
  map fst (models_of MODELS p).
Proof.
  intros validated. unfold listing_reports. repeat split.
  - apply Forall_map, Forall_forall. now intros item _.
  - apply Forall_map, Forall_forall. intros item listed. cbv zeta.
    apply sound_from_item; [exact listed | exact validated|].
    apply listing_verdict_known.
  - rewrite map_map. now apply map_ext.
Qed.

Lemma anthropic_verdict_known (mid : string) :
  known_status (fst (fst (anthropic_verdict lower world mid))).
Proof.
  unfold anthropic_verdict.
  destruct (anthropic_messages world mid) as [e|code text]; [known|].
  destruct (code =? 200)%Z; [known|].
  destruct (_ && _)%bool; [known|].
  destruct (code =? 401)%Z; known.
Qed.

Lemma anthropic_answers_facts (items : table num) :
  (forall item, In item items -> In item (models_of MODELS "Anthropic")) ->
  Forall (fun r => report_provider r = "Anthropic")
         (anthropic_answers lower world items) /\
  Forall (sound_report MODELS) (anthropic_answers lower world items) /\
  exists n,
    map report_id (anthropic_answers lower world items) =
      firstn n (map fst items) /\
    ((forall item, In item items ->
                   snd (anthropic_verdict lower world (fst item)) = false) ->
     n = List.length items).
Proof.
  induction items as [|item items IH]; intros listed.
  - repeat split; try constructor. exists 0%nat. now split.
  - destruct IH as (same & sound & n & ids & full).
    { intros x later. apply listed. now right. }
    cbn [anthropic_answers].
    pose proof (anthropic_verdict_known (fst item)) as known.
    destruct (anthropic_verdict lower world (fst item))
      as [[st d] stop] eqn:verdict.
    assert (here : sound_report MODELS (make_report (fst item) "Anthropic" st d)).
    { apply sound_from_item; [apply listed; now left| |exact known].
      unfold validated_providers. simpl. tauto. }
    destruct stop.
    + repeat split; try (constructor; [easy|constructor]).
      exists 1%nat. split; [reflexivity|].
      intros never. specialize (never item (or_introl eq_refl)).
      rewrite verdict in never. discriminate.
    + repeat split; try (constructor; easy).
      exists (S n). split; [simpl; now rewrite ids|].
      intros never. simpl. f_equal. apply full.
      intros x later. apply never. now right.
Qed.

Lemma anthropic_reports_facts :
  Forall (fun r => report_provider r = "Anthropic")
         (anthropic_reports lower world MODELS) /\
  Forall (sound_report MODELS) (anthropic_reports lower world MODELS) /\
  exists n,
    map report_id (anthropic_reports lower world MODELS) =
      firstn n (map fst (models_of MODELS "Anthropic")) /\
    ((forall mid text, anthropic_messages world mid <> Response 401 text) ->
     n = List.length (models_of MODELS "Anthropic")).
Proof.
  unfold anthropic_reports.
  destruct (key_is_set world "ANTHROPIC_API_KEY").
  - destruct (anthropic_answers_facts (models_of MODELS "Anthropic"))
      as (same & sound & n & ids & full); [auto|].
    repeat split; try assumption. exists n. split; [exact ids|].
    intros never. apply full. intros item _.
    unfold anthropic_verdict.
    destruct (anthropic_messages world (fst item)) as [e|code text] eqn:answer;
      [reflexivity|].
    destruct (code =? 200)%Z; [reflexivity|].
    destruct (_ && _)%bool; [reflexivity|].
    destruct (Z.eqb_spec code 401) as [->|_]; [|reflexivity].
    now elim (never (fst item) text).
  - repeat split.
    + apply Forall_map, Forall_forall. now intros item _.
    + apply Forall_map, Forall_forall. intros item listed.
      apply sound_from_item; [exact listed| |known].
      unfold validated_providers. simpl. tauto.
    + exists (List.length (models_of MODELS "Anthropic")). split; [|reflexivity].
      rewrite map_map. simpl.
      rewrite <- (length_map fst). now rewrite firstn_all.
Qed.

Lemma skip_reports_facts (p : string) :
  In p validated_providers ->
  let rs := map (fun item => make_report (fst item) p "skip"
                               "no automated validation available")
                (models_of MODELS p) in
  Forall (fun r => report_provider r = p) rs /\
  Forall (sound_report MODELS) rs /\
  map report_id rs = map fst (models_of MODELS p).
Proof.
  intros validated rs. unfold rs. repeat split.
  - apply Forall_map, Forall_forall. now intros item _.
  - apply Forall_map, Forall_forall. intros item listed.
    apply sound_from_item; [exact listed | exact validated | known].
  - rewrite map_map. now apply map_ext.
Qed.

End ReportFacts.

(** ** What a run of the script guarantees *)

Section Runs.

Context {num : Type}.
Variable lower : string -> string.
Variable repr : string -> string.
Variable world : World.
Variable MODELS : table num.

Ltac validated := unfold validated_providers; simpl; tauto.

Lemma expected_results_sound :
  Forall (sound_report MODELS) (expected_results lower world MODELS).
Proof.
  unfold expected_results. rewrite !Forall_app.
  split; [apply listing_reports_facts; validated|].
  split; [apply anthropic_reports_facts|].
  split; [apply listing_reports_facts; validated|].
  split; [apply listing_reports_facts; validated|].
  unfold no_api_reports. cbn [flat_map]. rewrite !Forall_app.
  split; [apply (skip_reports_facts MODELS); validated|].
  split; [apply (skip_reports_facts MODELS); validated|].
  split; [apply (skip_reports_facts MODELS); validated | constructor].
Qed.

(** X19.  [report] looks its status up before it touches anything: with a
    status that is none of "ok", "warn", "error" and "skip" it raises
    [KeyError] and leaves [RESULTS] and the output as they were; with one of
    the four it appends one report and prints one line, which shows the icon,
    the model id and, when there is one, the detail. *)
Theorem report_checks_status_first
  (model_id provider_ status_ detail : string) (s : State) :
  (~ known_status status_ ->
   report model_id provider_ status_ detail s = Raised (KeyError status_) s) /\
  (known_status status_ ->
   exists icon line,
     icon_of status_ = Some icon /\
     report model_id provider_ status_ detail s =
       Returned tt
         {| RESULTS := RESULTS s ++
                       [make_report model_id provider_ status_ detail];
            stdout := stdout s ++ [line] |} /\
     str_in icon line = true /\ str_in model_id line = true /\
     str_in detail line = true).
Proof.
  split.
  - intros unknown. apply report_unknown_status.
    unfold icon_of, known_status in *. simpl in unknown.
    repeat match goal with
      | |- context [(status_ =? ?x)%string] =>
          destruct (String.eqb_spec status_ x) as [->|_]; [tauto|]
      end.
    reflexivity.
  - intros known.
    assert (icon : exists i, icon_of status_ = Some i).
    { destruct known as [<-|[<-|[<-|[<-|[]]]]]; eexists; reflexivity. }
    destruct icon as [icon found]. unfold report. rewrite found.
    eexists icon, _. split; [reflexivity|]. split; [reflexivity|].
    destruct (String.eqb_spec detail "") as [->|_].
    + split; [find_field|]. split; [find_field | apply str_in_empty].
    + split; [find_field|]. split; find_field.
Qed.

(** X20.  Whatever the APIs answer, [main] returns and raises no
    [KeyError]; it only appends to [RESULTS]; its exit code is 1 when
    [RESULTS] then holds a report whose status is "error", and 0
    otherwise. *)
Theorem main_exit_code (s : State) :
  exists code s' new,
    main lower repr world MODELS s = Returned code s' /\
    RESULTS s' = (RESULTS s ++ new)%list /\
    (code = 0%Z \/ code = 1%Z) /\
    (code = 1%Z <->
     exists r, In r (RESULTS s') /\ report_status r = "error").
Proof.
  destruct (main_runs lower repr world MODELS s) as [out run].
  cbv zeta in run.
  set (results := (RESULTS s ++ expected_results lower world MODELS)%list)
    in *.
  eexists _, _, (expected_results lower world MODELS).
  split; [exact run|]. split; [reflexivity|]. cbn [RESULTS].
  assert (errors : (0 < count_status "error" results)%nat <->
                   exists r, In r results /\ report_status r = "error").
  { unfold count_status. split.
    - destruct (filter _ results) as [|r rest] eqn:some; simpl; [lia|].
      intros _. exists r.
      assert (i : In r (filter (fun r => (report_status r =? "error")%string)
                               results)) by (rewrite some; now left).
      apply filter_In in i. now rewrite String.eqb_eq in i.
    - intros (r & listed & is_error).
      assert (i : In r (filter (fun r => (report_status r =? "error")%string)
                               results)).
      { apply filter_In. split; [exact listed|]. now apply String.eqb_eq. }
      destruct (filter _ results); [destruct i | simpl; lia]. }
  destruct (Nat.ltb_spec 0 (count_status "error" results)) as [some|none].
  - split; [now right|]. split; [intros _; now apply errors | reflexivity].
  - split; [now left|]. split; [discriminate|].
    intros found. apply errors in found. lia.
Qed.

(** X21.  Every report a run of [main] appends is about a model of the
    table, recorded under the provider of that model, one of the seven the
    script knows, with one of the four statuses; so the four counts of the
    summary add up to the number of reports. *)
Theorem main_reports_are_sound :
  exists code s',
    main lower repr world MODELS initial_state = Returned code s' /\
    Forall (sound_report MODELS) (RESULTS s') /\
    (count_status "ok" (RESULTS s') + count_status "warn" (RESULTS s')
     + count_status "error" (RESULTS s') + count_status "skip" (RESULTS s')
     = List.length (RESULTS s'))%nat.
Proof.
  destruct (main_runs lower repr world MODELS initial_state) as [out run].
  cbv zeta in run. eexists _, _. split; [exact run|]. cbn [RESULTS].
  pose proof expected_results_sound as sound.
  split; [exact sound|].
  apply count_known_statuses.
  eapply Forall_impl; [|exact sound]. now intros r [known _].
Qed.

End Runs.

Lemma reports_of_segment (q p : string) (rs : list Report) :
  Forall (fun r => report_provider r = q) rs ->
  reports_of p rs = if (q =? p)%string then rs else [].
Proof.
  intros same. destruct (String.eqb_spec q p) as [<-|other].
  - now apply reports_of_same.
  - now apply (reports_of_other q p).
Qed.

Lemma no_slash_no_segment (name : string) :
  str_in "/" name = false -> after_last_slash name = None.
Proof.
  induction name as [|c name IH]; [reflexivity|].
  cbn [str_in String.prefix after_last_slash]. intros none.
  apply orb_false_iff in none. destruct none as [here later].
  rewrite (IH later).
  destruct (Ascii.eqb_spec c "/") as [->|_]; [|reflexivity].
  simpl in here. now destruct name.
Qed.

Lemma after_last_slash_app (before name : string) :
  after_last_slash name = None ->
  after_last_slash (before ++ "/" ++ name) = Some name.
Proof.
  intros none. induction before as [|c before IH]; simpl.
  - now rewrite none.
  - simpl in IH. now rewrite IH.
Qed.

Lemma skips_hold_no_error (rs : list Report) :
  Forall (fun r => report_status r = "skip") rs ->
  count_status "error" rs = 0%nat.
Proof.
  unfold count_status. induction 1 as [|r rs skip _ IH]; [reflexivity|].
  simpl. rewrite skip. exact IH.
Qed.

Section RunsOfWorlds.

Context {num : Type}.
Variable lower : string -> string.
Variable repr : string -> string.
Variable MODELS : table num.

Ltac validated := unfold validated_providers; simpl; tauto.

Lemma listing_segment (world : World) (q env_name : string) (answer : listing)
  (available_of : list string -> list string) (missing_detail p : string) :
  In q validated_providers ->
  reports_of p (listing_reports world MODELS q env_name answer available_of
                                missing_detail) =
  if (q =? p)%string
  then listing_reports world MODELS q env_name answer available_of
                       missing_detail
  else [].
Proof.
  intros validated. apply reports_of_segment.
  now apply listing_reports_facts.
Qed.

Lemma skip_segment (q p : string) :
  In q validated_providers ->
  reports_of p
    (map (fun item => make_report (fst item) q "skip"
                        "no automated validation available")
         (models_of MODELS q)) =
  if (q =? p)%string
  then map (fun item => make_report (fst item) q "skip"
                          "no automated validation available")
           (models_of MODELS q)
  else [].
Proof.
  intros validated. apply reports_of_segment.
  now apply (skip_reports_facts MODELS).
Qed.

(** X22.  The validators of OpenAI, Google and xAI return from any state
    and append one report for each model of their provider, in table order:
    "skip" when the key is not set, "error" with the message of the failure
    when the list of models cannot be fetched, and otherwise "ok" for an id
    in the list and "warn" for any other. *)
Theorem listing_validators_append (world : World) :
  appends (validate_openai world MODELS) tt (openai_reports world MODELS) /\
  appends (validate_google world MODELS) tt (google_reports world MODELS) /\
  appends (validate_xai world MODELS) tt (xai_reports world MODELS) /\
  map report_id (openai_reports world MODELS) =
    map fst (models_of MODELS "OpenAI") /\
  map report_id (google_reports world MODELS) =
    map fst (models_of MODELS "Google") /\
  map report_id (xai_reports world MODELS) = map fst (models_of MODELS "xAI").
Proof.
  repeat split; try apply validate_by_listing_appends;
    apply listing_reports_facts; validated.
Qed.

(** X23.  After a run of [main], each model of OpenAI, Google, xAI, Meta,
    Mistral and DeepSeek has exactly one report under its provider, and the
    reports of a provider follow the order of the table. *)
Theorem each_model_reported_once (world : World) (p : string) :
  In p ["OpenAI"; "Google"; "xAI"; "Meta"; "Mistral"; "DeepSeek"] ->
  exists code s',
    main lower repr world MODELS initial_state = Returned code s' /\
    map report_id (reports_of p (RESULTS s')) = map fst (models_of MODELS p).
Proof.
  intros listed.
  destruct (main_runs lower repr world MODELS initial_state) as [out run].
  cbv zeta in run. eexists _, _. split; [exact run|]. cbn [RESULTS app initial_state].
  unfold expected_results, openai_reports, google_reports, xai_reports,
    no_api_reports. cbn [flat_map].
  rewrite !reports_of_app.
  rewrite !listing_segment by validated.
  rewrite !skip_segment by validated.
  rewrite (reports_of_segment "Anthropic" p
             (anthropic_reports lower world MODELS))
    by apply anthropic_reports_facts.
  destruct listed as [<-|[<-|[<-|[<-|[<-|[<-|[]]]]]]]; simpl;
    rewrite ?app_nil_r;
    first [ apply listing_reports_facts; validated
          | apply (skip_reports_facts MODELS); validated ].
Qed.

Lemma key_is_set_same (w1 w2 : World) (name : string) :
  name <> "OPENAI_API_KEY" -> same_but_openai w1 w2 ->
  key_is_set w1 name = key_is_set w2 name.
Proof.
  intros other (env & _). unfold key_is_set. now rewrite (env name other).
Qed.

Lemma anthropic_answers_same (w1 w2 : World) (items : table num) :
  same_but_openai w1 w2 ->
  anthropic_answers lower w1 items = anthropic_answers lower w2 items.
Proof.
  intros (_ & _ & _ & answers).
  induction items as [|item items IH]; [reflexivity|].
  cbn [anthropic_answers]. unfold anthropic_verdict.
  now rewrite (answers (fst item)), IH.
Qed.

(** X24.  A failure of one provider stays with that provider: two runs in
    worlds that differ only in the key of OpenAI and in the answer of its API
    append the same reports for every other provider. *)
Theorem openai_failure_is_isolated (w1 w2 : World) :
  same_but_openai w1 w2 ->
  exists code1 s1 code2 s2,
    main lower repr w1 MODELS initial_state = Returned code1 s1 /\
    main lower repr w2 MODELS initial_state = Returned code2 s2 /\
    filter (fun r => negb (report_provider r =? "OpenAI")%string) (RESULTS s1) =
    filter (fun r => negb (report_provider r =? "OpenAI")%string) (RESULTS s2).
Proof.
  intros same.
  destruct (main_runs lower repr w1 MODELS initial_state) as [out1 run1].
  destruct (main_runs lower repr w2 MODELS initial_state) as [out2 run2].
  cbv zeta in run1, run2. eexists _, _, _, _.
  split; [exact run1|]. split; [exact run2|].
  cbn [RESULTS app initial_state].
  assert (others :
    forall rs, Forall (fun r => report_provider r = "OpenAI") rs ->
               filter (fun r => negb (report_provider r =? "OpenAI")%string) rs
               = []).
  { induction 1 as [|r rs here _ IH]; simpl; [reflexivity|].
    now rewrite here, IH. }
  unfold expected_results. rewrite !filter_app.
  rewrite (others (openai_reports w1 MODELS)),
    (others (openai_reports w2 MODELS))
    by (apply listing_reports_facts; validated).
  assert (anthropic : anthropic_reports lower w1 MODELS =
                      anthropic_reports lower w2 MODELS).
  { unfold anthropic_reports.
    rewrite (key_is_set_same w1 w2 "ANTHROPIC_API_KEY") by easy.
    now rewrite (anthropic_answers_same w1 w2). }
  assert (google : google_reports w1 MODELS = google_reports w2 MODELS).
  { unfold google_reports, listing_reports, listing_verdict.
    rewrite (key_is_set_same w1 w2 "GOOGLE_API_KEY") by easy.
    destruct same as (_ & same_google & _). now rewrite same_google. }
  assert (xai : xai_reports w1 MODELS = xai_reports w2 MODELS).
  { unfold xai_reports, listing_reports, listing_verdict.
    rewrite (key_is_set_same w1 w2 "XAI_API_KEY") by easy.
    destruct same as (_ & _ & same_xai & _). now rewrite same_xai. }
  now rewrite anthropic, google, xai.
Qed.

(** X25.  With no API key set, a run checks nothing: every report is a
    "skip", and the exit code is 0. *)
Theorem dry_run_skips_everything (world : World) :
  (forall name, key_is_set world name = false) ->
  exists s',
    main lower repr world MODELS initial_state = Returned 0%Z s' /\
    Forall (fun r => report_status r = "skip") (RESULTS s').
Proof.
  intros unset.
  destruct (main_runs lower repr world MODELS initial_state) as [out run].
  cbv zeta in run. cbn [RESULTS app initial_state] in run.
  assert (skips : Forall (fun r => report_status r = "skip")
                         (expected_results lower world MODELS)).
  { unfold expected_results, openai_reports, google_reports, xai_reports,
      listing_reports, listing_verdict, anthropic_reports, no_api_reports.
    rewrite ?unset. cbn [flat_map]. rewrite !Forall_app.
    repeat split; try constructor; apply Forall_map, Forall_forall;
      intros item _; cbv zeta; rewrite ?unset; reflexivity. }
  rewrite (skips_hold_no_error _ skips) in run. eexists. split; [exact run | exact skips].
Qed.

(** X26.  When the key of OpenAI is set, the list of its models cannot be
    fetched and the table holds a model of OpenAI, every model of OpenAI is
    reported as an error with the message of the failure, and the exit code
    is 1. *)
Theorem listing_failure_fails_run (world : World) (e : string) :
  key_is_set world "OPENAI_API_KEY" = true ->
  openai_models world = ListingFailed e ->
  models_of MODELS "OpenAI" <> [] ->
  exists s',
    main lower repr world MODELS initial_state = Returned 1%Z s' /\
    Forall (fun r => report_status r = "error" /\
                     report_detail r = "API error: " ++ e)
           (reports_of "OpenAI" (RESULTS s')).
Proof.
  intros set failed some.
  destruct (main_runs lower repr world MODELS initial_state) as [out run].
  cbv zeta in run. cbn [RESULTS app initial_state] in run.
  assert (errors : openai_reports world MODELS =
                   map (fun item => make_report (fst item) "OpenAI" "error"
                                                ("API error: " ++ e))
                       (models_of MODELS "OpenAI")).
  { unfold openai_reports, listing_reports, listing_verdict.
    now rewrite set, failed. }
  assert (count : (0 <? count_status "error"
                          (expected_results lower world MODELS))%nat = true).
  { apply Nat.ltb_lt. unfold expected_results, count_status.
    rewrite errors, filter_app, length_app.
    destruct (models_of MODELS "OpenAI") as [|item items]; [now elim some|].
    simpl. lia. }
  rewrite count in run. eexists. split; [exact run|]. cbn [RESULTS].
  unfold expected_results, google_reports, xai_reports, no_api_reports.
  cbn [flat_map]. rewrite !reports_of_app.
  rewrite !listing_segment by validated.
  rewrite !skip_segment by validated.
  rewrite (reports_of_segment "Anthropic" "OpenAI"
             (anthropic_reports lower world MODELS))
    by apply anthropic_reports_facts.
  simpl. rewrite app_nil_r.
  rewrite reports_of_same by (apply listing_reports_facts; validated).
  rewrite errors. apply Forall_map, Forall_forall. now intros item _.
Qed.

End RunsOfWorlds.

Section AnthropicAndGoogle.

Context {num : Type}.
Variable lower : string -> string.
Variable repr : string -> string.
Variable world : World.
Variable MODELS : table num.

Lemma anthropic_skip_stops (mid : string) :
  fst (fst (anthropic_verdict lower world mid)) = "skip" ->
  snd (anthropic_verdict lower world mid) = true.
Proof.
  unfold anthropic_verdict.
  destruct (anthropic_messages world mid) as [e|code text]; [discriminate|].
  destruct (code =? 200)%Z; [discriminate|].
  destruct (_ && _)%bool; [discriminate|].
  now destruct (code =? 401)%Z.
Qed.

Lemma anthropic_answers_skip_last (items : table num)
  (before : list Report) (r : Report) (after : list Report) :
  anthropic_answers lower world items = (before ++ r :: after)%list ->
  report_status r = "skip" -> after = [].
Proof.
  revert before. induction items as [|item items IH]; intros before shape skip.
  - now destruct before.
  - cbn [anthropic_answers] in shape.
    pose proof (anthropic_skip_stops (fst item)) as stops.
    destruct (anthropic_verdict lower world (fst item)) as [[st d] stop].
    destruct before as [|b before]; simpl in shape.
    + injection shape as <- rest. simpl in skip, stops.
      rewrite (stops skip) in rest. now symmetry.
    + injection shape as _ rest. destruct stop; [now destruct before|].
      exact (IH before rest skip).
Qed.

(** X27.  [validate_anthropic] returns from any state; it reports the models
    of Anthropic in table order, each at most once, and all of them unless
    an answer has the status code 401; with the key set, a "skip" report
    (the answer 401) is the last one: the loop stops there. *)
Theorem anthropic_stops_at_refusal :
  appends (validate_anthropic lower repr world MODELS) tt
          (anthropic_reports lower world MODELS) /\
  (exists n,
     map report_id (anthropic_reports lower world MODELS) =
       firstn n (map fst (models_of MODELS "Anthropic")) /\
     ((forall mid text, anthropic_messages world mid <> Response 401 text) ->
      n = List.length (models_of MODELS "Anthropic"))) /\
  (key_is_set world "ANTHROPIC_API_KEY" = true ->
   forall before r after,
     anthropic_reports lower world MODELS = (before ++ r :: after)%list ->
     report_status r = "skip" -> after = []).
Proof.
  split; [apply validate_anthropic_appends|]. split.
  - apply anthropic_reports_facts.
  - intros set before r after shape skip. unfold anthropic_reports in shape.
    rewrite set in shape.
    exact (anthropic_answers_skip_last _ before r after shape skip).
Qed.

(** X28.  Google lists its models under resource names: the validator
    compares what follows the last slash.  A model of Google whose id has no
    slash is reported "ok" when the list holds its id after any prefix that
    ends in a slash. *)
Theorem google_accepts_prefixed_names
  (names : list string) (prefix mid : string) (m : ModelRecord num) :
  key_is_set world "GOOGLE_API_KEY" = true ->
  google_models world = Listed names ->
  In (prefix ++ "/" ++ mid) names ->
  str_in "/" mid = false ->
  In (mid, m) MODELS -> provider m = "Google" ->
  last_segment (prefix ++ "/" ++ mid) = mid /\
  In (make_report mid "Google" "ok" "model available")
     (google_reports world MODELS).
Proof.
  intros set listed named plain present google.
  assert (segment : last_segment (prefix ++ "/" ++ mid) = mid).
  { unfold last_segment.
    now rewrite (after_last_slash_app prefix mid (no_slash_no_segment mid plain)). }
  split; [exact segment|].
  unfold google_reports, listing_reports.
  apply in_map_iff. exists (mid, m). split.
  - unfold listing_verdict. rewrite set, listed. cbn [fst].
    assert (found : existsb (String.eqb mid) (map last_segment names) = true).
    { apply existsb_exists. exists mid. split; [|apply String.eqb_refl].
      apply in_map_iff. now exists (prefix ++ "/" ++ mid). }
    now rewrite found.
  - apply models_of_In. now split.
Qed.

End AnthropicAndGoogle.

(** * The further properties on the example tables *)

Lemma openai_keys_distinct : NoDup (keys (@openai_table float _)).
Proof.
  repeat constructor; simpl; intuition discriminate.
Qed.

Lemma exact_key_resolves_witness :
  NoDup (keys (@openai_table float _)) /\
  In ("gpt-5", gpt_5) (@openai_table float _) /\
  get_model_info ascii_lower (@openai_table float _) "gpt-5" =
    _model_detail gpt_5.
Proof.
  assert (present : In ("gpt-5", gpt_5) (@openai_table float _))
    by (right; now left).
  split; [exact openai_keys_distinct|]. split; [exact present|].
  apply (exact_key_resolves ascii_lower openai_table "gpt-5" gpt_5
           openai_keys_distinct present).
Defined.

Lemma not_found_names_every_key_witness :
  resolve ascii_lower (@openai_table float _) "zzz" = None /\
  Forall (fun key => str_in key (get_model_info ascii_lower
                                   (@openai_table float _) "zzz") = true)
         (keys (@openai_table float _)).
Proof.
  split; [reflexivity|].
  apply (not_found_names_every_key ascii_lower openai_table "zzz" eq_refl).
Defined.

Lemma unknown_capability_is_ignored_witness :
  (ascii_lower "Audio" =? "vision")%string = false /\
  list_models ascii_lower (@openai_table float _) None None (Some "Audio") =
  list_models ascii_lower (@openai_table float _) None None None.
Proof.
  split; [reflexivity|].
  apply (unknown_capability_is_ignored ascii_lower openai_table None None
           "Audio"); reflexivity.
Defined.

Lemma thinking_is_reasoning_witness :
  ascii_lower "Reasoning" = "reasoning" /\
  ascii_lower "THINKING" = "thinking" /\
  list_models ascii_lower (@openai_table float _) None None (Some "Reasoning") =
  list_models ascii_lower (@openai_table float _) None None (Some "THINKING").
Proof.
  split; [reflexivity|]. split; [reflexivity|].
  apply (thinking_is_reasoning ascii_lower openai_table None None
           "Reasoning" "THINKING"); [discriminate | discriminate | | ];
    reflexivity.
Defined.

Lemma filters_ignore_case_witness :
  ascii_lower "OpenAI" = ascii_lower "OPENAI" /\
  list_models ascii_lower (@openai_table float _) (Some "OpenAI") None None =
  list_models ascii_lower (@openai_table float _) (Some "OPENAI") None None.
Proof.
  split; [reflexivity|].
  apply (filters_ignore_case ascii_lower openai_table "OpenAI" "OPENAI");
    [discriminate | discriminate | reflexivity].
Defined.

(** GPT-5 and Claude Haiku tie at 6.3: they stand in table order. *)
Lemma ties_keep_table_order_witness :
  ordered_on PrimFloat.ltb
    (current_scores (@mixed_table float _) (ascii_lower "Image analysis")
                    (normalized_budget ascii_lower (Some "cheap"))) /\
  map id (filter (fun m => PrimFloat.eqb (pricing_input m) 1)
                 (map snd (ranked (@mixed_table float _)
                                  (ascii_lower "Image analysis") "cheap"))) =
    ["gpt-5"; "claude-haiku-4-5"] /\
  filter (fun m => PrimFloat.eqb (pricing_input m) 1)
         (map snd (ranked (@mixed_table float _)
                          (ascii_lower "Image analysis") "cheap")) =
  filter (fun m => PrimFloat.eqb (pricing_input m) 1)
         (filter (fun m => (status m =? "current")%string)
                 (values (@mixed_table float _))).
Proof.
  split; [exact mixed_scores_ordered|]. split; [reflexivity|].
  apply (ties_keep_table_order (@mixed_table float _)
           (ascii_lower "Image analysis") "cheap"
           (fun m => PrimFloat.eqb (pricing_input m) 1)
           mixed_scores_ordered).
  intros m1 m2 i1 _ i2 _.
  repeat destruct i1 as [i1|i1]; try destruct i1;
    repeat destruct i2 as [i2|i2]; try destruct i2;
    intros s1 s2; try discriminate s1; try discriminate s2; reflexivity.
Defined.

Lemma first_recommendation_is_best_witness :
  ordered_on PrimFloat.ltb
    (current_scores (@mixed_table float _) (ascii_lower "Image analysis")
                    (normalized_budget ascii_lower (Some "cheap"))) /\
  map (fun entry => id (snd entry))
      (recommend_top ascii_lower (@mixed_table float _) "Image analysis"
                     (Some "cheap")) =
    ["pixtral-12b"; "gpt-5"; "claude-haiku-4-5"] /\
  forall m, In m (values (@mixed_table float _)) -> status m = "current" ->
    PrimFloat.ltb 7
      (score_model (ascii_lower "Image analysis") "cheap" m) = false.
Proof.
  split; [exact mixed_scores_ordered|]. split; [reflexivity|].
  apply (first_recommendation_is_best ascii_lower (@mixed_table float _)
           "Image analysis" (Some "cheap")
           (7%float, pixtral)
           [(0x1.9333333333333p+2%float, gpt_5);
            (0x1.9333333333333p+2%float, claude_haiku)]
           mixed_scores_ordered eq_refl).
Defined.

Lemma other_budgets_rank_alike_witness :
  (normalized_budget ascii_lower (Some "Moderate") =? "cheap")%string = false /\
  recommend_top ascii_lower (@vision_table float _) "coding" (Some "Moderate") =
  recommend_top ascii_lower (@vision_table float _) "coding" (Some "balanced").
Proof.
  split; [reflexivity|].
  apply (other_budgets_rank_alike ascii_lower vision_table "coding"
           (Some "Moderate") (Some "balanced")); reflexivity.
Defined.

Lemma openai_replacements :
  map id (replacements (@openai_table Q _) gpt_4o) = ["gpt-5"; "gpt-5-mini"].
Proof. reflexivity. Qed.

Lemma report_names_replacement_witness :
  status (@gpt_4o Q _) = "legacy" /\
  replacements (@openai_table Q _) gpt_4o = [gpt_5; gpt_5_mini] /\
  str_in "Recommended replacement: **GPT-5** (`gpt-5`)"
         (status_report (@openai_table Q _) gpt_4o) = true.
Proof.
  assert (first : replacements (@openai_table Q _) gpt_4o =
                  [gpt_5; gpt_5_mini]) by reflexivity.
  split; [reflexivity|]. split; [exact first|].
  apply (proj1 (report_names_replacement (@openai_table Q _) gpt_4o)
           gpt_5 [gpt_5_mini] (or_introl eq_refl) first).
Defined.

(** In binary64 the prices of the two current records of OpenAI differ from
    the price of GPT-4o by 2 and by 1. *)
Lemma openai_distances_ordered :
  ordered_on PrimFloat.ltb
    (map (price_distance (@gpt_4o float _))
         (filter (is_peer gpt_4o) (values (@openai_table float _)))).
Proof. apply float_ordered_on. repeat constructor. Qed.

Lemma replacement_is_closest_witness :
  ordered_on PrimFloat.ltb
    (map (price_distance (@gpt_4o float _))
         (filter (is_peer gpt_4o) (values (@openai_table float _)))) /\
  map id (replacements (@openai_table float _) gpt_4o) =
    ["gpt-5"; "gpt-5-mini"] /\
  forall m, In m (values (@openai_table float _)) ->
    provider m = "OpenAI" -> status m = "current" ->
    PrimFloat.ltb
      (PrimFloat.abs (PrimFloat.sub (pricing_input m) 2)) 1 = false.
Proof.
  split; [exact openai_distances_ordered|]. split; [reflexivity|].
  apply (replacement_is_closest (@openai_table float _) gpt_4o gpt_5
           [gpt_5_mini] openai_distances_ordered eq_refl).
Defined.

Lemma each_model_reported_once_witness :
  In "OpenAI" ["OpenAI"; "Google"; "xAI"; "Meta"; "Mistral"; "DeepSeek"] /\
  exists code s',
    main ascii_lower (fun key => "'" ++ key ++ "'") openai_down
         (@mixed_table float _) initial_state = Returned code s' /\
    map report_id (reports_of "OpenAI" (RESULTS s')) = ["gpt-5"].
Proof.
  assert (listed :
    In "OpenAI" ["OpenAI"; "Google"; "xAI"; "Meta"; "Mistral"; "DeepSeek"])
    by now left.
  split; [exact listed|].
  apply (each_model_reported_once ascii_lower (fun key => "'" ++ key ++ "'")
           (@mixed_table float _) openai_down "OpenAI" listed).
Defined.

Lemma openai_worlds_differ_in_openai_only : same_but_openai openai_only openai_down.
Proof. repeat split. Qed.

Lemma openai_failure_is_isolated_witness :
  same_but_openai openai_only openai_down /\
  exists code1 s1 code2 s2,
    main ascii_lower (fun key => key) openai_only (@mixed_table float _)
         initial_state = Returned code1 s1 /\
    main ascii_lower (fun key => key) openai_down (@mixed_table float _)
         initial_state = Returned code2 s2 /\
    filter (fun r => negb (report_provider r =? "OpenAI")%string) (RESULTS s1) =
    filter (fun r => negb (report_provider r =? "OpenAI")%string) (RESULTS s2).
Proof.
  split; [exact openai_worlds_differ_in_openai_only|].
  apply (openai_failure_is_isolated ascii_lower (fun key => key)
           (@mixed_table float _) openai_only openai_down
           openai_worlds_differ_in_openai_only).
Defined.

Lemma dry_run_skips_everything_witness :
  key_is_set no_keys "OPENAI_API_KEY" = false /\
  exists s',
    main ascii_lower (fun key => key) no_keys (@mixed_table float _)
         initial_state = Returned 0%Z s' /\
    Forall (fun r => report_status r = "skip") (RESULTS s').
Proof.
  split; [reflexivity|].
  apply (dry_run_skips_everything ascii_lower (fun key => key)
           (@mixed_table float _) no_keys).
  intros name. reflexivity.
Defined.

Lemma listing_failure_fails_run_witness :
  key_is_set openai_down "OPENAI_API_KEY" = true /\
  openai_models openai_down = ListingFailed "timed out" /\
  exists s',
    main ascii_lower (fun key => key) openai_down (@mixed_table float _)
         initial_state = Returned 1%Z s' /\
    Forall (fun r => report_status r = "error" /\
                     report_detail r = "API error: timed out")
           (reports_of "OpenAI" (RESULTS s')).
Proof.
  split; [reflexivity|]. split; [reflexivity|].
  apply (listing_failure_fails_run ascii_lower (fun key => key)
           (@mixed_table float _) openai_down "timed out" eq_refl eq_refl).
  discriminate.
Defined.

(** With a refused key the first model of Anthropic is the only one
    reported. *)
Lemma anthropic_stops_at_refusal_witness :
  key_is_set anthropic_refused "ANTHROPIC_API_KEY" = true /\
  anthropic_reports ascii_lower anthropic_refused (@mixed_table float _) =
    [make_report "claude-opus-4-6" "Anthropic" "skip"
                 "auth error — check API key"] /\
  appends (validate_anthropic ascii_lower (fun key => key) anthropic_refused
                              (@mixed_table float _)) tt
          (anthropic_reports ascii_lower anthropic_refused
                             (@mixed_table float _)).
Proof.
  split; [reflexivity|]. split; [reflexivity|].
  apply (anthropic_stops_at_refusal ascii_lower (fun key => key)
           anthropic_refused (@mixed_table float _)).
Defined.

Lemma google_accepts_prefixed_names_witness :
  key_is_set google_only "GOOGLE_API_KEY" = true /\
  str_in "/" "gemini-2.5-pro" = false /\
  In (make_report "gemini-2.5-pro" "Google" "ok" "model available")
     (google_reports google_only [("gemini-2.5-pro", @gemini_pro float _)]).
Proof.
  split; [reflexivity|]. split; [reflexivity|].
  apply (google_accepts_prefixed_names google_only
           [("gemini-2.5-pro", @gemini_pro float _)]
           ["models/gemini-2.5-pro"] "models" "gemini-2.5-pro" gemini_pro
           eq_refl eq_refl (or_introl eq_refl) eq_refl (or_introl eq_refl)
           eq_refl).
Defined.

(** C6 at a concrete input, in binary64.  On the task "Image reasoning" with
    the budget "unlimited" the other signals can add 5 + 7 = 12: the vision
    signal decides.  The five current records of [mixed_table] score 16,
    10.300000000000001, 5.3, 4 and 2, each within 1/4 of its exact score (16,
    10.3, 5.3, 4 and 2); the four with vision come first. *)
Lemma vision_ranked_first_witness :
  (str_in "vision" (ascii_lower "Image reasoning")
   || str_in "image" (ascii_lower "Image reasoning"))%bool = true /\
  vision_decides (ascii_lower "Image reasoning") "unlimited" = true /\
  map (fun entry => (id (snd entry), vision (snd entry)))
      (ranked (@mixed_table float _) (ascii_lower "Image reasoning")
              "unlimited") =
    [("claude-opus-4-6", true); ("gpt-5", true); ("claude-haiku-4-5", true);
     ("pixtral-12b", true); ("deepseek-reasoner", false)] /\
  vision_first (ranked (@mixed_table float _) (ascii_lower "Image reasoning")
                       "unlimited").
Proof.
  split; [reflexivity|]. split; [reflexivity|]. split; [reflexivity|].
  apply (vision_ranked_first ascii_lower (@mixed_table float _) float_value
           "Image reasoning" (Some "unlimited") eq_refl eq_refl).
  - intros m listed _.
    repeat destruct listed as [<-|listed]; try destruct listed;
      split; vm_compute; discriminate.
  - intros m1 m2 l1 _ l2 _.
    repeat destruct l1 as [<-|l1]; try destruct l1;
      repeat destruct l2 as [<-|l2]; try destruct l2; reflexivity.
Defined.

(** X29 at a concrete input: the task and the budget of the counterexample
    of C6, where the other signals can add 4 + 5 + 7 = 16. *)
Lemma vision_decides_is_tight_witness :
  names_vision (ascii_lower "image code reasoning") = true /\
  vision_decides (ascii_lower "image code reasoning")
                 (normalized_budget ascii_lower (Some "unlimited")) = false /\
  map (fun entry => (fst entry, id (snd entry), vision (snd entry)))
      (recommend_top ascii_lower
         (rivals (ascii_lower "image code reasoning") "unlimited")
         "image code reasoning" (Some "unlimited")) =
    [(6%float, "thinker", false); (4%float, "seer", true)] /\
  map (fun entry => (id (snd entry), vision (snd entry)))
      (recommend_top ascii_lower
         (rivals (ascii_lower "image code reasoning")
                 (normalized_budget ascii_lower (Some "unlimited")))
         "image code reasoning" (Some "unlimited")) =
    [("thinker", false); ("seer", true)].
Proof.
  split; [reflexivity|]. split; [reflexivity|]. split; [reflexivity|].
  apply (vision_decides_is_tight ascii_lower "image code reasoning"
           (Some "unlimited")); reflexivity.
Defined.

Lemma openai_dicts_schema :
  Forall (fun item => has_schema (snd item) = true)
         (dicts_of (@openai_table float _)).
Proof. repeat constructor. Qed.

(** C4 at a concrete input: on the dicts of [openai_table] an injection
    payload, the empty string and a string that is not ASCII are answered
    with texts. *)
Lemma tools_return_text_witness :
  Forall (fun item => has_schema (snd item) = true)
         (dicts_of (@openai_table float _)) /\
  raw_get_model_info ascii_lower (dicts_of (@openai_table float _))
                     "gpt-5'; DROP TABLE" =
    Result ("Model `gpt-5'; DROP TABLE` not found in registry." ++ nl ++ nl ++
            "Known models: gpt-4o, gpt-5, gpt-5-mini") /\
  raw_check_model_status ascii_lower (dicts_of (@openai_table float _)) "模型" =
    Result ("`模型` is **not found** in the registry. " ++
            "It may be misspelled, very old, or not yet tracked.") /\
  raw_list_models ascii_lower (dicts_of (@openai_table float _))
                  (Some "<script>") (Some "") None =
    Result "No models found matching the criteria." /\
  raw_recommend_model ascii_lower (dicts_of (@openai_table float _)) "" None =
    Result (recommend_model ascii_lower (@openai_table float _) "" None).
Proof.
  split; [exact openai_dicts_schema|].
  destruct (tools_return_text ascii_lower (dicts_of (@openai_table float _))
              openai_dicts_schema)
    as (listing_ & info & recommendation & report_ & _).
  rewrite info, report_, listing_, recommendation.
  repeat split; vm_compute; reflexivity.
Defined.

(** Without the schema a tool can raise: [get_model_info] and
    [check_model_status] read the key "notes", [list_models] does not;
    [recommend_model] reads the input price of every current record. *)
Example missing_key_raises :
  let no_notes := [("gpt-5", without "notes" (dict_of (@gpt_5 float _)))] in
  let no_price :=
    [("gpt-5", without "pricing_input" (dict_of (@gpt_5 float _)))] in
  raw_get_model_info ascii_lower no_notes "gpt-5" =
    Exception (KeyError "notes") /\
  raw_check_model_status ascii_lower no_notes "gpt-5" =
    Exception (KeyError "notes") /\
  raw_list_models ascii_lower no_notes None None None =
    Result (table_header ++ nl ++ table_rule ++ nl ++
            "| gpt-5 | GPT-5 | OpenAI | current | 400,000 | $1.00 | $10.00 |") /\
  raw_recommend_model ascii_lower no_price "summaries" None =
    Exception (KeyError "pricing_input") /\
  raw_get_model_info ascii_lower [("gpt-5", [])] "gpt-5" =
    Result ("Model `gpt-5` not found in registry." ++ nl ++ nl ++
            "Known models: gpt-5").
Proof. cbv zeta. repeat split; vm_compute; reflexivity. Qed.
